(** * are-we-there-yet: the deployment convergence monitor

    A shallow embedding of [main.go] (both program variants kept in the
    repository) and the properties of its convergence state machine.

    The Go program is sequential and talks to the outside through four
    things only: the ECS / ELBv2 API, the wall clock (tickers, [time.Sleep]),
    standard output and [os.Exit].  They are modelled by a deterministic
    state monad over a [State] that carries the handler object, a virtual
    clock, the log of API calls and the printed output.  What the control
    plane answers, how long each call takes and which ready case a [select]
    picks come from a [ControlPlane] record: the general theorems hold for
    every control plane, the runs at the end are on particular ones.

    Loops that Go writes [for { ... }] take fuel, one unit per iteration;
    a run that uses it up ends in [OutOfFuel]. *)

From Stdlib Require Import ZArith List String Ascii Bool Lia DecimalString.
Import ListNotations.
Local Open Scope string_scope.
Local Open Scope list_scope.
Local Open Scope Z_scope.

(** ** The AWS SDK shapes the program reads

    Scalar fields are pointers in the SDK ([*string], [*int64]): [None] is
    the nil pointer.  Slice elements are never nil (the SDK allocates each
    element it unmarshals). *)

Module aws.
Definition StringValue (p : option string) : string :=
  match p with Some s => s | None => EmptyString end.
Definition Int64Value (p : option Z) : Z :=
  match p with Some z => z | None => 0 end.
End aws.

Module ecs.
Record Deployment := {
  Id : option string;
  RolloutState : option string;
  Status : option string
}.
Record ServiceEvent := {
  EventId : option string;
  Message : option string
}.
Record LoadBalancer := {
  TargetGroupArn : option string
}.
Record Service := {
  DesiredCount : option Z;
  RunningCount : option Z;
  Deployments : list Deployment;
  Events : list ServiceEvent;
  LoadBalancers : list LoadBalancer
}.
Record Task := {
  TaskArn : option string;
  StoppedReason : option string
}.
End ecs.

Module elbv2.
Record TargetHealthT := {
  State : option string
}.
Record TargetHealthDescription := {
  TargetHealth : option TargetHealthT
}.
End elbv2.

(** ** Errors, output, API calls *)

(** A Go [error] value: either what an SDK call returned, or one the
    program made itself with [fmt.Errorf].  A nil error is [None] of
    [option error]. *)
Inductive error :=
| SdkError (msg : string)
| Errorf (msg : string).

Inductive Output :=
| Text (s : string)
| StderrText (s : string)
| PrintDeployments (ds : list ecs.Deployment)
| PrintService (s : ecs.Service)
| PrintEvents (es : list ecs.ServiceEvent)
| PrintTasks (ts : list ecs.Task).

Inductive Call :=
| CallDescribeServices (cluster service : string)
| CallListTasks (cluster service desiredStatus : string)
| CallDescribeTasks (cluster : string) (tasks : list string)
| CallDescribeTargetHealth (targetGroupArn : option string).

Definition isDescribeServices (c : Call) : bool :=
  match c with CallDescribeServices _ _ => true | _ => false end.
Definition isListTasks (c : Call) : bool :=
  match c with CallListTasks _ _ _ => true | _ => false end.
Definition isDescribeTasks (c : Call) : bool :=
  match c with CallDescribeTasks _ _ => true | _ => false end.
Definition isDescribeTargetHealth (c : Call) : bool :=
  match c with CallDescribeTargetHealth _ => true | _ => false end.

(** The answer to one API call: how long the call blocked (nanoseconds) and
    what came back (an SDK error message, or the output). *)
Record Reply (A : Type) := mkReply {
  latency : N;
  payload : string + A
}.
Arguments mkReply {A} _ _.
Arguments latency {A} _.
Arguments payload {A} _.

(** The environment of a run.  The k-th call of an API (counting from 0)
    gets the k-th reply; [selectPick k] is the runtime's choice at the k-th
    [select] when both of its cases are ready ([true]: the first case). *)
Record ControlPlane := {
  DescribeServices : nat -> Reply (list ecs.Service);
  ListTasks : nat -> Reply (list string);
  DescribeTasks : nat -> list string -> Reply (list ecs.Task);
  DescribeTargetHealth :
    nat -> option string -> Reply (list elbv2.TargetHealthDescription);
  selectPick : nat -> bool
}.

(** ** The handler object and the state of a run *)

Record serviceHandler := {
  serviceName : string;
  clusterName : string;
  checkInterval : Z;
  checkTimeout : Z;
  versboseOutput : bool;
  currentOutput : option ecs.Service
}.

Definition newServiceHandler (serviceName clusterName : string)
    (checkInternval checktimeout : Z) : serviceHandler :=
  {| serviceName := serviceName;
     clusterName := clusterName;
     checkInterval := checkInternval;
     checkTimeout := checktimeout;
     versboseOutput := false;
     currentOutput := None |}.

(** [calls] and [out] are newest first. *)
Record State := {
  sh : serviceHandler;
  now : Z;
  calls : list Call;
  out : list Output;
  selects : nat
}.

Definition initState (h : serviceHandler) : State :=
  {| sh := h; now := 0; calls := []; out := []; selects := O |}.

Inductive Outcome (A : Type) :=
| Ok (a : A) (s : State)
| Panic (msg : string) (s : State)
| Exit (code : Z) (s : State)
| OutOfFuel.
Arguments Ok {A} _ _.
Arguments Panic {A} _ _.
Arguments Exit {A} _ _.
Arguments OutOfFuel {A}.

Definition M (A : Type) := State -> Outcome A.

Definition ret {A} (a : A) : M A := fun s => Ok a s.

Definition bind {A B} (c : M A) (k : A -> M B) : M B :=
  fun s =>
    match c s with
    | Ok a s' => k a s'
    | Panic msg s' => Panic msg s'
    | Exit code s' => Exit code s'
    | OutOfFuel => OutOfFuel
    end.

Declare Scope go_scope.
Delimit Scope go_scope with go.
Notation "x <- c ;; k" := (bind c (fun x => k))
  (at level 61, c at next level, right associativity) : go_scope.
Notation "' pat <- c ;; k" := (bind c (fun x => match x with pat => k end))
  (at level 61, pat pattern, c at next level, right associativity) : go_scope.
Notation "c ;; k" := (bind c (fun _ => k))
  (at level 61, right associativity) : go_scope.
Local Open Scope go_scope.

Definition panic {A} (msg : string) : M A := fun s => Panic msg s.
Definition outOfFuel {A} : M A := fun _ => OutOfFuel.
Definition osExit {A} (code : Z) : M A := fun s => Exit code s.

Definition getHandler : M serviceHandler := fun s => Ok (sh s) s.

Definition setCurrentOutput (svc : ecs.Service) : M unit :=
  fun s =>
    Ok tt {| sh := {| serviceName := serviceName (sh s);
                      clusterName := clusterName (sh s);
                      checkInterval := checkInterval (sh s);
                      checkTimeout := checkTimeout (sh s);
                      versboseOutput := versboseOutput (sh s);
                      currentOutput := Some svc |};
             now := now s; calls := calls s; out := out s;
             selects := selects s |}.

Definition setVerbose (trigger : bool) : M unit :=
  fun s =>
    Ok tt {| sh := {| serviceName := serviceName (sh s);
                      clusterName := clusterName (sh s);
                      checkInterval := checkInterval (sh s);
                      checkTimeout := checkTimeout (sh s);
                      versboseOutput := trigger;
                      currentOutput := currentOutput (sh s) |};
             now := now s; calls := calls s; out := out s;
             selects := selects s |}.

(** [sh.currentOutput] dereferenced: a nil pointer panics. *)
Definition getCurrentOutput : M ecs.Service :=
  fun s =>
    match currentOutput (sh s) with
    | Some svc => Ok svc s
    | None => Panic "nil pointer dereference" s
    end.

(** [*p] on a pointer to a scalar. *)
Definition deref {A} (p : option A) : M A :=
  match p with
  | Some a => ret a
  | None => panic "nil pointer dereference"
  end.

Definition emit (o : Output) : M unit :=
  fun s =>
    Ok tt {| sh := sh s; now := now s; calls := calls s;
             out := o :: out s; selects := selects s |}.

Definition nl : string := String (ascii_of_nat 10) EmptyString.

Definition Println (s : string) : M unit := emit (Text (s ++ nl)%string).
Definition Printf (s : string) : M unit := emit (Text s).

(** The [%d] verb. *)
Definition fmt_d (z : Z) : string := NilZero.string_of_int (Z.to_int z).

(** ** Time: durations, sleeping, tickers and [select] *)

Module time.
Definition Nanosecond : Z := 1.
Definition Second : Z := 1000000000.
Definition Minute : Z := 60 * Second.
End time.

Definition advance (d : Z) : M unit :=
  fun s =>
    Ok tt {| sh := sh s; now := now s + Z.max 0 d; calls := calls s;
             out := out s; selects := selects s |}.

Definition Sleep (d : Z) : M unit := advance d.

(** A ticker sends on a channel of capacity one every [period]
    nanoseconds, dropping ticks while the channel is full: a tick is there
    to receive once a firing time later than the last receive has passed. *)
Record Ticker := {
  start : Z;
  period : Z;
  lastRecv : Z
}.

Definition NewTicker (d : Z) : M Ticker :=
  fun s =>
    if d <=? 0 then Panic "non-positive interval for NewTicker" s
    else Ok {| start := now s; period := d; lastRecv := now s |} s.

Definition nextFire (t : Ticker) : Z :=
  start t + period t * ((lastRecv t - start t) / period t + 1).

Definition recv (t : Ticker) (at_ : Z) : Ticker :=
  {| start := start t; period := period t; lastRecv := at_ |}.

Inductive Fired := FiredFirst | FiredSecond.

(** ** The process: flags, build version, session

    The command line as [flag.Parse] leaves it, the [version] the binary
    was linked with, the text [flag.PrintDefaults] writes, what
    [session.NewSession] answers (an error message or a session), and the
    text the SDK renders for a [DescribeServices] output without
    services. *)

Record Flags := {
  flagServiceName : string;
  flagClusterName : string;
  flagCheckInterval : Z;
  flagTimeout : Z;
  flagVerbose : bool;
  flagVersion : bool;
  flagHelp : bool
}.

Record Process := {
  flags : Flags;
  version : string;
  usage : string;
  sessionError : option string;
  emptyOutputText : string
}.

(** [ecsService := newServiceHandler(...)]: the handler of the run. *)
Definition setHandler (h : serviceHandler) : M unit :=
  fun s =>
    Ok tt {| sh := h; now := now s; calls := calls s; out := out s;
             selects := selects s |}.

(** Arithmetic on [int64] (and [time.Duration]) wraps around. *)
Definition int64 (z : Z) : Z := (z + 2 ^ 63) mod 2 ^ 64 - 2 ^ 63.

Definition showVersion (p : Process) : M unit := Println (version p).

(** [verbosePrint] for a format that ends up as [text]. *)
Definition verbosePrint (p : Process) (text : string) : M unit :=
  if flagVerbose (flags p) then Printf text else ret tt.

(** ** The parts both program variants share *)

Section Shared.
Variable cp : ControlPlane.

Definition countCalls (f : Call -> bool) (s : State) : nat :=
  List.length (filter f (calls s)).

(** One blocking API call: logged, and the clock moves by its latency. *)
Definition apiCall {A} (c : Call) (r : Reply A) : M (string + A) :=
  fun s =>
    Ok (payload r)
       {| sh := sh s; now := now s + Z.of_N (latency r);
          calls := c :: calls s; out := out s; selects := selects s |}.

(** [sh.session.DescribeServices(sh.describeServiceInput)] *)
Definition callDescribeServices : M (string + list ecs.Service) :=
  fun s =>
    apiCall (CallDescribeServices (clusterName (sh s)) (serviceName (sh s)))
            (DescribeServices cp (countCalls isDescribeServices s)) s.

Definition callListTasks : M (string + list string) :=
  fun s =>
    apiCall (CallListTasks (clusterName (sh s)) (serviceName (sh s)) "STOPPED")
            (ListTasks cp (countCalls isListTasks s)) s.

Definition callDescribeTasks (tasks : list string)
  : M (string + list ecs.Task) :=
  fun s =>
    apiCall (CallDescribeTasks (clusterName (sh s)) tasks)
            (DescribeTasks cp (countCalls isDescribeTasks s) tasks) s.

Definition callDescribeTargetHealth (arn : option string)
  : M (string + list elbv2.TargetHealthDescription) :=
  fun s =>
    apiCall (CallDescribeTargetHealth arn)
            (DescribeTargetHealth cp (countCalls isDescribeTargetHealth s) arn)
            s.

(** [select] over the channels of two tickers.  The goroutine blocks
    until the earlier of the two next firing times (not at all when one
    has passed already); of two ready cases the runtime picks one. *)
Definition select2 (a b : Ticker) : M (Fired * Ticker * Ticker) :=
  fun s =>
    let t := Z.max (now s) (Z.min (nextFire a) (nextFire b)) in
    let ra := nextFire a <=? t in
    let rb := nextFire b <=? t in
    let first := if ra && rb then selectPick cp (selects s) else ra in
    let s' := {| sh := sh s; now := t; calls := calls s; out := out s;
                 selects := S (selects s) |} in
    if first then Ok (FiredFirst, recv a t, b) s'
    else Ok (FiredSecond, a, recv b t) s'.

Definition Error (e : error) : string :=
  match e with SdkError msg => msg | Errorf msg => msg end.

Definition enableVerbosePrinting (trigger : bool) : M unit :=
  setVerbose trigger.

Definition deploymentState (deployment : ecs.Deployment)
    (desiredState : string) : bool :=
  (aws.StringValue (ecs.RolloutState deployment) =? desiredState)%string.

Definition describeServiceRaw : M (string + list ecs.Service) :=
  callDescribeServices.

Definition refresh : M (option error) :=
  r <- callDescribeServices ;;
  match r with
  | inl msg => ret (Some (SdkError msg))
  | inr services =>
      match services with
      | [] => ret (Some (Errorf "service not found"))
      | svc :: _ => setCurrentOutput svc ;; ret None
      end
  end.

(** [details] aliases [sh.currentOutput]: the events of the cached
    snapshot are emptied, not those of a copy. *)
Definition printDetails : M unit :=
  details <- getCurrentOutput ;;
  let details' :=
    {| ecs.DesiredCount := ecs.DesiredCount details;
       ecs.RunningCount := ecs.RunningCount details;
       ecs.Deployments := ecs.Deployments details;
       ecs.Events := [];
       ecs.LoadBalancers := ecs.LoadBalancers details |} in
  setCurrentOutput details' ;;
  emit (PrintService details').

(** The closure [isComplete] of [waitForRunningToMatchDesired]. *)
Definition countsMatch : M bool :=
  svc <- getCurrentOutput ;;
  ret (aws.Int64Value (ecs.DesiredCount svc)
       =? aws.Int64Value (ecs.RunningCount svc)).

(** The [for { select { ... } }] of [waitForRunningToMatchDesired]; one
    unit of fuel per iteration. *)
Fixpoint waitForRunningToMatchDesired_loop (fuel : nat)
    (checkTimer timeout : Ticker) : M (option error) :=
  match fuel with
  | O => outOfFuel
  | S fuel' =>
      '(fired, checkTimer', timeout') <- select2 checkTimer timeout ;;
      match fired with
      | FiredFirst =>
          let waitAnother : M (option error) :=
            svc <- getCurrentOutput ;;
            h <- getHandler ;;
            desired <- deref (ecs.DesiredCount svc) ;;
            running <- deref (ecs.RunningCount svc) ;;
            Printf ("Waiting another " ++ fmt_d (checkInterval h)
                    ++ " seconds for running to match desired, currently desired: "
                    ++ fmt_d desired ++ " and running: " ++ fmt_d running
                    ++ "." ++ nl)%string ;;
            waitForRunningToMatchDesired_loop fuel' checkTimer' timeout' in
          Println "Checking to see if RUNNING count matches DESIRED count." ;;
          _ <- refresh ;;
          ok <- countsMatch ;;
          if ok then
            Println "Running count is currently correct, waiting 15 seconds to see it stays online." ;;
            Sleep (time.Second * 15) ;;
            ok' <- countsMatch ;;
            if ok' then ret None else waitAnother
          else waitAnother
      | FiredSecond =>
          ret (Some (Errorf "timeouted out waiting for desired to match running"))
      end
  end.

Definition waitForRunningToMatchDesired (fuel : nat) : M (option error) :=
  ok <- countsMatch ;;
  if ok then ret None
  else
    checkTimer <- NewTicker (time.Second * 10) ;;
    timeout <- NewTicker (time.Minute * 10) ;;
    waitForRunningToMatchDesired_loop fuel checkTimer timeout.

Definition checkPendingCount (fuel : nat) : M (option error) :=
  err <- refresh ;;
  match err with
  | Some e => ret (Some e)
  | None =>
      svc <- getCurrentOutput ;;
      if negb (aws.Int64Value (ecs.DesiredCount svc)
               =? aws.Int64Value (ecs.RunningCount svc))
      then
        err <- waitForRunningToMatchDesired fuel ;;
        match err with
        | Some e => ret (Some e)
        | None => ret None
        end
      else ret None
  end.

Definition len {A} (l : list A) : Z := Z.of_nat (List.length l).

(** The adjustment of [n] that each of the four print functions makes
    before slicing, with [l] the length of the slice:
    [if l < n { n = l - 1; if n == 0 { n = 1 } }]. *)
Definition clampCount (l n : Z) : Z :=
  if l <? n then
    let n := l - 1 in
    if n =? 0 then 1 else n
  else n.

(** [s[0:n]]: the bounds are checked at run time.  (Go checks the upper
    bound against the capacity; the slices here come straight from the
    SDK and are taken with capacity equal to length.) *)
Definition slice0 {A} (l : list A) (n : Z) : M (list A) :=
  if (n <? 0) || (len l <? n)
  then panic "slice bounds out of range"
  else ret (firstn (Z.to_nat n) l).

End Shared.

(** ** The first program variant: every deployment in progress is waited for *)

Module V1.
Section Variant.
Variable cp : ControlPlane.

(** The closure [isComplete] of [waitForDeployment], over a deployment
    list: the first deployment with the id decides. *)
Fixpoint isCompleteIn (deployments : list ecs.Deployment)
    (deploymentId : string) : M (string * bool) :=
  match deployments with
  | [] => ret ("NOT_FOUND", false)
  | deployment :: rest =>
      if (aws.StringValue (ecs.Id deployment) =? deploymentId)%string then
        if deploymentState deployment "COMPLETED" then
          Println "Deployment is complete" ;;
          ret (aws.StringValue (ecs.RolloutState deployment), true)
        else ret (aws.StringValue (ecs.RolloutState deployment), false)
      else isCompleteIn rest deploymentId
  end.

Definition isComplete (deploymentId : string) : M (string * bool) :=
  svc <- getCurrentOutput ;;
  isCompleteIn (ecs.Deployments svc) deploymentId.

Fixpoint waitForDeployment_loop (fuel : nat) (deploymentId : string)
    (checkTimer timeout : Ticker) : M (option error) :=
  match fuel with
  | O => outOfFuel
  | S fuel' =>
      '(fired, checkTimer', timeout') <- select2 cp checkTimer timeout ;;
      match fired with
      | FiredFirst =>
          Printf ("Checking if " ++ deploymentId ++ " is now COMPLETE"
                  ++ nl)%string ;;
          err <- refresh cp ;;
          match err with
          | Some e => ret (Some e)
          | None =>
              '(status, ok) <- isComplete deploymentId ;;
              if ok then ret None
              else if (status =? "NOT_FOUND")%string then
                ret (Some (Errorf "deployment disappeared"))
              else
                h <- getHandler ;;
                Printf ("Waiting another " ++ fmt_d (checkInterval h)
                        ++ " seconds for deployment " ++ deploymentId
                        ++ " to change to COMPLETED, currently " ++ status
                        ++ nl)%string ;;
                waitForDeployment_loop fuel' deploymentId checkTimer' timeout'
          end
      | FiredSecond =>
          ret (Some (Errorf "timeouted out waiting for deployment to happen"))
      end
  end.

Definition waitForDeployment (fuel : nat) (deploymentId : string)
  : M (option error) :=
  checkTimer <- NewTicker (time.Second * 10) ;;
  timeout <- NewTicker (time.Minute * 10) ;;
  waitForDeployment_loop fuel deploymentId checkTimer timeout.

(** The [range] loop of [checkDeployments].  The slice ranged over is the
    one read when the loop started: a refresh inside [waitForDeployment]
    replaces [sh.currentOutput] but not the slice under iteration. *)
Fixpoint checkDeployments_range (fuel : nat)
    (deployments : list ecs.Deployment) : M (option error) :=
  match deployments with
  | [] => ret None
  | deployment :: rest =>
      if deploymentState deployment "COMPLETED" then
        checkDeployments_range fuel rest
      else if deploymentState deployment "IN_PROGRESS" then
        id <- deref (ecs.Id deployment) ;;
        Println ("Found in progress deployment " ++ id) ;;
        err <- waitForDeployment fuel (aws.StringValue (ecs.Id deployment)) ;;
        match err with
        | Some e => ret (Some e)
        | None => checkDeployments_range fuel rest
        end
      else checkDeployments_range fuel rest
  end.

Definition checkDeployments (fuel : nat) : M (option error) :=
  err <- refresh cp ;;
  match err with
  | Some e => ret (Some e)
  | None =>
      svc <- getCurrentOutput ;;
      checkDeployments_range fuel (ecs.Deployments svc)
  end.

Definition printLastNEvents (n : Z) : M (option error) :=
  err <- refresh cp ;;
  match err with
  | Some e => ret (Some e)
  | None =>
      svc <- getCurrentOutput ;;
      let n := clampCount (len (ecs.Events svc)) n in
      events <- slice0 (ecs.Events svc) n ;;
      emit (PrintEvents events) ;;
      ret None
  end.

Definition printLastNTasks (n : Z) : M (option error) :=
  r <- callListTasks cp ;;
  match r with
  | inl msg => ret (Some (SdkError msg))
  | inr taskArns =>
      let n := clampCount (len taskArns) n in
      emit (StderrText (fmt_d (len taskArns) ++ nl)%string) ;;
      emit (StderrText (fmt_d n ++ nl)%string) ;;
      tasks <- slice0 taskArns n ;;
      r <- callDescribeTasks cp tasks ;;
      match r with
      | inl msg => ret (Some (SdkError msg))
      | inr described => emit (PrintTasks described) ;; ret None
      end
  end.

Definition exitOut {A} (code : Z) : M A :=
  h <- getHandler ;;
  Printf ("Here is some trouble shooting information for "
          ++ serviceName h ++ "." ++ nl)%string ;;
  _ <- printLastNEvents 10 ;;
  Println "Historical events, showing maximum 10:" ;;
  err <- printLastNEvents 10 ;;
  match err with
  | Some e =>
      Printf ("There was an error listing the events. Error: " ++ Error e)
  | None => ret tt
  end ;;
  Println "STOPPED services, showing maximum 5:" ;;
  err <- printLastNTasks 5 ;;
  match err with
  | Some e =>
      Printf ("There was an error listing the STOPPED tasks. Error: "
              ++ Error e)
  | None => ret tt
  end ;;
  osExit code.
Definition main (fuel : nat) (p : Process) : M unit :=
  if flagHelp (flags p) then emit (StderrText (usage p))
  else if flagVersion (flags p) then showVersion p
  else
    match sessionError p with
    | Some msg =>
        Println ("There was an error starting the AWS Session. Error: "
                 ++ msg) ;;
        osExit 1
    | None =>
        setHandler (newServiceHandler (flagServiceName (flags p))
                      (flagClusterName (flags p))
                      (flagCheckInterval (flags p)) (flagTimeout (flags p))) ;;
        enableVerbosePrinting (flagVerbose (flags p)) ;;
        serviceDetails <- describeServiceRaw cp ;;
        match serviceDetails with
        | inl msg =>
            Printf ("Error describing service. Error: " ++ msg) ;;
            osExit 1
        | inr [] =>
            Println "Service not found" ;;
            verbosePrint p (emptyOutputText p ++ nl)%string ;;
            osExit 1
        | inr (_ :: _) =>
            err <- refresh cp ;;
            match err with
            | Some e =>
                Printf ("Failed to refresh service details. Error: "
                        ++ Error e ++ nl)%string ;;
                osExit 1
            | None => ret tt
            end ;;
            (if flagVerbose (flags p) then printDetails else ret tt) ;;
            Println "Checking if there is a pending deployment." ;;
            err <- checkDeployments fuel ;;
            match err with
            | Some e =>
                Printf ("there was an error while checking the state of deployments. Error: "
                        ++ Error e ++ nl)%string ;;
                exitOut 1
            | None => ret tt
            end ;;
            Println "Deployments checked." ;;
            Println "Checking that running matches desired tasks." ;;
            err <- checkPendingCount cp fuel ;;
            match err with
            | Some e =>
                Printf ("There was an error checking the pending out. Error: "
                        ++ Error e ++ nl)%string ;;
                exitOut 1
            | None => ret tt
            end ;;
            Println "Service looks good."
        end
    end.
End Variant.
End V1.

(** ** The second program variant: the PRIMARY deployment is tracked, and
       the target group is checked *)

Module V2.
Section Variant.
Variable cp : ControlPlane.

Fixpoint firstPrimary (deployments : list ecs.Deployment) : string :=
  match deployments with
  | [] => EmptyString
  | deployment :: rest =>
      if (aws.StringValue (ecs.Status deployment) =? "PRIMARY")%string
      then aws.StringValue (ecs.Id deployment)
      else firstPrimary rest
  end.

Definition getActiveDeploymentId : M string :=
  svc <- getCurrentOutput ;;
  emit (PrintDeployments (ecs.Deployments svc)) ;;
  ret (firstPrimary (ecs.Deployments svc)).

(** The closure [isComplete] of [waitForDeployment], over a deployment
    list: the first deployment with the id decides. *)
Fixpoint isCompleteIn (deployments : list ecs.Deployment)
    (deploymentId : string) : M (string * bool) :=
  match deployments with
  | [] => ret ("NOT_FOUND", false)
  | deployment :: rest =>
      if (aws.StringValue (ecs.Id deployment) =? deploymentId)%string then
        if deploymentState deployment "COMPLETED" then
          Printf ("Deployment " ++ aws.StringValue (ecs.Id deployment)
                  ++ " is in state "
                  ++ aws.StringValue (ecs.RolloutState deployment)
                  ++ "." ++ nl)%string ;;
          ret (aws.StringValue (ecs.RolloutState deployment), true)
        else ret (aws.StringValue (ecs.RolloutState deployment), false)
      else isCompleteIn rest deploymentId
  end.

Definition isComplete (deploymentId : string) : M (string * bool) :=
  svc <- getCurrentOutput ;;
  isCompleteIn (ecs.Deployments svc) deploymentId.

Fixpoint waitForDeployment_loop (fuel : nat) (deploymentId : string)
    (checkTimer timeout : Ticker) : M (option error) :=
  match fuel with
  | O => outOfFuel
  | S fuel' =>
      '(fired, checkTimer', timeout') <- select2 cp checkTimer timeout ;;
      match fired with
      | FiredFirst =>
          Printf ("Checking if " ++ deploymentId ++ " is now COMPLETED."
                  ++ nl)%string ;;
          err <- refresh cp ;;
          match err with
          | Some e => ret (Some e)
          | None =>
              '(status, ok) <- isComplete deploymentId ;;
              if ok then ret None
              else if (status =? "NOT_FOUND")%string then
                ret (Some (Errorf "deployment disappeared"))
              else
                h <- getHandler ;;
                Printf ("Waiting another " ++ fmt_d (checkInterval h)
                        ++ " seconds for deployment " ++ deploymentId
                        ++ " to change to COMPLETED, currently " ++ status
                        ++ "." ++ nl)%string ;;
                waitForDeployment_loop fuel' deploymentId checkTimer' timeout'
          end
      | FiredSecond =>
          ret (Some (Errorf "timeouted out waiting for deployment to happen"))
      end
  end.

Definition waitForDeployment (fuel : nat) (deploymentId : string)
  : M (option error) :=
  '(_, ok) <- isComplete deploymentId ;;
  if ok then ret None
  else
    checkTimer <- NewTicker (time.Second * 10) ;;
    timeout <- NewTicker (time.Minute * 10) ;;
    waitForDeployment_loop fuel deploymentId checkTimer timeout.

Definition checkDeployments (fuel : nat) : M (option error) :=
  err <- refresh cp ;;
  match err with
  | Some e => ret (Some e)
  | None =>
      deploymentToCheck <- getActiveDeploymentId ;;
      Printf ("Current Primary deployment is: " ++ deploymentToCheck
              ++ "." ++ nl)%string ;;
      waitForDeployment fuel deploymentToCheck
  end.

Definition printLastNEvents (n : Z) : M (option error) :=
  err <- refresh cp ;;
  match err with
  | Some e => ret (Some e)
  | None =>
      svc <- getCurrentOutput ;;
      if len (ecs.Events svc) =? 0 then
        Println "No events found" ;;
        ret None
      else
        let n := clampCount (len (ecs.Events svc)) n in
        events <- slice0 (ecs.Events svc) n ;;
        emit (PrintEvents events) ;;
        ret None
  end.

Definition printLastNTasks (n : Z) : M (option error) :=
  r <- callListTasks cp ;;
  match r with
  | inl msg => ret (Some (SdkError msg))
  | inr taskArns =>
      if len taskArns =? 0 then
        Printf "AWS API returned no STOPPED tasks to show." ;;
        ret None
      else
        let n := clampCount (len taskArns) n in
        tasks <- slice0 taskArns n ;;
        r <- callDescribeTasks cp tasks ;;
        match r with
        | inl msg => ret (Some (SdkError msg))
        | inr described => emit (PrintTasks described) ;; ret None
        end
  end.

(** The [range] loop of [checkTargetGroup] over the target health
    descriptions; [target.TargetHealth] is a pointer. *)
Fixpoint checkTargetGroup_range
    (targets : list elbv2.TargetHealthDescription) (allHealthy : bool)
  : M bool :=
  match targets with
  | [] => ret allHealthy
  | target :: rest =>
      health <- deref (elbv2.TargetHealth target) ;;
      if negb (aws.StringValue (elbv2.State health) =? "healthy")%string
      then checkTargetGroup_range rest false
      else checkTargetGroup_range rest allHealthy
  end.

Definition checkTargetGroup : M (bool * option error) :=
  err <- refresh cp ;;
  match err with
  | Some e => ret (false, Some e)
  | None =>
      svc <- getCurrentOutput ;;
      match ecs.LoadBalancers svc with
      | [] =>
          Println "No load balancer to check." ;;
          ret (true, None)
      | lb :: _ =>
          r <- callDescribeTargetHealth cp (ecs.TargetGroupArn lb) ;;
          match r with
          | inl msg => ret (false, Some (SdkError msg))
          | inr descriptions =>
              allHealthy <- checkTargetGroup_range descriptions true ;;
              if negb allHealthy then ret (false, None)
              else ret (true, None)
          end
      end
  end.

Definition exitOut {A} (code : Z) : M A :=
  h <- getHandler ;;
  Printf ("Here is some trouble shooting information for "
          ++ serviceName h ++ "." ++ nl)%string ;;
  Println "Historical events, showing maximum 10:" ;;
  err <- printLastNEvents 10 ;;
  match err with
  | Some e =>
      Printf ("There was an error listing the events. Error: " ++ Error e)
  | None => ret tt
  end ;;
  Println "STOPPED services, showing maximum 5:" ;;
  err <- printLastNTasks 5 ;;
  match err with
  | Some e =>
      Printf ("There was an error listing the STOPPED tasks. Error: "
              ++ Error e)
  | None => ret tt
  end ;;
  osExit code.
(** One round of the [for !serviceOk] loop of [main] per unit of
    [rounds]; [fuel] is for the poll loops inside. *)
Fixpoint main_converge (rounds fuel : nat) (p : Process) : M unit :=
  match rounds with
  | O => outOfFuel
  | S rounds' =>
      Println "Checking that running matches desired tasks." ;;
      err <- checkPendingCount cp fuel ;;
      match err with
      | Some e =>
          Printf ("There was an error checking the pending count. Error: "
                  ++ Error e ++ nl)%string ;;
          exitOut 1
      | None => ret tt
      end ;;
      Println "Checking the target group is in a good state." ;;
      '(ok, err) <- checkTargetGroup ;;
      match err with
      | Some e =>
          Printf ("There was an error checking the service target group. Error: "
                  ++ Error e ++ nl)%string ;;
          exitOut 1
      | None => ret tt
      end ;;
      if ok then ret tt
      else
        Printf ("Waiting " ++ fmt_d (flagCheckInterval (flags p))
                ++ " seconds before checking tasks again." ++ nl)%string ;;
        Sleep (int64 (time.Second * flagCheckInterval (flags p))) ;;
        main_converge rounds' fuel p
  end.

Definition main (rounds fuel : nat) (p : Process) : M unit :=
  if flagHelp (flags p) then emit (StderrText (usage p))
  else if flagVersion (flags p) then showVersion p
  else
    match sessionError p with
    | Some msg =>
        Println ("There was an error starting the AWS Session. Error: "
                 ++ msg) ;;
        osExit 1
    | None =>
        setHandler (newServiceHandler (flagServiceName (flags p))
                      (flagClusterName (flags p))
                      (flagCheckInterval (flags p)) (flagTimeout (flags p))) ;;
        enableVerbosePrinting (flagVerbose (flags p)) ;;
        serviceDetails <- describeServiceRaw cp ;;
        match serviceDetails with
        | inl msg =>
            Printf ("Error describing service. Error: " ++ msg) ;;
            osExit 1
        | inr [] =>
            Println "Service not found" ;;
            verbosePrint p (emptyOutputText p ++ nl)%string ;;
            osExit 1
        | inr (_ :: _) =>
            err <- refresh cp ;;
            match err with
            | Some e =>
                Printf ("Failed to refresh service details. Error: "
                        ++ Error e ++ nl)%string ;;
                osExit 1
            | None => ret tt
            end ;;
            (if flagVerbose (flags p) then printDetails else ret tt) ;;
            Println "Looking at deployments status." ;;
            err <- checkDeployments fuel ;;
            match err with
            | Some e =>
                Printf ("there was an error while checking the state of deployments. Error: "
                        ++ Error e ++ nl)%string ;;
                exitOut 1
            | None => ret tt
            end ;;
            Println "Deployments checked." ;;
            main_converge rounds fuel p ;;
            Println "Service looks good."
        end
    end.
End Variant.
End V2.

(** ** Vocabulary of the properties *)

Definition hasId (deploymentId : string) (d : ecs.Deployment) : bool :=
  (aws.StringValue (ecs.Id d) =? deploymentId)%string.

(** The deployment tracked under an id: the first one that carries it. *)
Definition findDeployment (deploymentId : string) (svc : ecs.Service)
  : option ecs.Deployment :=
  find (hasId deploymentId) (ecs.Deployments svc).

Definition isPrimary (d : ecs.Deployment) : bool :=
  (aws.StringValue (ecs.Status d) =? "PRIMARY")%string.

Definition rolloutState (d : ecs.Deployment) : string :=
  aws.StringValue (ecs.RolloutState d).

Definition targetHealthy (t : elbv2.TargetHealthDescription) : bool :=
  match elbv2.TargetHealth t with
  | Some h => (aws.StringValue (elbv2.State h) =? "healthy")%string
  | None => false
  end.

Definition hasTargetHealth (t : elbv2.TargetHealthDescription) : bool :=
  match elbv2.TargetHealth t with Some _ => true | None => false end.

(** The instant at which a [select] over two tickers returns, and whether
    it takes its first case. *)
Definition selectTime (a b : Ticker) (s : State) : Z :=
  Z.max (now s) (Z.min (nextFire a) (nextFire b)).

Definition firesFirst (cp : ControlPlane) (a b : Ticker) (s : State) : bool :=
  match select2 cp a b s with
  | Ok (FiredFirst, _, _) _ => true
  | _ => false
  end.

(** States reached by the elementary effects. *)
Definition withSnapshot (h : serviceHandler) (svc : ecs.Service)
  : serviceHandler :=
  {| serviceName := serviceName h; clusterName := clusterName h;
     checkInterval := checkInterval h; checkTimeout := checkTimeout h;
     versboseOutput := versboseOutput h; currentOutput := Some svc |}.

Definition describeCall (s : State) : Call :=
  CallDescribeServices (clusterName (sh s)) (serviceName (sh s)).

Definition afterCall (c : Call) (lat : N) (s : State) : State :=
  {| sh := sh s; now := now s + Z.of_N lat; calls := c :: calls s;
     out := out s; selects := selects s |}.

Definition afterRefresh (lat : N) (svc : ecs.Service) (s : State) : State :=
  {| sh := withSnapshot (sh s) svc; now := now s + Z.of_N lat;
     calls := describeCall s :: calls s; out := out s;
     selects := selects s |}.

Definition printed (o : Output) (s : State) : State :=
  {| sh := sh s; now := now s; calls := calls s; out := o :: out s;
     selects := selects s |}.

Definition afterSelect (t : Z) (s : State) : State :=
  {| sh := sh s; now := t; calls := calls s; out := out s;
     selects := S (selects s) |}.

Definition slept (d : Z) (s : State) : State :=
  {| sh := sh s; now := now s + Z.max 0 d; calls := calls s; out := out s;
     selects := selects s |}.

(** The reply the next [DescribeServices] call will get. *)
Definition nextDescribeServices (cp : ControlPlane) (s : State)
  : Reply (list ecs.Service) :=
  DescribeServices cp (countCalls isDescribeServices s).

Definition nextDescribeTargetHealth (cp : ControlPlane) (s : State)
    (arn : option string) : Reply (list elbv2.TargetHealthDescription) :=
  DescribeTargetHealth cp (countCalls isDescribeTargetHealth s) arn.

Definition nextListTasks (cp : ControlPlane) (s : State)
  : Reply (list string) :=
  ListTasks cp (countCalls isListTasks s).

(** What the two variants print on a tick of [waitForDeployment]. *)
Definition V1_checking (deploymentId : string) : Output :=
  Text ("Checking if " ++ deploymentId ++ " is now COMPLETE" ++ nl)%string.

Definition V2_checking (deploymentId : string) : Output :=
  Text ("Checking if " ++ deploymentId ++ " is now COMPLETED." ++ nl)%string.

Definition V1_waiting (h : serviceHandler) (deploymentId status : string)
  : Output :=
  Text ("Waiting another " ++ fmt_d (checkInterval h)
        ++ " seconds for deployment " ++ deploymentId
        ++ " to change to COMPLETED, currently " ++ status ++ nl)%string.

Definition V2_waiting (h : serviceHandler) (deploymentId status : string)
  : Output :=
  Text ("Waiting another " ++ fmt_d (checkInterval h)
        ++ " seconds for deployment " ++ deploymentId
        ++ " to change to COMPLETED, currently " ++ status ++ "." ++ nl)%string.

Definition V1_complete : Output := Text ("Deployment is complete" ++ nl)%string.

Definition V2_complete (d : ecs.Deployment) : Output :=
  Text ("Deployment " ++ aws.StringValue (ecs.Id d) ++ " is in state "
        ++ aws.StringValue (ecs.RolloutState d) ++ "." ++ nl)%string.

(** The state in which a tick has received from the ticker, announced the
    check and refreshed the snapshot to [svc]. *)
Definition tickState (checking : Output) (a b : Ticker) (lat : N)
    (svc : ecs.Service) (s : State) : State :=
  afterRefresh lat svc (printed checking (afterSelect (selectTime a b s) s)).

Definition troubleshooting (h : serviceHandler) : Output :=
  Text ("Here is some trouble shooting information for "
        ++ serviceName h ++ "." ++ nl)%string.

(** What a tick of [waitForRunningToMatchDesired] prints. *)
Definition checkingCounts : Output :=
  Text ("Checking to see if RUNNING count matches DESIRED count." ++ nl)%string.

Definition countsCorrect : Output :=
  Text ("Running count is currently correct, waiting 15 seconds to see it stays online."
        ++ nl)%string.

Definition waitingCounts (h : serviceHandler) (desired running : Z) : Output :=
  Text ("Waiting another " ++ fmt_d (checkInterval h)
        ++ " seconds for running to match desired, currently desired: "
        ++ fmt_d desired ++ " and running: " ++ fmt_d running
        ++ "." ++ nl)%string.

(** Observations of the end of a run. *)
Definition returned {A} (o : Outcome A) : option A :=
  match o with Ok a _ => Some a | _ => None end.

Definition finalState {A} (o : Outcome A) : option State :=
  match o with
  | Ok _ s | Panic _ s | Exit _ s => Some s
  | OutOfFuel => None
  end.

Definition clockAtEnd {A} (o : Outcome A) : option Z :=
  option_map now (finalState o).

Definition callsAtEnd {A} (o : Outcome A) : option (list Call) :=
  option_map calls (finalState o).

Definition outputAtEnd {A} (o : Outcome A) : option (list Output) :=
  option_map out (finalState o).

Definition selectsAtEnd {A} (o : Outcome A) : option nat :=
  option_map selects (finalState o).

(** ** Concrete control planes and states used as examples *)

Module Examples.
Definition deployment (id state status : string) : ecs.Deployment :=
  {| ecs.Id := Some id; ecs.RolloutState := Some state;
     ecs.Status := Some status |}.

Definition event (id message : string) : ecs.ServiceEvent :=
  {| ecs.EventId := Some id; ecs.Message := Some message |}.

Definition service (desired running : Z)
    (deployments : list ecs.Deployment) (events : list ecs.ServiceEvent)
    (loadBalancers : list ecs.LoadBalancer) : ecs.Service :=
  {| ecs.DesiredCount := Some desired; ecs.RunningCount := Some running;
     ecs.Deployments := deployments; ecs.Events := events;
     ecs.LoadBalancers := loadBalancers |}.

Definition task (arn : string) : ecs.Task :=
  {| ecs.TaskArn := Some arn; ecs.StoppedReason := Some "Essential container in task exited" |}.

Definition target (state : string) : elbv2.TargetHealthDescription :=
  {| elbv2.TargetHealth := Some {| elbv2.State := Some state |} |}.

(** A control plane that answers at once, describes every task asked
    for, and whose [DescribeServices] answers, stopped tasks and target
    health are given. *)
Definition plane (services : nat -> string + list ecs.Service)
    (stopped : list string)
    (health : option string -> list elbv2.TargetHealthDescription)
  : ControlPlane :=
  {| DescribeServices := fun k => mkReply 0 (services k);
     ListTasks := fun _ => mkReply 0 (inr stopped);
     DescribeTasks := fun _ arns => mkReply 0 (inr (map task arns));
     DescribeTargetHealth := fun _ arn => mkReply 0 (inr (health arn));
     selectPick := fun _ => true |}.

Definition webHandler : serviceHandler :=
  newServiceHandler "web" "prod" 10 10.

Definition describeWeb : Call := CallDescribeServices "prod" "web".

(** The tickers of a poll loop entered at time 0, [ticks] ticks later. *)
Definition checkTimerAfter (ticks : Z) : Ticker :=
  {| start := 0; period := time.Second * 10;
     lastRecv := ticks * (time.Second * 10) |}.

Definition timeoutTicker : Ticker :=
  {| start := 0; period := time.Minute * 10; lastRecv := 0 |}.

(** The state of a poll loop entered at time 0 after [ticks] ticks that
    each refreshed at once, with [svc] the snapshot in the cache. *)
Definition pollingState (ticks : nat) (svc : ecs.Service) : State :=
  {| sh := withSnapshot webHandler svc;
     now := Z.of_nat ticks * (time.Second * 10);
     calls := repeat describeWeb (S ticks);
     out := [];
     selects := ticks |}.

(** The running count reaches the desired count on the first tick and
    falls back right after. *)
Definition flapping (k : nat) : ecs.Service :=
  match k with
  | 1%nat => service 2 2 [] [] []
  | _ => service 2 1 [] [] []
  end.
Definition flappingPlane : ControlPlane :=
  plane (fun k => inr [flapping k]) [] (fun _ => []).

(** The refresh of the first tick fails; the counts match afterwards. *)
Definition flakyPlane : ControlPlane :=
  plane (fun k =>
           match k with
           | 0%nat => inr [service 2 1 [] [] []]
           | 1%nat => inl "RequestError: send request failed"
           | _ => inr [service 2 2 [] [] []]
           end) [] (fun _ => []).

(** The primary deployment never completes. *)
Definition stuckService : ecs.Service :=
  service 1 1 [deployment "ecs-svc/1" "IN_PROGRESS" "PRIMARY"] [] [].
Definition stuckPlane : ControlPlane :=
  plane (fun _ => inr [stuckService]) [] (fun _ => []).

(** No deployment is marked PRIMARY. *)
Definition noPrimaryService : ecs.Service :=
  service 1 1 [deployment "ecs-svc/1" "COMPLETED" "ACTIVE"] [] [].
Definition noPrimaryPlane : ControlPlane :=
  plane (fun _ => inr [noPrimaryService]) [] (fun _ => []).

(** Two events and two stopped tasks to show. *)
Definition twoEvents : list ecs.ServiceEvent :=
  [event "e2" "(service web) has reached a steady state.";
   event "e1" "(service web) has started 1 tasks."].
Definition twoEventsService : ecs.Service :=
  service 1 1 [deployment "ecs-svc/1" "COMPLETED" "PRIMARY"] twoEvents [].
Definition twoStopped : list string := ["arn:task/1"; "arn:task/2"].
Definition twoEventsPlane : ControlPlane :=
  plane (fun _ => inr [twoEventsService]) twoStopped (fun _ => []).

(** The tracked deployment goes from IN_PROGRESS to FAILED and is gone
    on the third fetch. *)
Definition failedDeployment : ecs.Deployment :=
  deployment "ecs-svc/1" "FAILED" "PRIMARY".
Definition failedService : ecs.Service :=
  service 1 1 [failedDeployment] [] [].
Definition emptiedService : ecs.Service := service 1 1 [] [] [].
Definition vanishingPlane : ControlPlane :=
  plane (fun k =>
           match k with
           | 0%nat => inr [stuckService]
           | 1%nat => inr [failedService]
           | _ => inr [emptiedService]
           end) [] (fun _ => []).

(** The tracked deployment is there, with the rollout state the loop
    keeps for a missing deployment. *)
Definition oddDeployment : ecs.Deployment :=
  deployment "ecs-svc/1" "NOT_FOUND" "PRIMARY".
Definition oddService : ecs.Service := service 1 1 [oddDeployment] [] [].
Definition oddPlane : ControlPlane :=
  plane (fun _ => inr [oddService]) [] (fun _ => []).

(** The primary deployment is complete on first fetch. *)
Definition completedDeployment : ecs.Deployment :=
  deployment "ecs-svc/1" "COMPLETED" "PRIMARY".
Definition completedService : ecs.Service :=
  service 3 3 [completedDeployment] [] [].
Definition completedPlane : ControlPlane :=
  plane (fun _ => inr [completedService]) [] (fun _ => []).

(** Two load balancers; the targets of the first are healthy, one of
    the second is not. *)
Definition firstBinding : ecs.LoadBalancer :=
  {| ecs.TargetGroupArn := Some "arn:targetgroup/a" |}.
Definition secondBinding : ecs.LoadBalancer :=
  {| ecs.TargetGroupArn := Some "arn:targetgroup/b" |}.
Definition balancedService : ecs.Service :=
  service 2 2 [completedDeployment] [] [firstBinding; secondBinding].
Definition healthOf (arn : option string)
  : list elbv2.TargetHealthDescription :=
  if (aws.StringValue arn =? "arn:targetgroup/a")%string
  then [target "healthy"; target "healthy"]
  else [target "healthy"; target "draining"].
Definition balancedPlane : ControlPlane :=
  plane (fun _ => inr [balancedService]) [] healthOf.
End Examples.

(** Replies that keep the Phase A loop waiting, or end it. *)
Definition waitingSnapshot (deploymentId : string)
    (r : Reply (list ecs.Service)) : Prop :=
  exists svc rest d,
    payload r = inr (svc :: rest)
    /\ findDeployment deploymentId svc = Some d
    /\ rolloutState d <> "COMPLETED"
    /\ rolloutState d <> "NOT_FOUND".

Definition absentSnapshot (deploymentId : string)
    (r : Reply (list ecs.Service)) : Prop :=
  exists svc rest,
    payload r = inr (svc :: rest)
    /\ findDeployment deploymentId svc = None.

(** The tickers and the clock of a poll loop entered at time [t0]. *)
Definition pollingSince (t0 : Z) (a b : Ticker) (s : State) : Prop :=
  start a = t0
  /\ period a = time.Second * 10
  /\ t0 <= lastRecv a <= now s
  /\ b = {| start := t0; period := time.Minute * 10; lastRecv := t0 |}.

(** A control plane whose [DescribeServices] always answers at once with
    a snapshot that keeps the Phase A loop waiting for [deploymentId]. *)
Definition neverCompletes (cp : ControlPlane) (deploymentId : string)
  : Prop :=
  forall k,
    waitingSnapshot deploymentId (DescribeServices cp k)
    /\ latency (DescribeServices cp k) = 0%N.

(** The loop entered at [t0] has made [j] ticks, each on time. *)
Definition onSchedule (t0 : Z) (j : nat) (a b : Ticker) (s : State) : Prop :=
  start a = t0
  /\ period a = time.Second * 10
  /\ lastRecv a = t0 + Z.of_nat j * (time.Second * 10)
  /\ now s = t0 + Z.of_nat j * (time.Second * 10)
  /\ b = {| start := t0; period := time.Minute * 10; lastRecv := t0 |}.

(** A control plane whose [DescribeServices] always answers at once with
    a snapshot whose running count differs from the desired count. *)
Definition neverMatches (cp : ControlPlane) : Prop :=
  forall k,
    (exists svc rest desired running,
       payload (DescribeServices cp k) = inr (svc :: rest)
       /\ ecs.DesiredCount svc = Some desired
       /\ ecs.RunningCount svc = Some running
       /\ desired <> running)
    /\ latency (DescribeServices cp k) = 0%N.

Definition listTasksCall (s : State) : Call :=
  CallListTasks (clusterName (sh s)) (serviceName (sh s)) "STOPPED".

Definition nextDescribeTasks (cp : ControlPlane) (s : State)
    (tasks : list string) : Reply (list ecs.Task) :=
  DescribeTasks cp (countCalls isDescribeTasks s) tasks.

Definition deploymentId (d : ecs.Deployment) : string :=
  aws.StringValue (ecs.Id d).

(** Ways a computation can end: [exitsOnly P c] when every [os.Exit]
    reached by [c] has a code in [P]; [neverReturns c] when [c] never
    comes back to its caller. *)
Definition exitsOnly {A} (P : Z -> Prop) (c : M A) : Prop :=
  forall s code s', c s = Exit code s' -> P code.

Definition neverExits {A} (c : M A) : Prop := exitsOnly (fun _ => False) c.

Definition neverReturns {A} (c : M A) : Prop :=
  forall s a s', c s <> Ok a s'.

(** The handler [main] works with, and the state in which it has been
    made. *)
Definition mainHandler (p : Process) : serviceHandler :=
  {| serviceName := flagServiceName (flags p);
     clusterName := flagClusterName (flags p);
     checkInterval := flagCheckInterval (flags p);
     checkTimeout := flagTimeout (flags p);
     versboseOutput := flagVerbose (flags p);
     currentOutput := None |}.

Definition started (p : Process) (s : State) : State :=
  {| sh := mainHandler p; now := now s; calls := calls s; out := out s;
     selects := selects s |}.

Definition withoutEvents (svc : ecs.Service) : ecs.Service :=
  {| ecs.DesiredCount := ecs.DesiredCount svc;
     ecs.RunningCount := ecs.RunningCount svc;
     ecs.Deployments := ecs.Deployments svc;
     ecs.Events := [];
     ecs.LoadBalancers := ecs.LoadBalancers svc |}.

Definition cached (svc : ecs.Service) (s : State) : State :=
  {| sh := withSnapshot (sh s) svc; now := now s; calls := calls s;
     out := out s; selects := selects s |}.

(** The clock of a state, less a period for every [DescribeServices] call
    made so far: what a poll loop that keeps to its ticker never lets
    fall. *)
Definition slack (p : Z) (s : State) : Z :=
  now s - p * Z.of_nat (countCalls isDescribeServices s).

(** [c] makes no call and does not turn the clock back. *)
Definition quiet {A} (c : M A) : Prop :=
  forall s s',
    finalState (c s) = Some s' -> calls s' = calls s /\ now s <= now s'.

(** Run from a state that is past [T], has made [n] calls and has slack
    at least [lb], [c] ends with slack at least [lb]. *)
Definition keepsSlack (p lb : Z) (n : nat) (T : Z) {A} (c : M A) : Prop :=
  forall s s',
    lb <= slack p s ->
    countCalls isDescribeServices s = n ->
    T <= now s ->
    finalState (c s) = Some s' ->
    lb <= slack p s'.

Module MoreExamples.
Import Examples.

(** Every call is refused. *)
Definition downPlane : ControlPlane :=
  plane (fun _ => inl "AccessDeniedException") [] (fun _ => []).

(** One task short, for good. *)
Definition shortService : ecs.Service := service 2 1 [] [] [].
Definition shortPlane : ControlPlane :=
  plane (fun _ => inr [shortService]) [] (fun _ => []).

(** A snapshot without its desired count. *)
Definition countlessService : ecs.Service :=
  {| ecs.DesiredCount := None; ecs.RunningCount := Some 1;
     ecs.Deployments := []; ecs.Events := []; ecs.LoadBalancers := [] |}.
Definition countlessPlane : ControlPlane :=
  plane (fun _ => inr [countlessService]) [] (fun _ => []).

(** An ACTIVE deployment ahead of the PRIMARY one. *)
Definition draining : ecs.Deployment :=
  deployment "ecs-svc/1" "COMPLETED" "ACTIVE".
Definition rolling : ecs.Deployment :=
  deployment "ecs-svc/2" "IN_PROGRESS" "PRIMARY".

(** Only a FAILED deployment. *)
Definition failedPlane : ControlPlane :=
  plane (fun _ => inr [failedService]) [] (fun _ => []).

(** A load balancer whose target group has no targets. *)
Definition emptyGroupPlane : ControlPlane :=
  plane (fun _ => inr [balancedService]) [] (fun _ => []).

(** A load balancer whose target health cannot be fetched. *)
Definition blindPlane : ControlPlane :=
  {| DescribeServices := fun _ => mkReply 0 (inr [balancedService]);
     ListTasks := fun _ => mkReply 0 (inr []);
     DescribeTasks := fun _ arns => mkReply 0 (inr (map task arns));
     DescribeTargetHealth :=
       fun _ _ => mkReply 0 (inl "TargetGroupNotFound");
     selectPick := fun _ => true |}.

(** A load balancer with a target that is draining. *)
Definition unsettledService : ecs.Service :=
  service 2 2 [completedDeployment] [] [secondBinding].
Definition unsettledPlane : ControlPlane :=
  plane (fun _ => inr [unsettledService]) [] healthOf.

(** The states of a round of [main] on [unsettledPlane], from the start:
    after Phase B and after the target-group check. *)
Definition unsettledAfterCounts : State :=
  afterRefresh 0 unsettledService
    (printed (Text ("Checking that running matches desired tasks." ++ nl)%string)
       (initState webHandler)).
Definition unsettledAfterHealth : State :=
  afterCall (CallDescribeTargetHealth (Some "arn:targetgroup/b")) 0
    (afterRefresh 0 unsettledService
       (printed (Text ("Checking the target group is in a good state." ++ nl)%string)
          unsettledAfterCounts)).

Definition webFlags : Flags :=
  {| flagServiceName := "web"; flagClusterName := "prod";
     flagCheckInterval := 10; flagTimeout := 10;
     flagVerbose := false; flagVersion := false; flagHelp := false |}.

Definition webProcess : Process :=
  {| flags := webFlags; version := "0.0.1";
     usage := "Usage of are-we-there-yet"; sessionError := None;
     emptyOutputText := "{ }" |}.

End MoreExamples.

(** * Properties *)

Section Effects.
Variable cp : ControlPlane.

Lemma refresh_snapshot s lat svc rest :
  nextDescribeServices cp s = mkReply lat (inr (svc :: rest)) ->
  refresh cp s = Ok None (afterRefresh lat svc s).
Proof.
  unfold nextDescribeServices, refresh, bind, callDescribeServices, apiCall.
  intros ->. reflexivity.
Qed.

Lemma refresh_sdk_error s lat msg :
  nextDescribeServices cp s = mkReply lat (inl msg) ->
  refresh cp s = Ok (Some (SdkError msg)) (afterCall (describeCall s) lat s).
Proof.
  unfold nextDescribeServices, refresh, bind, callDescribeServices, apiCall.
  intros ->. reflexivity.
Qed.

Lemma refresh_no_service s lat :
  nextDescribeServices cp s = mkReply lat (inr []) ->
  refresh cp s
  = Ok (Some (Errorf "service not found")) (afterCall (describeCall s) lat s).
Proof.
  unfold nextDescribeServices, refresh, bind, callDescribeServices, apiCall.
  intros ->. reflexivity.
Qed.

Lemma select2_first a b s :
  firesFirst cp a b s = true ->
  select2 cp a b s
  = Ok (FiredFirst, recv a (selectTime a b s), b)
       (afterSelect (selectTime a b s) s).
Proof.
  unfold firesFirst, select2, selectTime, afterSelect. cbv zeta.
  match goal with
  | |- context [if ?c then Ok (FiredFirst, _, _) _ else _] => destruct c
  end; [reflexivity | discriminate].
Qed.

Lemma select2_second a b s :
  firesFirst cp a b s = false ->
  select2 cp a b s
  = Ok (FiredSecond, a, recv b (selectTime a b s))
       (afterSelect (selectTime a b s) s).
Proof.
  unfold firesFirst, select2, selectTime, afterSelect. cbv zeta.
  match goal with
  | |- context [if ?c then Ok (FiredFirst, _, _) _ else _] => destruct c
  end; [discriminate | reflexivity].
Qed.

(** The tick wins whenever its ticker fires strictly before the timeout
    ticker and the timeout has not passed yet. *)
Lemma firesFirst_before_timeout a b s :
  nextFire a < nextFire b ->
  now s < nextFire b ->
  firesFirst cp a b s = true.
Proof.
  intros Hab Hnow. unfold firesFirst, select2.
  set (t := Z.max (now s) (Z.min (nextFire a) (nextFire b))).
  assert (Ha : (nextFire a <=? t) = true) by (apply Z.leb_le; subst t; lia).
  assert (Hb : (nextFire b <=? t) = false) by (apply Z.leb_gt; subst t; lia).
  rewrite Ha, Hb. reflexivity.
Qed.

(** The timeout wins whenever its ticker fires strictly first. *)
Lemma firesSecond_timeout_first a b s :
  nextFire b < nextFire a ->
  now s < nextFire a ->
  firesFirst cp a b s = false.
Proof.
  intros Hab Hnow. unfold firesFirst, select2.
  set (t := Z.max (now s) (Z.min (nextFire a) (nextFire b))).
  assert (Ha : (nextFire a <=? t) = false) by (apply Z.leb_gt; subst t; lia).
  rewrite Ha. reflexivity.
Qed.
End Effects.

(** ** Phase A: rollout convergence *)

Section PhaseA.
Variable cp : ControlPlane.

Lemma V1_isCompleteIn_absent ds id s :
  find (hasId id) ds = None ->
  V1.isCompleteIn ds id s = Ok ("NOT_FOUND", false) s.
Proof.
  induction ds as [|d ds IH]; cbn [find V1.isCompleteIn]; [reflexivity|].
  unfold hasId at 1. destruct (_ =? id)%string; [discriminate | exact IH].
Qed.

Lemma V2_isCompleteIn_absent ds id s :
  find (hasId id) ds = None ->
  V2.isCompleteIn ds id s = Ok ("NOT_FOUND", false) s.
Proof.
  induction ds as [|d ds IH]; cbn [find V2.isCompleteIn]; [reflexivity|].
  unfold hasId at 1. destruct (_ =? id)%string; [discriminate | exact IH].
Qed.

Lemma V1_isCompleteIn_found ds id d s :
  find (hasId id) ds = Some d ->
  V1.isCompleteIn ds id s
  = if deploymentState d "COMPLETED"
    then Ok (rolloutState d, true) (printed V1_complete s)
    else Ok (rolloutState d, false) s.
Proof.
  induction ds as [|d' ds IH]; cbn [find V1.isCompleteIn]; [discriminate|].
  unfold hasId at 1. destruct (_ =? id)%string; [|exact IH].
  intros [= ->]. destruct (deploymentState d "COMPLETED"); reflexivity.
Qed.

Lemma V2_isCompleteIn_found ds id d s :
  find (hasId id) ds = Some d ->
  V2.isCompleteIn ds id s
  = if deploymentState d "COMPLETED"
    then Ok (rolloutState d, true) (printed (V2_complete d) s)
    else Ok (rolloutState d, false) s.
Proof.
  induction ds as [|d' ds IH]; cbn [find V2.isCompleteIn]; [discriminate|].
  unfold hasId at 1. destruct (_ =? id)%string; [|exact IH].
  intros [= ->]. destruct (deploymentState d "COMPLETED"); reflexivity.
Qed.

(** One tick of either loop, up to the evaluation of [isComplete] on the
    refreshed snapshot. *)
Lemma V1_tick fuel id a b s lat svc rest :
  firesFirst cp a b s = true ->
  nextDescribeServices cp s = mkReply lat (inr (svc :: rest)) ->
  V1.waitForDeployment_loop cp (S fuel) id a b s
  = bind (V1.isCompleteIn (ecs.Deployments svc) id)
      (fun r =>
         let '(status, ok) := r in
         if ok then ret None
         else if (status =? "NOT_FOUND")%string
         then ret (Some (Errorf "deployment disappeared"))
         else
           h <- getHandler ;;
           emit (V1_waiting h id status) ;;
           V1.waitForDeployment_loop cp fuel id
             (recv a (selectTime a b s)) b)
      (tickState (V1_checking id) a b lat svc s).
Proof.
  intros Hsel Hreply.
  cbn [V1.waitForDeployment_loop]. unfold bind at 1.
  rewrite (select2_first cp a b s Hsel).
  unfold bind at 1. unfold Printf at 1, emit at 1.
  unfold bind at 1.
  erewrite refresh_snapshot by exact Hreply.
  reflexivity.
Qed.

Lemma V2_tick fuel id a b s lat svc rest :
  firesFirst cp a b s = true ->
  nextDescribeServices cp s = mkReply lat (inr (svc :: rest)) ->
  V2.waitForDeployment_loop cp (S fuel) id a b s
  = bind (V2.isCompleteIn (ecs.Deployments svc) id)
      (fun r =>
         let '(status, ok) := r in
         if ok then ret None
         else if (status =? "NOT_FOUND")%string
         then ret (Some (Errorf "deployment disappeared"))
         else
           h <- getHandler ;;
           emit (V2_waiting h id status) ;;
           V2.waitForDeployment_loop cp fuel id
             (recv a (selectTime a b s)) b)
      (tickState (V2_checking id) a b lat svc s).
Proof.
  intros Hsel Hreply.
  cbn [V2.waitForDeployment_loop]. unfold bind at 1.
  rewrite (select2_first cp a b s Hsel).
  unfold bind at 1. unfold Printf at 1, emit at 1.
  unfold bind at 1.
  erewrite refresh_snapshot by exact Hreply.
  reflexivity.
Qed.
End PhaseA.

Section PhaseATicks.
Variable cp : ControlPlane.

Lemma deploymentState_completed d :
  deploymentState d "COMPLETED" = (rolloutState d =? "COMPLETED")%string.
Proof. reflexivity. Qed.

Lemma V1_tick_absent fuel id a b s lat svc rest :
  firesFirst cp a b s = true ->
  nextDescribeServices cp s = mkReply lat (inr (svc :: rest)) ->
  findDeployment id svc = None ->
  V1.waitForDeployment_loop cp (S fuel) id a b s
  = Ok (Some (Errorf "deployment disappeared"))
       (tickState (V1_checking id) a b lat svc s).
Proof.
  intros Hsel Hreply Habs.
  rewrite (V1_tick cp fuel id a b s lat svc rest Hsel Hreply).
  unfold bind. rewrite V1_isCompleteIn_absent by exact Habs. reflexivity.
Qed.

Lemma V2_tick_absent fuel id a b s lat svc rest :
  firesFirst cp a b s = true ->
  nextDescribeServices cp s = mkReply lat (inr (svc :: rest)) ->
  findDeployment id svc = None ->
  V2.waitForDeployment_loop cp (S fuel) id a b s
  = Ok (Some (Errorf "deployment disappeared"))
       (tickState (V2_checking id) a b lat svc s).
Proof.
  intros Hsel Hreply Habs.
  rewrite (V2_tick cp fuel id a b s lat svc rest Hsel Hreply).
  unfold bind. rewrite V2_isCompleteIn_absent by exact Habs. reflexivity.
Qed.

Lemma V1_tick_completed fuel id a b s lat svc rest d :
  firesFirst cp a b s = true ->
  nextDescribeServices cp s = mkReply lat (inr (svc :: rest)) ->
  findDeployment id svc = Some d ->
  rolloutState d = "COMPLETED" ->
  V1.waitForDeployment_loop cp (S fuel) id a b s
  = Ok None (printed V1_complete (tickState (V1_checking id) a b lat svc s)).
Proof.
  intros Hsel Hreply Hfind Hst.
  rewrite (V1_tick cp fuel id a b s lat svc rest Hsel Hreply).
  unfold bind. rewrite (V1_isCompleteIn_found _ _ _ _ Hfind).
  rewrite deploymentState_completed, Hst. reflexivity.
Qed.

Lemma V2_tick_completed fuel id a b s lat svc rest d :
  firesFirst cp a b s = true ->
  nextDescribeServices cp s = mkReply lat (inr (svc :: rest)) ->
  findDeployment id svc = Some d ->
  rolloutState d = "COMPLETED" ->
  V2.waitForDeployment_loop cp (S fuel) id a b s
  = Ok None
       (printed (V2_complete d) (tickState (V2_checking id) a b lat svc s)).
Proof.
  intros Hsel Hreply Hfind Hst.
  rewrite (V2_tick cp fuel id a b s lat svc rest Hsel Hreply).
  unfold bind. rewrite (V2_isCompleteIn_found _ _ _ _ Hfind).
  rewrite deploymentState_completed, Hst. reflexivity.
Qed.

Lemma V1_tick_waiting fuel id a b s lat svc rest d :
  firesFirst cp a b s = true ->
  nextDescribeServices cp s = mkReply lat (inr (svc :: rest)) ->
  findDeployment id svc = Some d ->
  rolloutState d <> "COMPLETED" ->
  rolloutState d <> "NOT_FOUND" ->
  V1.waitForDeployment_loop cp (S fuel) id a b s
  = V1.waitForDeployment_loop cp fuel id (recv a (selectTime a b s)) b
      (printed (V1_waiting (sh s) id (rolloutState d))
               (tickState (V1_checking id) a b lat svc s)).
Proof.
  intros Hsel Hreply Hfind Hc Hn.
  rewrite (V1_tick cp fuel id a b s lat svc rest Hsel Hreply).
  unfold bind at 1. rewrite (V1_isCompleteIn_found _ _ _ _ Hfind).
  rewrite deploymentState_completed.
  apply String.eqb_neq in Hc, Hn. rewrite Hc, Hn. reflexivity.
Qed.

Lemma V2_tick_waiting fuel id a b s lat svc rest d :
  firesFirst cp a b s = true ->
  nextDescribeServices cp s = mkReply lat (inr (svc :: rest)) ->
  findDeployment id svc = Some d ->
  rolloutState d <> "COMPLETED" ->
  rolloutState d <> "NOT_FOUND" ->
  V2.waitForDeployment_loop cp (S fuel) id a b s
  = V2.waitForDeployment_loop cp fuel id (recv a (selectTime a b s)) b
      (printed (V2_waiting (sh s) id (rolloutState d))
               (tickState (V2_checking id) a b lat svc s)).
Proof.
  intros Hsel Hreply Hfind Hc Hn.
  rewrite (V2_tick cp fuel id a b s lat svc rest Hsel Hreply).
  unfold bind at 1. rewrite (V2_isCompleteIn_found _ _ _ _ Hfind).
  rewrite deploymentState_completed.
  apply String.eqb_neq in Hc, Hn. rewrite Hc, Hn. reflexivity.
Qed.

(** A deployment that is present but reports the rollout state
    ["NOT_FOUND"] is taken for an absent one. *)
Lemma V2_tick_sentinel fuel id a b s lat svc rest d :
  firesFirst cp a b s = true ->
  nextDescribeServices cp s = mkReply lat (inr (svc :: rest)) ->
  findDeployment id svc = Some d ->
  rolloutState d = "NOT_FOUND" ->
  V2.waitForDeployment_loop cp (S fuel) id a b s
  = Ok (Some (Errorf "deployment disappeared"))
       (tickState (V2_checking id) a b lat svc s).
Proof.
  intros Hsel Hreply Hfind Hst.
  rewrite (V2_tick cp fuel id a b s lat svc rest Hsel Hreply).
  unfold bind at 1. rewrite (V2_isCompleteIn_found _ _ _ _ Hfind).
  rewrite deploymentState_completed, Hst. reflexivity.
Qed.

(** X7. A refresh that fails ends the Phase A loop with that error. *)
Lemma V2_tick_refresh_error fuel id a b s lat msg :
  firesFirst cp a b s = true ->
  nextDescribeServices cp s = mkReply lat (inl msg) ->
  V2.waitForDeployment_loop cp (S fuel) id a b s
  = Ok (Some (SdkError msg))
       (afterCall (describeCall s) lat
          (printed (V2_checking id) (afterSelect (selectTime a b s) s))).
Proof.
  intros Hsel Hreply.
  cbn [V2.waitForDeployment_loop]. unfold bind at 1.
  rewrite (select2_first cp a b s Hsel).
  unfold bind at 1. unfold Printf at 1, emit at 1.
  unfold bind at 1.
  erewrite refresh_sdk_error by exact Hreply.
  reflexivity.
Qed.

(** When the timeout case is taken the loop ends with the timeout
    error. *)
Lemma V2_timeout fuel id a b s :
  firesFirst cp a b s = false ->
  V2.waitForDeployment_loop cp (S fuel) id a b s
  = Ok (Some (Errorf "timeouted out waiting for deployment to happen"))
       (afterSelect (selectTime a b s) s).
Proof.
  intros Hsel. cbn [V2.waitForDeployment_loop]. unfold bind at 1.
  rewrite (select2_second cp a b s Hsel). reflexivity.
Qed.

(** C6. In the poll loop of Phase A, in either variant and whatever
    happened on earlier ticks: on a tick whose refreshed snapshot no
    longer holds a deployment with the tracked id, the loop returns the
    error "deployment disappeared" on that very tick, after the one
    refresh of the tick and without waiting again. *)
Theorem deployment_disappeared_on_absent_tick fuel id a b s lat svc rest :
  firesFirst cp a b s = true ->
  nextDescribeServices cp s = mkReply lat (inr (svc :: rest)) ->
  findDeployment id svc = None ->
  V1.waitForDeployment_loop cp (S fuel) id a b s
  = Ok (Some (Errorf "deployment disappeared"))
       (tickState (V1_checking id) a b lat svc s)
  /\ V2.waitForDeployment_loop cp (S fuel) id a b s
     = Ok (Some (Errorf "deployment disappeared"))
          (tickState (V2_checking id) a b lat svc s).
Proof.
  intros Hsel Hreply Habs. split.
  - exact (V1_tick_absent fuel id a b s lat svc rest Hsel Hreply Habs).
  - exact (V2_tick_absent fuel id a b s lat svc rest Hsel Hreply Habs).
Qed.

(** C8, amended. In the poll loop of Phase A, in either variant, on a
    tick whose refreshed snapshot holds the tracked deployment: the loop
    returns success when the rollout state is COMPLETED; for any other
    rollout state, FAILED included, except the literal NOT_FOUND, the
    tick ends neither in success nor in failure and the loop goes on to
    its next iteration. *)
Theorem present_deployment_waits_until_completed
    fuel id a b s lat svc rest d :
  firesFirst cp a b s = true ->
  nextDescribeServices cp s = mkReply lat (inr (svc :: rest)) ->
  findDeployment id svc = Some d ->
  (rolloutState d = "COMPLETED" ->
     V1.waitForDeployment_loop cp (S fuel) id a b s
     = Ok None (printed V1_complete
                  (tickState (V1_checking id) a b lat svc s))
     /\ V2.waitForDeployment_loop cp (S fuel) id a b s
        = Ok None (printed (V2_complete d)
                     (tickState (V2_checking id) a b lat svc s)))
  /\ (rolloutState d <> "COMPLETED" ->
      rolloutState d <> "NOT_FOUND" ->
        V1.waitForDeployment_loop cp (S fuel) id a b s
        = V1.waitForDeployment_loop cp fuel id
            (recv a (selectTime a b s)) b
            (printed (V1_waiting (sh s) id (rolloutState d))
                     (tickState (V1_checking id) a b lat svc s))
        /\ V2.waitForDeployment_loop cp (S fuel) id a b s
           = V2.waitForDeployment_loop cp fuel id
               (recv a (selectTime a b s)) b
               (printed (V2_waiting (sh s) id (rolloutState d))
                        (tickState (V2_checking id) a b lat svc s))).
Proof.
  intros Hsel Hreply Hfind. split.
  - intros Hst. split.
    + exact (V1_tick_completed fuel id a b s lat svc rest d
               Hsel Hreply Hfind Hst).
    + exact (V2_tick_completed fuel id a b s lat svc rest d
               Hsel Hreply Hfind Hst).
  - intros Hc Hn. split.
    + exact (V1_tick_waiting fuel id a b s lat svc rest d
               Hsel Hreply Hfind Hc Hn).
    + exact (V2_tick_waiting fuel id a b s lat svc rest d
               Hsel Hreply Hfind Hc Hn).
Qed.
End PhaseATicks.

Section PhaseAFirstFetch.
Variable cp : ControlPlane.

Lemma V1_range_all_completed fuel ds s :
  Forall (fun d => rolloutState d = "COMPLETED") ds ->
  V1.checkDeployments_range cp fuel ds s = Ok None s.
Proof.
  induction 1 as [|d ds Hd _ IH]; cbn [V1.checkDeployments_range].
  - reflexivity.
  - rewrite deploymentState_completed, Hd. exact IH.
Qed.

Lemma V2_checkDeployments_completed fuel s lat svc rest d :
  nextDescribeServices cp s = mkReply lat (inr (svc :: rest)) ->
  findDeployment (V2.firstPrimary (ecs.Deployments svc)) svc = Some d ->
  rolloutState d = "COMPLETED" ->
  V2.checkDeployments cp fuel s
  = Ok None
      (printed (V2_complete d)
         (printed (Text ("Current Primary deployment is: "
                         ++ V2.firstPrimary (ecs.Deployments svc)
                         ++ "." ++ nl)%string)
            (printed (PrintDeployments (ecs.Deployments svc))
               (afterRefresh lat svc s)))).
Proof.
  intros Hreply Hfind Hst.
  unfold V2.checkDeployments. unfold bind at 1.
  rewrite (refresh_snapshot cp s lat svc rest Hreply).
  cbv beta iota zeta delta
    [bind V2.getActiveDeploymentId getCurrentOutput emit ret Printf
     V2.waitForDeployment V2.isComplete afterRefresh sh withSnapshot
     currentOutput].
  rewrite (V2_isCompleteIn_found _ _ _ _ Hfind).
  rewrite deploymentState_completed, Hst. reflexivity.
Qed.

(** C7. When the first fetch of Phase A shows the tracked deployment
    with rollout state COMPLETED, [checkDeployments] returns nil at once:
    one [DescribeServices] call, no [select] (no tick is waited for), and
    no time passes beyond the latency of that call.  In the first
    variant, which has no single tracked deployment, the same holds when
    every deployment of the first fetch is COMPLETED. *)
Theorem completed_on_first_fetch_needs_no_tick fuel s lat svc rest :
  nextDescribeServices cp s = mkReply lat (inr (svc :: rest)) ->
  (forall d,
     findDeployment (V2.firstPrimary (ecs.Deployments svc)) svc = Some d ->
     rolloutState d = "COMPLETED" ->
     exists s',
       V2.checkDeployments cp fuel s = Ok None s'
       /\ selects s' = selects s
       /\ now s' = now s + Z.of_N lat
       /\ calls s' = describeCall s :: calls s)
  /\ (Forall (fun d => rolloutState d = "COMPLETED") (ecs.Deployments svc) ->
      V1.checkDeployments cp fuel s = Ok None (afterRefresh lat svc s)).
Proof.
  intros Hreply. split.
  - intros d Hfind Hst. eexists. split.
    + exact (V2_checkDeployments_completed fuel s lat svc rest d
               Hreply Hfind Hst).
    + repeat split.
  - intros Hall. unfold V1.checkDeployments. unfold bind at 1.
    rewrite (refresh_snapshot cp s lat svc rest Hreply).
    unfold bind at 1.
    cbn [getCurrentOutput afterRefresh sh withSnapshot currentOutput].
    apply V1_range_all_completed. exact Hall.
Qed.
End PhaseAFirstFetch.

(** ** Phase A over a sequence of snapshots *)

Section PhaseARuns.
Variable cp : ControlPlane.

Lemma nextFire_bounds t :
  0 < period t ->
  start t <= lastRecv t ->
  lastRecv t < nextFire t <= lastRecv t + period t.
Proof.
  intros Hp Hs. unfold nextFire.
  pose proof (Z.div_mod (lastRecv t - start t) (period t)) as Hdm.
  pose proof (Z.mod_pos_bound (lastRecv t - start t) (period t) Hp) as Hm.
  specialize (Hdm ltac:(lia)). nia.
Qed.

Lemma reply_eta {A} (r : Reply A) : r = mkReply (latency r) (payload r).
Proof. destruct r; reflexivity. Qed.

(** While the loop polls and the next tick is due before the timeout,
    the [select] takes the tick, no later than ten seconds from now. *)
Lemma polling_tick_fires t0 a b s :
  pollingSince t0 a b s ->
  now s + time.Second * 10 < t0 + time.Minute * 10 ->
  firesFirst cp a b s = true
  /\ lastRecv a < selectTime a b s
  /\ now s <= selectTime a b s <= now s + time.Second * 10.
Proof.
  intros (Hstart & Hper & Hrecv & ->) Hroom.
  assert (Hp : 0 < period a) by (rewrite Hper; reflexivity).
  pose proof (nextFire_bounds a Hp ltac:(lia)) as Ha.
  assert (Hb : nextFire {| start := t0; period := time.Minute * 10;
                           lastRecv := t0 |} = t0 + time.Minute * 10).
  { unfold nextFire. cbn [start period lastRecv].
    rewrite Z.sub_diag. reflexivity. }
  rewrite Hper in Ha. split.
  - apply firesFirst_before_timeout; rewrite Hb; lia.
  - unfold selectTime. rewrite Hb. lia.
Qed.

(** X9. Waiting ticks and then the tick that sees the deployment gone: when
    the replies of the next [n] refreshes keep the loop waiting, each
    within [L] nanoseconds, the reply after them lacks the tracked id, and
    [n] rounds of ten seconds plus [L] leave room for one more tick before
    the timeout, the loop returns "deployment disappeared" on tick
    [n + 1], with [n + 1] refreshes made. *)
Lemma V2_disappears_after_waiting n : forall L fuel id t0 a b s,
  pollingSince t0 a b s ->
  now s + Z.of_nat n * (time.Second * 10 + L) + time.Second * 10
  < t0 + time.Minute * 10 ->
  (forall i, (i < n)%nat ->
     waitingSnapshot id
       (DescribeServices cp (countCalls isDescribeServices s + i))
     /\ Z.of_N (latency
                  (DescribeServices cp (countCalls isDescribeServices s + i)))
        <= L) ->
  absentSnapshot id
    (DescribeServices cp (countCalls isDescribeServices s + n)) ->
  exists s',
    V2.waitForDeployment_loop cp (S (n + fuel)) id a b s
    = Ok (Some (Errorf "deployment disappeared")) s'
    /\ countCalls isDescribeServices s'
       = (countCalls isDescribeServices s + n + 1)%nat
    /\ selects s' = (selects s + n + 1)%nat.
Proof.
  induction n as [|n IH]; intros L fuel id t0 a b s Hpoll Hroom Hwait Habs.
  - destruct Habs as (svc & rest & Hpay & Hnone).
    destruct (polling_tick_fires t0 a b s Hpoll ltac:(lia)) as (Hsel & _).
    rewrite Nat.add_0_r in Hpay.
    assert (Hreply : nextDescribeServices cp s
                     = mkReply (latency (nextDescribeServices cp s))
                               (inr (svc :: rest))).
    { unfold nextDescribeServices. rewrite <- Hpay. apply reply_eta. }
    rewrite (V2_tick_absent cp _ id a b s _ svc rest Hsel Hreply Hnone).
    eexists. split; [reflexivity|].
    set (s1 := tickState _ _ _ _ _ _).
    assert (Hcalls : countCalls isDescribeServices s1
                     = S (countCalls isDescribeServices s)) by reflexivity.
    assert (Hsels : selects s1 = S (selects s)) by reflexivity.
    rewrite Hcalls, Hsels. split; lia.
  - destruct (Hwait O ltac:(lia)) as ((svc & rest & d & Hpay & Hfind & Hc & Hn) & Hlat).
    rewrite Nat.add_0_r in Hpay, Hlat.
    assert (HL : 0 <= L) by lia.
    assert (Hrounds : 0 <= Z.of_nat n * (time.Second * 10 + L))
      by (apply Z.mul_nonneg_nonneg; unfold time.Second; lia).
    assert (Hroom' : now s + (time.Second * 10 + L)
                     + Z.of_nat n * (time.Second * 10 + L)
                     + time.Second * 10 < t0 + time.Minute * 10)
      by (rewrite Nat2Z.inj_succ in Hroom; lia).
    assert (Hsec : 0 < time.Second) by reflexivity.
    destruct (polling_tick_fires t0 a b s Hpoll ltac:(lia))
      as (Hsel & Hrecv & Ht).
    assert (Hreply : nextDescribeServices cp s
                     = mkReply (latency (nextDescribeServices cp s))
                               (inr (svc :: rest))).
    { unfold nextDescribeServices. rewrite <- Hpay. apply reply_eta. }
    cbn [Nat.add].
    rewrite (V2_tick_waiting cp _ id a b s _ svc rest d
               Hsel Hreply Hfind Hc Hn).
    set (s1 := printed _ _).
    assert (Hcalls : countCalls isDescribeServices s1
                     = S (countCalls isDescribeServices s)) by reflexivity.
    assert (Hnow : now s1 = selectTime a b s
                            + Z.of_N (latency (nextDescribeServices cp s)))
      by reflexivity.
    assert (Hsels : selects s1 = S (selects s)) by reflexivity.
    destruct (IH L fuel id t0 (recv a (selectTime a b s)) b s1)
      as (s' & Hrun & Hc' & Hs').
    + destruct Hpoll as (Hstart & Hper & Hr & Hb).
      repeat split; cbn [recv start period lastRecv]; try assumption; lia.
    + unfold nextDescribeServices in Hnow. lia.
    + intros i Hi. rewrite Hcalls.
      replace (S (countCalls isDescribeServices s) + i)%nat
        with (countCalls isDescribeServices s + S i)%nat by lia.
      apply Hwait. lia.
    + rewrite Hcalls.
      replace (S (countCalls isDescribeServices s) + n)%nat
        with (countCalls isDescribeServices s + S n)%nat by lia.
      exact Habs.
    + exists s'. split; [exact Hrun|]. rewrite Hc', Hs', Hcalls, Hsels.
      split; lia.
Qed.
Lemma firstPrimary_none ds :
  existsb isPrimary ds = false -> V2.firstPrimary ds = EmptyString.
Proof.
  induction ds as [|d ds IH]; [reflexivity|]. cbn [existsb V2.firstPrimary].
  unfold isPrimary at 1.
  destruct (aws.StringValue (ecs.Status d) =? "PRIMARY")%string;
    [discriminate | exact IH].
Qed.

(** Tickers made now poll since now. *)
Lemma fresh_tickers_poll s :
  pollingSince (now s)
    {| start := now s; period := time.Second * 10; lastRecv := now s |}
    {| start := now s; period := time.Minute * 10; lastRecv := now s |} s.
Proof. repeat split; cbn [start period lastRecv]; lia. Qed.

(** Without a PRIMARY deployment, and with no deployment of empty id in
    the first two snapshots, Phase A of the second variant enters its loop
    and returns "deployment disappeared" on the first tick. *)
Lemma V2_no_primary_disappears fuel s lat svc rest lat' svc' rest' :
  nextDescribeServices cp s = mkReply lat (inr (svc :: rest)) ->
  existsb isPrimary (ecs.Deployments svc) = false ->
  findDeployment EmptyString svc = None ->
  DescribeServices cp (S (countCalls isDescribeServices s))
  = mkReply lat' (inr (svc' :: rest')) ->
  findDeployment EmptyString svc' = None ->
  exists s',
    V2.checkDeployments cp (S fuel) s
    = Ok (Some (Errorf "deployment disappeared")) s'
    /\ selects s' = S (selects s)
    /\ now s' = now s + Z.of_N lat + time.Second * 10 + Z.of_N lat'.
Proof.
  intros Hreply Hnone Habs Hreply' Habs'.
  unfold V2.checkDeployments. unfold bind at 1.
  rewrite (refresh_snapshot cp s lat svc rest Hreply).
  cbv beta iota zeta delta
    [bind V2.getActiveDeploymentId getCurrentOutput emit ret Printf
     V2.waitForDeployment V2.isComplete afterRefresh sh withSnapshot
     currentOutput NewTicker].
  rewrite (firstPrimary_none _ Hnone).
  rewrite (V2_isCompleteIn_absent _ _ _ Habs).
  cbv beta iota. cbn [now]. change (time.Second * 10 <=? 0) with false.
  change (time.Minute * 10 <=? 0) with false. cbv beta iota.
  match goal with
  | |- context [V2.waitForDeployment_loop cp _ _ ?a ?b ?s1] =>
      pose proof (fresh_tickers_poll s1) as Hpoll;
      cbn [now] in Hpoll;
      destruct (polling_tick_fires _ a b s1 Hpoll) as (Hsel & _ & Ht);
      [cbn [now]; unfold time.Minute, time.Second; lia|];
      assert (Hat : selectTime a b s1 = now s1 + time.Second * 10)
        by (unfold selectTime, nextFire; cbn [start period lastRecv now];
            rewrite Z.sub_diag; unfold time.Minute, time.Second; cbn; lia);
      rewrite (V2_tick_absent cp fuel EmptyString a b s1 lat' svc' rest'
                 Hsel Hreply' Habs')
  end.
  eexists. split; [reflexivity|].
  cbn [tickState afterRefresh printed afterSelect selects now] in *.
  split; [reflexivity|]. rewrite Hat. reflexivity.
Qed.
(** When both tickers fire at the same instant, not yet passed, the
    runtime's pick decides. *)
Lemma firesFirst_tie a b s :
  nextFire a = nextFire b ->
  now s <= nextFire a ->
  firesFirst cp a b s = selectPick cp (selects s).
Proof.
  intros Hab Hnow. unfold firesFirst, select2. rewrite <- Hab.
  rewrite Z.min_id, Z.max_r by exact Hnow. rewrite Z.leb_refl.
  cbn [andb]. destruct (selectPick cp (selects s)); reflexivity.
Qed.

Lemma nextFire_on_schedule t0 j a b s :
  onSchedule t0 j a b s ->
  nextFire a = t0 + Z.of_nat (S j) * (time.Second * 10)
  /\ nextFire b = t0 + time.Minute * 10
  /\ pollingSince t0 a b s.
Proof.
  intros (Hstart & Hper & Hrecv & Hnow & ->). split; [|split].
  - unfold nextFire. rewrite Hstart, Hper, Hrecv.
    replace (t0 + Z.of_nat j * (time.Second * 10) - t0)
      with (Z.of_nat j * (time.Second * 10)) by lia.
    rewrite Z.div_mul by discriminate. lia.
  - unfold nextFire. cbn [start period lastRecv].
    rewrite Z.sub_diag. reflexivity.
  - unfold pollingSince. rewrite Hrecv, Hnow.
    repeat split; try assumption; unfold time.Second; lia.
Qed.

(** While every snapshot keeps the loop waiting and ticks are on time,
    [n] iterations are [n] ticks, as long as they end before the timeout
    fires. *)
Lemma V2_waits_on_schedule n : forall fuel id t0 j a b s,
  neverCompletes cp id ->
  onSchedule t0 j a b s ->
  (j + n <= 59)%nat ->
  exists a' s',
    V2.waitForDeployment_loop cp (n + fuel) id a b s
    = V2.waitForDeployment_loop cp fuel id a' b s'
    /\ onSchedule t0 (j + n) a' b s'.
Proof.
  induction n as [|n IH]; intros fuel id t0 j a b s Hnever Hsched Hj.
  - exists a, s. rewrite Nat.add_0_r. split; [reflexivity | exact Hsched].
  - destruct (nextFire_on_schedule t0 j a b s Hsched) as (Hfa & Hfb & Hpoll).
    pose proof Hsched as (Hstart & Hper & Hrecv & Hnow & Hb).
    destruct (polling_tick_fires t0 a b s Hpoll
                ltac:(rewrite Hnow; unfold time.Minute, time.Second; lia))
      as (Hsel & _).
    assert (Hat : selectTime a b s = t0 + Z.of_nat (S j) * (time.Second * 10))
      by (unfold selectTime; rewrite Hfa, Hfb, Hnow;
          unfold time.Minute, time.Second; lia).
    destruct (Hnever (countCalls isDescribeServices s))
      as ((svc & rest & d & Hpay & Hfind & Hc & Hn) & Hlat).
    assert (Hreply : nextDescribeServices cp s = mkReply 0 (inr (svc :: rest))).
    { unfold nextDescribeServices. rewrite <- Hpay, <- Hlat. apply reply_eta. }
    cbn [Nat.add].
    rewrite (V2_tick_waiting cp _ id a b s _ svc rest d
               Hsel Hreply Hfind Hc Hn).
    set (s1 := printed _ _).
    assert (Hnow1 : now s1 = selectTime a b s + 0) by reflexivity.
    destruct (IH fuel id t0 (S j) (recv a (selectTime a b s)) b s1 Hnever)
      as (a' & s' & Hrun & Hsched').
    + repeat split; cbn [recv start period lastRecv]; try assumption;
        rewrite ?Hnow1, Hat; lia.
    + lia.
    + exists a', s'. split; [exact Hrun|].
      replace (j + S n)%nat with (S j + n)%nat by lia. exact Hsched'.
Qed.

(** X8. A rollout that never completes, against a control plane that answers
    at once: the Phase A loop returns the timeout error when the clock
    shows ten minutes after the loop was entered.  Nothing in the
    statement depends on the handler's [checkTimeout]. *)
Lemma V2_never_completing_rollout_times_out fuel id t0 a b s :
  neverCompletes cp id ->
  onSchedule t0 0 a b s ->
  exists s',
    V2.waitForDeployment_loop cp (61 + fuel) id a b s
    = Ok (Some (Errorf "timeouted out waiting for deployment to happen")) s'
    /\ now s' = t0 + time.Minute * 10.
Proof.
  intros Hnever Hsched.
  destruct (V2_waits_on_schedule 59 (2 + fuel) id t0 0 a b s Hnever Hsched
              ltac:(lia)) as (a1 & s1 & Hrun & Hsched1).
  replace (61 + fuel)%nat with (59 + (2 + fuel))%nat by lia.
  rewrite Hrun. clear Hrun.
  destruct (nextFire_on_schedule t0 59 a1 b s1 Hsched1) as (Hfa & Hfb & _).
  pose proof Hsched1 as (Hstart & Hper & Hrecv & Hnow & Hb).
  assert (Hsixty : Z.of_nat 60 * (time.Second * 10) = time.Minute * 10)
    by reflexivity.
  assert (Htie : nextFire a1 = nextFire b)
    by (rewrite Hfa, Hfb, Hsixty; reflexivity).
  assert (Hbefore : now s1 <= nextFire a1)
    by (rewrite Hnow, Hfa; unfold time.Second; lia).
  assert (Hat : selectTime a1 b s1 = t0 + time.Minute * 10)
    by (unfold selectTime; rewrite <- Htie, Z.min_id, Z.max_r by exact Hbefore;
        rewrite Hfa, Hsixty; reflexivity).
  pose proof (firesFirst_tie a1 b s1 Htie Hbefore) as Hpick.
  destruct (selectPick cp (selects s1)).
  - destruct (Hnever (countCalls isDescribeServices s1))
      as ((svc & rest & d & Hpay & Hfind & Hc & Hn) & Hlat).
    assert (Hreply : nextDescribeServices cp s1 = mkReply 0 (inr (svc :: rest))).
    { unfold nextDescribeServices. rewrite <- Hpay, <- Hlat. apply reply_eta. }
    cbn [Nat.add].
    rewrite (V2_tick_waiting cp _ id a1 b s1 _ svc rest d
               Hpick Hreply Hfind Hc Hn).
    set (s2 := printed _ _). set (a2 := recv a1 _).
    assert (Hnow2 : now s2 = t0 + time.Minute * 10)
      by (change (now s2) with (selectTime a1 b s1 + 0); lia).
    assert (Hsched2 : onSchedule t0 60 a2 b s2).
    { subst a2. repeat split; cbn [recv start period lastRecv];
        try assumption; rewrite ?Hnow2, ?Hat, Hsixty; reflexivity. }
    destruct (nextFire_on_schedule t0 60 a2 b s2 Hsched2) as (Hfa2 & Hfb2 & _).
    assert (Hlater : nextFire b < nextFire a2)
      by (rewrite Hfa2, Hfb2; unfold time.Minute, time.Second; lia).
    rewrite (V2_timeout cp fuel id a2 b s2).
    + eexists. split; [reflexivity|]. cbn [afterSelect now].
      unfold selectTime. rewrite Hnow2, <- Hfb2. lia.
    + apply firesSecond_timeout_first; [exact Hlater|].
      rewrite Hnow2, <- Hfb2. exact Hlater.
  - cbn [Nat.add]. rewrite (V2_timeout cp _ id a1 b s1 Hpick).
    eexists. split; [reflexivity|]. cbn [afterSelect now]. exact Hat.
Qed.
End PhaseARuns.

(** ** Phase B: count convergence *)

Section PhaseB.
Variable cp : ControlPlane.

Lemma countsMatch_eval s svc :
  currentOutput (sh s) = Some svc ->
  countsMatch s
  = Ok (aws.Int64Value (ecs.DesiredCount svc)
        =? aws.Int64Value (ecs.RunningCount svc)) s.
Proof.
  intros Hcur. unfold countsMatch, bind, getCurrentOutput.
  rewrite Hcur. reflexivity.
Qed.

(** On a tick whose refresh shows matching counts the loop sleeps the
    grace period and returns nil.  The second test reads the snapshot of
    the first: the end state holds one [DescribeServices] call more than
    the start state, not two. *)
Lemma grace_recheck_reads_same_snapshot fuel a b s lat svc rest :
  firesFirst cp a b s = true ->
  nextDescribeServices cp s = mkReply lat (inr (svc :: rest)) ->
  aws.Int64Value (ecs.DesiredCount svc)
  = aws.Int64Value (ecs.RunningCount svc) ->
  waitForRunningToMatchDesired_loop cp (S fuel) a b s
  = Ok None
      (slept (time.Second * 15)
         (printed countsCorrect
            (afterRefresh lat svc
               (printed checkingCounts
                  (afterSelect (selectTime a b s) s))))).
Proof.
  intros Hsel Hreply Hmatch.
  cbn [waitForRunningToMatchDesired_loop]. unfold bind at 1.
  rewrite (select2_first cp a b s Hsel).
  unfold bind at 1. unfold Println at 1, emit at 1.
  unfold bind at 1.
  erewrite refresh_snapshot by exact Hreply.
  cbv beta iota zeta delta
    [bind countsMatch getCurrentOutput ret afterRefresh sh withSnapshot
     currentOutput].
  rewrite Hmatch, Z.eqb_refl.
  cbv beta iota zeta delta
    [Println emit Sleep advance sh withSnapshot currentOutput].
  rewrite Hmatch, Z.eqb_refl. reflexivity.
Qed.

(** On a tick whose refresh fails the error is dropped: with the counts
    of the stale snapshot still apart, the loop prints its waiting line
    and goes on to the next iteration. *)
Lemma count_loop_drops_refresh_error
    fuel a b s lat msg svc desired running :
  firesFirst cp a b s = true ->
  nextDescribeServices cp s = mkReply lat (inl msg) ->
  currentOutput (sh s) = Some svc ->
  ecs.DesiredCount svc = Some desired ->
  ecs.RunningCount svc = Some running ->
  desired <> running ->
  waitForRunningToMatchDesired_loop cp (S fuel) a b s
  = waitForRunningToMatchDesired_loop cp fuel
      (recv a (selectTime a b s)) b
      (printed (waitingCounts (sh s) desired running)
         (afterCall (describeCall s) lat
            (printed checkingCounts
               (afterSelect (selectTime a b s) s)))).
Proof.
  intros Hsel Hreply Hcur Hd Hr Hne.
  cbn [waitForRunningToMatchDesired_loop]. unfold bind at 1.
  rewrite (select2_first cp a b s Hsel).
  unfold bind at 1. unfold Println at 1, emit at 1.
  unfold bind at 1.
  erewrite refresh_sdk_error by exact Hreply.
  unfold bind at 1.
  erewrite countsMatch_eval by exact Hcur.
  rewrite Hd, Hr. cbn [aws.Int64Value].
  apply Z.eqb_neq in Hne. rewrite Hne.
  unfold bind at 1. unfold getCurrentOutput at 1.
  cbn [afterCall afterSelect sh currentOutput].
  rewrite Hcur. cbv beta iota.
  unfold bind at 1. unfold getHandler at 1. cbv beta iota.
  rewrite Hd, Hr. reflexivity.
Qed.
End PhaseB.

(** ** Phase C: target-group health *)

Section PhaseC.
Variable cp : ControlPlane.

Lemma checkTargetGroup_range_spec ts acc s :
  V2.checkTargetGroup_range ts acc s
  = if forallb hasTargetHealth ts
    then Ok (acc && forallb targetHealthy ts) s
    else Panic "nil pointer dereference" s.
Proof.
  revert acc. induction ts as [|t ts IH]; intros acc.
  - cbn. now rewrite andb_true_r.
  - cbn [V2.checkTargetGroup_range forallb].
    unfold hasTargetHealth at 1, targetHealthy at 1.
    destruct (elbv2.TargetHealth t) as [h|]; [|reflexivity].
    cbn [deref]. unfold bind, ret.
    destruct (aws.StringValue (elbv2.State h) =? "healthy")%string;
      cbn [negb andb]; rewrite IH.
    + reflexivity.
    + destruct (forallb hasTargetHealth ts); [|reflexivity].
      now rewrite andb_false_r.
Qed.

Lemma targetHealthy_hasTargetHealth ts :
  forallb targetHealthy ts = true -> forallb hasTargetHealth ts = true.
Proof.
  induction ts as [|t ts IH]; [reflexivity|]. cbn [forallb].
  intros [Ht Hts]%andb_true_iff. rewrite (IH Hts), andb_true_r.
  unfold targetHealthy in Ht. unfold hasTargetHealth.
  destruct (elbv2.TargetHealth t); [reflexivity | discriminate].
Qed.

Lemma checkTargetGroup_bound s lat svc rest lb lbs lat' descriptions :
  nextDescribeServices cp s = mkReply lat (inr (svc :: rest)) ->
  ecs.LoadBalancers svc = lb :: lbs ->
  nextDescribeTargetHealth cp s (ecs.TargetGroupArn lb)
  = mkReply lat' (inr descriptions) ->
  V2.checkTargetGroup cp s
  = let s' := afterCall (CallDescribeTargetHealth (ecs.TargetGroupArn lb))
                lat' (afterRefresh lat svc s) in
    if forallb hasTargetHealth descriptions
    then Ok (forallb targetHealthy descriptions, None) s'
    else Panic "nil pointer dereference" s'.
Proof.
  intros Hreply Hlb Hhealth.
  unfold V2.checkTargetGroup. unfold bind at 1.
  rewrite (refresh_snapshot cp s lat svc rest Hreply).
  unfold bind at 1.
  cbn [getCurrentOutput afterRefresh sh withSnapshot currentOutput].
  rewrite Hlb. unfold bind at 1.
  unfold callDescribeTargetHealth, apiCall.
  change (DescribeTargetHealth cp
            (countCalls isDescribeTargetHealth (afterRefresh lat svc s))
            (ecs.TargetGroupArn lb))
    with (nextDescribeTargetHealth cp s (ecs.TargetGroupArn lb)).
  rewrite Hhealth. cbn [payload latency].
  unfold bind at 1. rewrite checkTargetGroup_range_spec.
  cbv zeta. unfold afterCall.
  destruct (forallb hasTargetHealth descriptions); [|reflexivity].
  cbn [andb]. destruct (forallb targetHealthy descriptions); reflexivity.
Qed.

(** C9. After its refresh, [checkTargetGroup] answers true at once for a
    service without load balancers, making no [DescribeTargetHealth]
    call.  With load balancers it asks for the health of the target group
    of the first one only, and answers true exactly when every target
    health description of that group has state healthy. *)
Theorem target_group_converged_iff_all_healthy s lat svc rest :
  nextDescribeServices cp s = mkReply lat (inr (svc :: rest)) ->
  (ecs.LoadBalancers svc = [] ->
     V2.checkTargetGroup cp s
     = Ok (true, None)
          (printed (Text ("No load balancer to check." ++ nl)%string)
                   (afterRefresh lat svc s)))
  /\ (forall lb lbs lat' descriptions,
        ecs.LoadBalancers svc = lb :: lbs ->
        nextDescribeTargetHealth cp s (ecs.TargetGroupArn lb)
        = mkReply lat' (inr descriptions) ->
        let s' :=
          afterCall (CallDescribeTargetHealth (ecs.TargetGroupArn lb))
            lat' (afterRefresh lat svc s) in
        (V2.checkTargetGroup cp s = Ok (true, None) s'
         <-> forallb targetHealthy descriptions = true)
        /\ (forallb hasTargetHealth descriptions = true ->
            V2.checkTargetGroup cp s
            = Ok (forallb targetHealthy descriptions, None) s')).
Proof.
  intros Hreply. split.
  - intros Hnone. unfold V2.checkTargetGroup. unfold bind at 1.
    rewrite (refresh_snapshot cp s lat svc rest Hreply).
    unfold bind at 1.
    cbn [getCurrentOutput afterRefresh sh withSnapshot currentOutput].
    rewrite Hnone. reflexivity.
  - intros lb lbs lat' descriptions Hlb Hhealth s'.
    rewrite (checkTargetGroup_bound s lat svc rest lb lbs lat' descriptions
               Hreply Hlb Hhealth).
    fold s'. split.
    + split.
      * destruct (forallb hasTargetHealth descriptions); [|discriminate].
        now intros [= ->].
      * intros Hall. rewrite (targetHealthy_hasTargetHealth _ Hall), Hall.
        reflexivity.
    + intros ->. reflexivity.
Qed.
End PhaseC.

(** ** Diagnostics *)

Section Diagnostics.
Variable cp : ControlPlane.

Lemma len_nil {A} : len (@nil A) = 0.
Proof. reflexivity. Qed.

Lemma clampCount_under_supply l n :
  l < n -> l <> 1 -> clampCount l n = l - 1.
Proof.
  intros Hlt Hne. unfold clampCount.
  destruct (Z.ltb_spec l n); [|lia].
  destruct (Z.eqb_spec (l - 1) 0); [lia | reflexivity].
Qed.

Lemma clampCount_enough l n : n <= l -> clampCount l n = n.
Proof.
  intros Hle. unfold clampCount. destruct (Z.ltb_spec l n); [lia | reflexivity].
Qed.

Lemma slice0_in_range {A} (l : list A) n s :
  0 <= n <= len l -> slice0 l n s = Ok (firstn (Z.to_nat n) l) s.
Proof.
  intros [H0 Hn]. unfold slice0.
  destruct (Z.ltb_spec n 0); [lia|].
  destruct (Z.ltb_spec (len l) n); [lia | reflexivity].
Qed.

Lemma slice0_negative {A} (l : list A) n s :
  n < 0 -> slice0 l n s = Panic "slice bounds out of range" s.
Proof.
  intros Hn. unfold slice0. destruct (Z.ltb_spec n 0); [reflexivity | lia].
Qed.

Lemma V1_printLastNEvents_snapshot n s lat svc rest :
  nextDescribeServices cp s = mkReply lat (inr (svc :: rest)) ->
  V1.printLastNEvents cp n s
  = bind (slice0 (ecs.Events svc) (clampCount (len (ecs.Events svc)) n))
      (fun events => emit (PrintEvents events) ;; ret None)
      (afterRefresh lat svc s).
Proof.
  intros Hreply. unfold V1.printLastNEvents. unfold bind at 1.
  rewrite (refresh_snapshot cp s lat svc rest Hreply). reflexivity.
Qed.

Lemma V2_printLastNEvents_snapshot n s lat svc rest :
  nextDescribeServices cp s = mkReply lat (inr (svc :: rest)) ->
  V2.printLastNEvents cp n s
  = (if len (ecs.Events svc) =? 0
     then Println "No events found" ;; ret None
     else bind (slice0 (ecs.Events svc)
                  (clampCount (len (ecs.Events svc)) n))
            (fun events => emit (PrintEvents events) ;; ret None))
      (afterRefresh lat svc s).
Proof.
  intros Hreply. unfold V2.printLastNEvents. unfold bind at 1.
  rewrite (refresh_snapshot cp s lat svc rest Hreply). reflexivity.
Qed.

(** In the second variant a snapshot without events is reported. *)
Lemma V2_printLastNEvents_none n s lat svc rest :
  nextDescribeServices cp s = mkReply lat (inr (svc :: rest)) ->
  ecs.Events svc = [] ->
  V2.printLastNEvents cp n s
  = Ok None (printed (Text ("No events found" ++ nl)%string)
                     (afterRefresh lat svc s)).
Proof.
  intros Hreply Hnone.
  rewrite (V2_printLastNEvents_snapshot n s lat svc rest Hreply), Hnone.
  reflexivity.
Qed.

(** With at least two events but fewer than asked for, the second
    variant prints all but the last of them. *)
Lemma V2_printLastNEvents_under_supply n s lat svc rest :
  nextDescribeServices cp s = mkReply lat (inr (svc :: rest)) ->
  2 <= len (ecs.Events svc) < n ->
  V2.printLastNEvents cp n s
  = Ok None
      (printed (PrintEvents
                  (firstn (Z.to_nat (len (ecs.Events svc) - 1))
                          (ecs.Events svc)))
               (afterRefresh lat svc s)).
Proof.
  intros Hreply [H2 Hn].
  rewrite (V2_printLastNEvents_snapshot n s lat svc rest Hreply).
  destruct (Z.eqb_spec (len (ecs.Events svc)) 0); [lia|].
  rewrite clampCount_under_supply by lia. unfold bind at 1.
  rewrite slice0_in_range by lia. reflexivity.
Qed.

(** C10. In the first variant, on a snapshot without events and for any
    positive count asked for, the count is adjusted to -1 and slicing
    [Events[0:-1]] panics: [printLastNEvents] prints nothing and returns
    nothing, and so does [exitOut], whose first step after its heading
    is [printLastNEvents(10)]. *)
Theorem V1_zero_events_panics s lat svc rest :
  nextDescribeServices cp s = mkReply lat (inr (svc :: rest)) ->
  ecs.Events svc = [] ->
  (forall n, 0 < n ->
     clampCount (len (ecs.Events svc)) n = -1
     /\ V1.printLastNEvents cp n s
        = Panic "slice bounds out of range" (afterRefresh lat svc s))
  /\ (forall (A : Type) (code : Z),
        @V1.exitOut cp A code s
        = Panic "slice bounds out of range"
            (afterRefresh lat svc (printed (troubleshooting (sh s)) s))).
Proof.
  intros Hreply Hnone.
  assert (Hclamp : forall n, 0 < n -> clampCount (len (ecs.Events svc)) n = -1).
  { intros n Hn. rewrite Hnone, len_nil.
    rewrite clampCount_under_supply by lia. reflexivity. }
  split.
  - intros n Hn. split; [exact (Hclamp n Hn)|].
    rewrite (V1_printLastNEvents_snapshot n s lat svc rest Hreply).
    unfold bind. rewrite (Hclamp n Hn), slice0_negative by lia. reflexivity.
  - intros A code. unfold V1.exitOut. unfold bind at 1.
    cbn [getHandler]. unfold bind at 1. unfold Printf at 1, emit at 1.
    unfold bind at 1.
    match goal with
    | |- context [V1.printLastNEvents cp 10 ?st] =>
        change st with (printed (troubleshooting (sh s)) s)
    end.
    rewrite (V1_printLastNEvents_snapshot 10
               (printed (troubleshooting (sh s)) s) lat svc rest Hreply).
    unfold bind at 1. rewrite (Hclamp 10), slice0_negative by lia.
    reflexivity.
Qed.
End Diagnostics.

(** ** Runs on concrete control planes *)

Section Runs.
Import Examples.

(** C1. On a control plane where the running count matches the desired
    count on the first tick and is one short again on every later fetch,
    Phase B returns nil 25 seconds in (the tick and the grace period)
    with two [DescribeServices] calls made, that of [checkPendingCount]
    and that of the tick: after the grace period no refresh happens, the
    test is repeated on the cached snapshot, and the next fetch, which
    shows the count short again, is never made. *)
Theorem grace_recheck_makes_no_refresh :
  let run := checkPendingCount flappingPlane 100 (initState webHandler) in
  returned run = Some None
  /\ callsAtEnd run = Some [describeWeb; describeWeb]
  /\ clockAtEnd run = Some (time.Second * 10 + time.Second * 15)
  /\ payload (DescribeServices flappingPlane 2)
     = inr [service 2 1 [] [] []].
Proof. cbv zeta. repeat split; vm_compute; reflexivity. Qed.

(** C2. On a control plane whose only deployment is ACTIVE and
    COMPLETED, none being PRIMARY, Phase A of the second variant does not
    return nil: it tracks the empty id, waits for the first tick and
    returns the error "deployment disappeared" 10 seconds in. *)
Theorem no_primary_deployment_fails_on_first_tick :
  let run := V2.checkDeployments noPrimaryPlane 100 (initState webHandler) in
  existsb isPrimary (ecs.Deployments noPrimaryService) = false
  /\ returned run = Some (Some (Errorf "deployment disappeared"))
  /\ selectsAtEnd run = Some 1%nat
  /\ clockAtEnd run = Some (time.Second * 10).
Proof. cbv zeta. repeat split; vm_compute; reflexivity. Qed.

(** C3. With two events available and ten asked for, the second variant
    prints one event, the newest, not two; with two stopped tasks
    available and five asked for, it describes and prints one task. *)
Theorem two_available_items_show_one :
  let events := V2.printLastNEvents twoEventsPlane 10 (initState webHandler) in
  let tasks := V2.printLastNTasks twoEventsPlane 5 (initState webHandler) in
  returned events = Some None
  /\ outputAtEnd events
     = Some [PrintEvents
               [event "e2" "(service web) has reached a steady state."]]
  /\ returned tasks = Some None
  /\ callsAtEnd tasks
     = Some [CallDescribeTasks "prod" ["arn:task/1"];
             CallListTasks "prod" "web" "STOPPED"]
  /\ outputAtEnd tasks = Some [PrintTasks [task "arn:task/1"]].
Proof. cbv zeta. repeat split; vm_compute; reflexivity. Qed.

(** C4. On a control plane whose [DescribeServices] fails on the refresh
    of the first tick of Phase B and shows matching counts afterwards,
    [checkPendingCount] returns nil: the failed call is neither returned
    nor reported, and the loop polls again on the next tick. *)
Theorem count_loop_swallows_refresh_error :
  let run := checkPendingCount flakyPlane 100 (initState webHandler) in
  payload (DescribeServices flakyPlane 1)
  = inl "RequestError: send request failed"
  /\ returned run = Some None
  /\ callsAtEnd run = Some [describeWeb; describeWeb; describeWeb]
  /\ clockAtEnd run = Some (time.Second * 20 + time.Second * 15).
Proof. cbv zeta. repeat split; vm_compute; reflexivity. Qed.

(** C5. Whatever check interval and timeout in minutes the handler is
    configured with (20 minutes, say), Phase A on a control plane whose
    primary deployment stays IN_PROGRESS returns the timeout error when
    the clock shows 10 minutes: the timeout ticker is made with the
    constant [time.Minute * 10]. *)
Theorem timeout_ignores_configured_minutes (interval minutes : Z) :
  let run :=
    V2.checkDeployments stuckPlane 100
      (initState (newServiceHandler "web" "prod" interval minutes)) in
  returned run
  = Some (Some (Errorf "timeouted out waiting for deployment to happen"))
  /\ clockAtEnd run = Some (time.Minute * 10).
Proof. cbv zeta. split; vm_compute; reflexivity. Qed.
End Runs.

(** ** Instances of the general theorems *)

Section Instances.
Import Examples.

(** The tracked deployment is present with rollout state NOT_FOUND, which
    is not COMPLETED, and the loop does not go on to its next iteration:
    it returns "deployment disappeared" on that tick.  So "any rollout
    state other than COMPLETED keeps the loop waiting" does not hold. *)
Lemma present_deployment_reported_disappeared :
  ~ (forall cp fuel id a b s lat svc rest d,
       firesFirst cp a b s = true ->
       nextDescribeServices cp s = mkReply lat (inr (svc :: rest)) ->
       findDeployment id svc = Some d ->
       rolloutState d <> "COMPLETED" ->
       V2.waitForDeployment_loop cp (S fuel) id a b s
       = V2.waitForDeployment_loop cp fuel id
           (recv a (selectTime a b s)) b
           (printed (V2_waiting (sh s) id (rolloutState d))
                    (tickState (V2_checking id) a b lat svc s))).
Proof.
  intros claim.
  specialize (claim oddPlane 0%nat "ecs-svc/1"
                (checkTimerAfter 0) timeoutTicker
                (pollingState 0 oddService) 0%N oddService []
                oddDeployment eq_refl eq_refl eq_refl).
  assert (Hne : rolloutState oddDeployment <> "COMPLETED") by discriminate.
  specialize (claim Hne).
  rewrite (V2_tick_sentinel oddPlane 0 "ecs-svc/1"
             (checkTimerAfter 0) timeoutTicker
             (pollingState 0 oddService) 0%N oddService []
             oddDeployment eq_refl eq_refl eq_refl eq_refl) in claim.
  discriminate claim.
Qed.

Lemma deployment_disappeared_on_absent_tick_witness :
  firesFirst vanishingPlane (checkTimerAfter 1) timeoutTicker
    (pollingState 1 failedService) = true
  /\ nextDescribeServices vanishingPlane (pollingState 1 failedService)
     = mkReply 0 (inr [emptiedService])
  /\ findDeployment "ecs-svc/1" emptiedService = None
  /\ V1.waitForDeployment_loop vanishingPlane 1 "ecs-svc/1"
       (checkTimerAfter 1) timeoutTicker (pollingState 1 failedService)
     = Ok (Some (Errorf "deployment disappeared"))
          (tickState (V1_checking "ecs-svc/1") (checkTimerAfter 1)
             timeoutTicker 0 emptiedService (pollingState 1 failedService))
  /\ V2.waitForDeployment_loop vanishingPlane 1 "ecs-svc/1"
       (checkTimerAfter 1) timeoutTicker (pollingState 1 failedService)
     = Ok (Some (Errorf "deployment disappeared"))
          (tickState (V2_checking "ecs-svc/1") (checkTimerAfter 1)
             timeoutTicker 0 emptiedService (pollingState 1 failedService)).
Proof.
  split; [reflexivity|]. split; [reflexivity|]. split; [reflexivity|].
  apply (deployment_disappeared_on_absent_tick vanishingPlane 0
           "ecs-svc/1" (checkTimerAfter 1) timeoutTicker
           (pollingState 1 failedService) 0%N emptiedService []);
    reflexivity.
Defined.

Lemma present_deployment_waits_until_completed_witness :
  firesFirst vanishingPlane (checkTimerAfter 0) timeoutTicker
    (pollingState 0 stuckService) = true
  /\ nextDescribeServices vanishingPlane (pollingState 0 stuckService)
     = mkReply 0 (inr [failedService])
  /\ findDeployment "ecs-svc/1" failedService = Some failedDeployment
  /\ rolloutState failedDeployment = "FAILED"
  /\ V2.waitForDeployment_loop vanishingPlane 2 "ecs-svc/1"
       (checkTimerAfter 0) timeoutTicker (pollingState 0 stuckService)
     = V2.waitForDeployment_loop vanishingPlane 1 "ecs-svc/1"
         (recv (checkTimerAfter 0)
            (selectTime (checkTimerAfter 0) timeoutTicker
               (pollingState 0 stuckService)))
         timeoutTicker
         (printed (V2_waiting webHandler "ecs-svc/1" "FAILED")
            (tickState (V2_checking "ecs-svc/1") (checkTimerAfter 0)
               timeoutTicker 0 failedService
               (pollingState 0 stuckService)))
  /\ findDeployment "ecs-svc/1" completedService = Some completedDeployment
  /\ V2.waitForDeployment_loop completedPlane 1 "ecs-svc/1"
       (checkTimerAfter 0) timeoutTicker (pollingState 0 stuckService)
     = Ok None
         (printed (V2_complete completedDeployment)
            (tickState (V2_checking "ecs-svc/1") (checkTimerAfter 0)
               timeoutTicker 0 completedService
               (pollingState 0 stuckService))).
Proof.
  split; [reflexivity|]. split; [reflexivity|]. split; [reflexivity|].
  split; [reflexivity|]. split.
  - destruct (present_deployment_waits_until_completed vanishingPlane 1
                "ecs-svc/1" (checkTimerAfter 0) timeoutTicker
                (pollingState 0 stuckService) 0%N failedService []
                failedDeployment eq_refl eq_refl eq_refl) as [_ Hwait].
    apply Hwait; discriminate.
  - split; [reflexivity|].
    destruct (present_deployment_waits_until_completed completedPlane 0
                "ecs-svc/1" (checkTimerAfter 0) timeoutTicker
                (pollingState 0 stuckService) 0%N completedService []
                completedDeployment eq_refl eq_refl eq_refl) as [Hdone _].
    apply Hdone. reflexivity.
Defined.

Lemma completed_on_first_fetch_needs_no_tick_witness :
  nextDescribeServices completedPlane (initState webHandler)
  = mkReply 0 (inr [completedService])
  /\ findDeployment (V2.firstPrimary (ecs.Deployments completedService))
       completedService = Some completedDeployment
  /\ rolloutState completedDeployment = "COMPLETED"
  /\ (exists s',
        V2.checkDeployments completedPlane 0 (initState webHandler)
        = Ok None s'
        /\ selects s' = O
        /\ now s' = 0
        /\ calls s' = [describeWeb])
  /\ V1.checkDeployments completedPlane 0 (initState webHandler)
     = Ok None (afterRefresh 0 completedService (initState webHandler)).
Proof.
  split; [reflexivity|]. split; [reflexivity|]. split; [reflexivity|].
  destruct (completed_on_first_fetch_needs_no_tick completedPlane 0
              (initState webHandler) 0%N completedService [] eq_refl)
    as [Htracked Hall].
  split.
  - apply (Htracked completedDeployment); reflexivity.
  - apply Hall. repeat constructor.
Defined.

Lemma target_group_converged_iff_all_healthy_witness :
  nextDescribeServices balancedPlane (initState webHandler)
  = mkReply 0 (inr [balancedService])
  /\ ecs.LoadBalancers balancedService = [firstBinding; secondBinding]
  /\ forallb targetHealthy (healthOf (ecs.TargetGroupArn firstBinding))
     = true
  /\ V2.checkTargetGroup balancedPlane (initState webHandler)
     = Ok (true, None)
          (afterCall (CallDescribeTargetHealth (Some "arn:targetgroup/a"))
             0 (afterRefresh 0 balancedService (initState webHandler)))
  /\ ecs.LoadBalancers completedService = []
  /\ V2.checkTargetGroup completedPlane (initState webHandler)
     = Ok (true, None)
          (printed (Text ("No load balancer to check." ++ nl)%string)
             (afterRefresh 0 completedService (initState webHandler))).
Proof.
  split; [reflexivity|]. split; [reflexivity|]. split; [reflexivity|].
  split.
  - destruct (target_group_converged_iff_all_healthy balancedPlane
                (initState webHandler) 0%N balancedService [] eq_refl)
      as [_ Hbound].
    destruct (Hbound firstBinding [secondBinding] 0%N
                (healthOf (ecs.TargetGroupArn firstBinding))
                eq_refl eq_refl) as [[_ Hconverged] _].
    apply Hconverged. reflexivity.
  - split; [reflexivity|].
    destruct (target_group_converged_iff_all_healthy completedPlane
                (initState webHandler) 0%N completedService [] eq_refl)
      as [Hnone _].
    apply Hnone. reflexivity.
Defined.

Lemma V1_zero_events_panics_witness :
  nextDescribeServices noPrimaryPlane (initState webHandler)
  = mkReply 0 (inr [noPrimaryService])
  /\ ecs.Events noPrimaryService = []
  /\ clampCount (len (ecs.Events noPrimaryService)) 10 = -1
  /\ V1.printLastNEvents noPrimaryPlane 10 (initState webHandler)
     = Panic "slice bounds out of range"
         (afterRefresh 0 noPrimaryService (initState webHandler))
  /\ @V1.exitOut noPrimaryPlane unit 1 (initState webHandler)
     = Panic "slice bounds out of range"
         (afterRefresh 0 noPrimaryService
            (printed (troubleshooting webHandler) (initState webHandler))).
Proof.
  split; [reflexivity|]. split; [reflexivity|].
  destruct (V1_zero_events_panics noPrimaryPlane (initState webHandler)
              0%N noPrimaryService [] eq_refl eq_refl) as [Hprint Hexit].
  split; [|split].
  - apply (Hprint 10). reflexivity.
  - apply (Hprint 10). reflexivity.
  - apply Hexit.
Defined.

(** The run-level statement at work: from the entry of the loop, one
    waiting snapshot (FAILED) and then the snapshot without the
    deployment. *)
Example vanishing_run_disappears_on_second_tick :
  exists s',
    V2.waitForDeployment_loop vanishingPlane 2 "ecs-svc/1"
      (checkTimerAfter 0) timeoutTicker (pollingState 0 stuckService)
    = Ok (Some (Errorf "deployment disappeared")) s'
    /\ countCalls isDescribeServices s' = 3%nat
    /\ selects s' = 2%nat.
Proof.
  apply (V2_disappears_after_waiting vanishingPlane 1 0 0 "ecs-svc/1" 0
           (checkTimerAfter 0) timeoutTicker (pollingState 0 stuckService)).
  - repeat split; cbn; lia.
  - reflexivity.
  - intros i Hi. assert (i = O) as -> by lia. split; [|cbn; lia].
    exists failedService, [], failedDeployment.
    repeat split; discriminate.
  - exists emptiedService, []. split; reflexivity.
Defined.

(** The timeout statement at work on the rollout that never completes. *)
Example stuck_rollout_times_out_at_ten_minutes :
  exists s',
    V2.waitForDeployment_loop stuckPlane 61 "ecs-svc/1"
      (checkTimerAfter 0) timeoutTicker (pollingState 0 stuckService)
    = Ok (Some (Errorf "timeouted out waiting for deployment to happen")) s'
    /\ now s' = 0 + time.Minute * 10.
Proof.
  apply (V2_never_completing_rollout_times_out stuckPlane 0 "ecs-svc/1" 0
           (checkTimerAfter 0) timeoutTicker (pollingState 0 stuckService)).
  - intros k. split; [|reflexivity].
    exists stuckService, [], (deployment "ecs-svc/1" "IN_PROGRESS" "PRIMARY").
    repeat split; discriminate.
  - repeat split.
Defined.
End Instances.

(** * Further properties of the code *)

(** ** [refresh] and the entry of each phase *)

Section Refreshing.
Variable cp : ControlPlane.

(** X1. [refresh] always returns: it makes one call, fails exactly when the
    call fails or lists no service, and a failed refresh leaves the
    handler, cached snapshot included, as it was; a refresh that succeeds
    caches the first service listed and changes nothing else of the
    handler. *)
Theorem refresh_failure_keeps_cached_snapshot s :
  exists r s',
    refresh cp s = Ok r s'
    /\ calls s' = describeCall s :: calls s
    /\ (forall e, r = Some e ->
          sh s' = sh s
          /\ (payload (nextDescribeServices cp s) = inl (Error e)
              /\ e = SdkError (Error e)
              \/ payload (nextDescribeServices cp s) = inr []
                 /\ e = Errorf "service not found"))
    /\ (r = None ->
          exists svc rest,
            payload (nextDescribeServices cp s) = inr (svc :: rest)
            /\ sh s' = withSnapshot (sh s) svc).
Proof.
  destruct (nextDescribeServices cp s) as [lat [msg|[|svc rest]]] eqn:Hreply.
  - rewrite (refresh_sdk_error cp s lat msg Hreply).
    do 2 eexists. split; [reflexivity|]. split; [reflexivity|]. split.
    + intros e [= <-]. split; [reflexivity|]. left. split; reflexivity.
    + discriminate.
  - rewrite (refresh_no_service cp s lat Hreply).
    do 2 eexists. split; [reflexivity|]. split; [reflexivity|]. split.
    + intros e [= <-]. split; [reflexivity|]. right. split; reflexivity.
    + discriminate.
  - rewrite (refresh_snapshot cp s lat svc rest Hreply).
    do 2 eexists. split; [reflexivity|]. split; [reflexivity|]. split.
    + discriminate.
    + intros _. exists svc, rest. split; reflexivity.
Qed.

(** X2. Every phase opens with a refresh, and an error of that refresh is
    what the phase returns, at once: no ticker is made, no [select] is
    waited on and no other call follows. *)
Theorem phase_entry_refresh_error_is_returned fuel s e s' :
  refresh cp s = Ok (Some e) s' ->
  V1.checkDeployments cp fuel s = Ok (Some e) s'
  /\ V2.checkDeployments cp fuel s = Ok (Some e) s'
  /\ checkPendingCount cp fuel s = Ok (Some e) s'
  /\ V2.checkTargetGroup cp s = Ok (false, Some e) s'.
Proof.
  intros Hrefresh.
  unfold V1.checkDeployments, V2.checkDeployments, checkPendingCount,
    V2.checkTargetGroup.
  repeat split; unfold bind at 1; rewrite Hrefresh; reflexivity.
Qed.
End Refreshing.

(** ** Phase B beyond the grace period *)

Section CountConvergence.
Variable cp : ControlPlane.

Lemma checkPendingCount_equal_counts fuel s lat svc rest :
  nextDescribeServices cp s = mkReply lat (inr (svc :: rest)) ->
  aws.Int64Value (ecs.DesiredCount svc)
  = aws.Int64Value (ecs.RunningCount svc) ->
  checkPendingCount cp fuel s = Ok None (afterRefresh lat svc s).
Proof.
  intros Hreply Hmatch. unfold checkPendingCount. unfold bind at 1.
  rewrite (refresh_snapshot cp s lat svc rest Hreply).
  cbv beta iota zeta delta
    [bind getCurrentOutput afterRefresh sh withSnapshot currentOutput].
  rewrite Hmatch, Z.eqb_refl. reflexivity.
Qed.

(** X3. When the first fetch of Phase B shows the running count equal to the
    desired count (a count the API left out counting as zero),
    [checkPendingCount] returns nil after that one call: no ticker, no
    [select], no grace period. *)
Theorem equal_counts_on_first_fetch_need_no_poll fuel s lat svc rest :
  nextDescribeServices cp s = mkReply lat (inr (svc :: rest)) ->
  aws.Int64Value (ecs.DesiredCount svc)
  = aws.Int64Value (ecs.RunningCount svc) ->
  checkPendingCount cp fuel s = Ok None (afterRefresh lat svc s).
Proof. exact (checkPendingCount_equal_counts fuel s lat svc rest). Qed.

(** One tick of the Phase B loop up to the test of the refreshed
    snapshot. *)
Lemma count_tick fuel a b s lat svc rest :
  firesFirst cp a b s = true ->
  nextDescribeServices cp s = mkReply lat (inr (svc :: rest)) ->
  aws.Int64Value (ecs.DesiredCount svc)
  <> aws.Int64Value (ecs.RunningCount svc) ->
  waitForRunningToMatchDesired_loop cp (S fuel) a b s
  = (desired <- deref (ecs.DesiredCount svc) ;;
     running <- deref (ecs.RunningCount svc) ;;
     emit (waitingCounts (sh s) desired running) ;;
     waitForRunningToMatchDesired_loop cp fuel (recv a (selectTime a b s)) b)
      (afterRefresh lat svc
         (printed checkingCounts (afterSelect (selectTime a b s) s))).
Proof.
  intros Hsel Hreply Hne.
  cbn [waitForRunningToMatchDesired_loop]. unfold bind at 1.
  rewrite (select2_first cp a b s Hsel).
  unfold bind at 1. unfold Println at 1, emit at 1.
  unfold bind at 1.
  erewrite refresh_snapshot by exact Hreply.
  unfold bind at 1.
  erewrite countsMatch_eval by reflexivity.
  apply Z.eqb_neq in Hne. rewrite Hne. reflexivity.
Qed.

Lemma unequal_counts_keep_count_loop_waiting_aux
    fuel a b s lat svc rest desired running :
  firesFirst cp a b s = true ->
  nextDescribeServices cp s = mkReply lat (inr (svc :: rest)) ->
  ecs.DesiredCount svc = Some desired ->
  ecs.RunningCount svc = Some running ->
  desired <> running ->
  waitForRunningToMatchDesired_loop cp (S fuel) a b s
  = waitForRunningToMatchDesired_loop cp fuel (recv a (selectTime a b s)) b
      (printed (waitingCounts (sh s) desired running)
         (afterRefresh lat svc
            (printed checkingCounts (afterSelect (selectTime a b s) s)))).
Proof.
  intros Hsel Hreply Hd Hr Hne.
  rewrite (count_tick fuel a b s lat svc rest Hsel Hreply)
    by (rewrite Hd, Hr; exact Hne).
  rewrite Hd, Hr. reflexivity.
Qed.

(** X4. A tick of the Phase B loop whose refreshed snapshot shows the counts
    apart neither succeeds nor fails: the loop prints its waiting line,
    with the interval of the handler and both counts, and goes on to the
    next iteration. *)
Theorem unequal_counts_keep_count_loop_waiting
    fuel a b s lat svc rest desired running :
  firesFirst cp a b s = true ->
  nextDescribeServices cp s = mkReply lat (inr (svc :: rest)) ->
  ecs.DesiredCount svc = Some desired ->
  ecs.RunningCount svc = Some running ->
  desired <> running ->
  waitForRunningToMatchDesired_loop cp (S fuel) a b s
  = waitForRunningToMatchDesired_loop cp fuel (recv a (selectTime a b s)) b
      (printed (waitingCounts (sh s) desired running)
         (afterRefresh lat svc
            (printed checkingCounts (afterSelect (selectTime a b s) s)))).
Proof.
  exact (unequal_counts_keep_count_loop_waiting_aux
           fuel a b s lat svc rest desired running).
Qed.

(** X5. The waiting line dereferences both count pointers: on a tick whose
    refreshed snapshot has the counts apart and lacks one of them, the
    loop panics instead of waiting. *)
Theorem missing_count_panics_count_loop fuel a b s lat svc rest :
  firesFirst cp a b s = true ->
  nextDescribeServices cp s = mkReply lat (inr (svc :: rest)) ->
  aws.Int64Value (ecs.DesiredCount svc)
  <> aws.Int64Value (ecs.RunningCount svc) ->
  ecs.DesiredCount svc = None \/ ecs.RunningCount svc = None ->
  waitForRunningToMatchDesired_loop cp (S fuel) a b s
  = Panic "nil pointer dereference"
      (afterRefresh lat svc
         (printed checkingCounts (afterSelect (selectTime a b s) s))).
Proof.
  intros Hsel Hreply Hne Hnil.
  rewrite (count_tick fuel a b s lat svc rest Hsel Hreply Hne).
  destruct Hnil as [Hnil|Hnil]; rewrite Hnil.
  - reflexivity.
  - destruct (ecs.DesiredCount svc); reflexivity.
Qed.

(** When the timeout case of the [select] is taken the Phase B loop ends
    with its timeout error. *)
Lemma count_loop_timeout fuel a b s :
  firesFirst cp a b s = false ->
  waitForRunningToMatchDesired_loop cp (S fuel) a b s
  = Ok (Some (Errorf "timeouted out waiting for desired to match running"))
       (afterSelect (selectTime a b s) s).
Proof.
  intros Hsel. cbn [waitForRunningToMatchDesired_loop]. unfold bind at 1.
  rewrite (select2_second cp a b s Hsel). reflexivity.
Qed.
End CountConvergence.

Section CountConvergenceRuns.
Variable cp : ControlPlane.

Lemma count_waits_on_schedule n : forall fuel t0 j a b s,
  neverMatches cp ->
  onSchedule t0 j a b s ->
  (j + n <= 59)%nat ->
  exists a' s',
    waitForRunningToMatchDesired_loop cp (n + fuel) a b s
    = waitForRunningToMatchDesired_loop cp fuel a' b s'
    /\ onSchedule t0 (j + n) a' b s'.
Proof.
  induction n as [|n IH]; intros fuel t0 j a b s Hnever Hsched Hj.
  - exists a, s. rewrite Nat.add_0_r. split; [reflexivity | exact Hsched].
  - destruct (nextFire_on_schedule t0 j a b s Hsched) as (Hfa & Hfb & Hpoll).
    pose proof Hsched as (Hstart & Hper & Hrecv & Hnow & Hb).
    destruct (polling_tick_fires cp t0 a b s Hpoll
                ltac:(rewrite Hnow; unfold time.Minute, time.Second; lia))
      as (Hsel & _).
    assert (Hat : selectTime a b s = t0 + Z.of_nat (S j) * (time.Second * 10))
      by (unfold selectTime; rewrite Hfa, Hfb, Hnow;
          unfold time.Minute, time.Second; lia).
    destruct (Hnever (countCalls isDescribeServices s))
      as ((svc & rest & d & r & Hpay & Hd & Hr & Hne) & Hlat).
    assert (Hreply : nextDescribeServices cp s = mkReply 0 (inr (svc :: rest))).
    { unfold nextDescribeServices. rewrite <- Hpay, <- Hlat. apply reply_eta. }
    cbn [Nat.add].
    rewrite (unequal_counts_keep_count_loop_waiting_aux cp _ a b s _ svc rest
               d r Hsel Hreply Hd Hr Hne).
    set (s1 := printed _ _).
    assert (Hnow1 : now s1 = selectTime a b s + 0) by reflexivity.
    destruct (IH fuel t0 (S j) (recv a (selectTime a b s)) b s1 Hnever)
      as (a' & s' & Hrun & Hsched').
    + repeat split; cbn [recv start period lastRecv]; try assumption;
        rewrite ?Hnow1, Hat; lia.
    + lia.
    + exists a', s'. split; [exact Hrun|].
      replace (j + S n)%nat with (S j + n)%nat by lia. exact Hsched'.
Qed.

Lemma count_loop_never_matching_times_out fuel t0 a b s :
  neverMatches cp ->
  onSchedule t0 0 a b s ->
  exists s',
    waitForRunningToMatchDesired_loop cp (61 + fuel) a b s
    = Ok (Some (Errorf "timeouted out waiting for desired to match running"))
         s'
    /\ now s' = t0 + time.Minute * 10.
Proof.
  intros Hnever Hsched.
  destruct (count_waits_on_schedule 59 (2 + fuel) t0 0 a b s Hnever Hsched
              ltac:(lia)) as (a1 & s1 & Hrun & Hsched1).
  replace (61 + fuel)%nat with (59 + (2 + fuel))%nat by lia.
  rewrite Hrun. clear Hrun.
  destruct (nextFire_on_schedule t0 59 a1 b s1 Hsched1) as (Hfa & Hfb & _).
  pose proof Hsched1 as (Hstart & Hper & Hrecv & Hnow & Hb).
  assert (Hsixty : Z.of_nat 60 * (time.Second * 10) = time.Minute * 10)
    by reflexivity.
  assert (Htie : nextFire a1 = nextFire b)
    by (rewrite Hfa, Hfb, Hsixty; reflexivity).
  assert (Hbefore : now s1 <= nextFire a1)
    by (rewrite Hnow, Hfa; unfold time.Second; lia).
  assert (Hat : selectTime a1 b s1 = t0 + time.Minute * 10)
    by (unfold selectTime; rewrite <- Htie, Z.min_id, Z.max_r by exact Hbefore;
        rewrite Hfa, Hsixty; reflexivity).
  pose proof (firesFirst_tie cp a1 b s1 Htie Hbefore) as Hpick.
  destruct (selectPick cp (selects s1)).
  - destruct (Hnever (countCalls isDescribeServices s1))
      as ((svc & rest & d & r & Hpay & Hd & Hr & Hne) & Hlat).
    assert (Hreply : nextDescribeServices cp s1 = mkReply 0 (inr (svc :: rest))).
    { unfold nextDescribeServices. rewrite <- Hpay, <- Hlat. apply reply_eta. }
    cbn [Nat.add].
    rewrite (unequal_counts_keep_count_loop_waiting_aux cp _ a1 b s1 _ svc rest
               d r Hpick Hreply Hd Hr Hne).
    set (s2 := printed _ _). set (a2 := recv a1 _).
    assert (Hnow2 : now s2 = t0 + time.Minute * 10)
      by (change (now s2) with (selectTime a1 b s1 + 0); lia).
    assert (Hsched2 : onSchedule t0 60 a2 b s2).
    { subst a2. repeat split; cbn [recv start period lastRecv];
        try assumption; rewrite ?Hnow2, ?Hat, Hsixty; reflexivity. }
    destruct (nextFire_on_schedule t0 60 a2 b s2 Hsched2) as (Hfa2 & Hfb2 & _).
    assert (Hlater : nextFire b < nextFire a2)
      by (rewrite Hfa2, Hfb2; unfold time.Minute, time.Second; lia).
    rewrite (count_loop_timeout cp fuel a2 b s2).
    + eexists. split; [reflexivity|]. cbn [afterSelect now].
      unfold selectTime. rewrite Hnow2, <- Hfb2. lia.
    + apply firesSecond_timeout_first; [exact Hlater|].
      rewrite Hnow2, <- Hfb2. exact Hlater.
  - cbn [Nat.add]. rewrite (count_loop_timeout cp _ a1 b s1 Hpick).
    eexists. split; [reflexivity|]. cbn [afterSelect now]. exact Hat.
Qed.

(** X6. Counts that never meet, against a control plane that answers at
    once: entered with the counts of the cached snapshot apart,
    [waitForRunningToMatchDesired] returns its timeout error when the
    clock shows ten minutes more than at entry, whatever timeout the
    handler was configured with. *)
Theorem never_matching_counts_time_out_after_ten_minutes fuel s svc :
  currentOutput (sh s) = Some svc ->
  aws.Int64Value (ecs.DesiredCount svc)
  <> aws.Int64Value (ecs.RunningCount svc) ->
  neverMatches cp ->
  exists s',
    waitForRunningToMatchDesired cp (61 + fuel) s
    = Ok (Some (Errorf "timeouted out waiting for desired to match running"))
         s'
    /\ now s' = now s + time.Minute * 10.
Proof.
  intros Hcur Hne Hnever.
  unfold waitForRunningToMatchDesired. unfold bind at 1.
  rewrite (countsMatch_eval s svc Hcur).
  apply Z.eqb_neq in Hne. rewrite Hne.
  unfold bind at 1. unfold NewTicker at 1.
  change (time.Second * 10 <=? 0) with false. cbv beta iota.
  unfold bind at 1. unfold NewTicker at 1.
  change (time.Minute * 10 <=? 0) with false. cbv beta iota.
  apply count_loop_never_matching_times_out; [exact Hnever|].
  repeat split; cbn [start period lastRecv]; lia.
Qed.
End CountConvergenceRuns.

(** ** Which deployment is waited for *)

Section Tracking.
Variable cp : ControlPlane.

(** X10. The first variant waits for deployments IN_PROGRESS only: when the
    first fetch shows none in that state, whatever else the deployments
    report (FAILED, say), [checkDeployments] returns nil after that one
    call. *)
Theorem V1_waits_for_in_progress_deployments_only fuel s lat svc rest :
  nextDescribeServices cp s = mkReply lat (inr (svc :: rest)) ->
  Forall (fun d => rolloutState d <> "IN_PROGRESS") (ecs.Deployments svc) ->
  V1.checkDeployments cp fuel s = Ok None (afterRefresh lat svc s).
Proof.
  intros Hreply Hnone. unfold V1.checkDeployments. unfold bind at 1.
  rewrite (refresh_snapshot cp s lat svc rest Hreply).
  unfold bind at 1.
  cbn [getCurrentOutput afterRefresh sh withSnapshot currentOutput].
  generalize (afterRefresh lat svc s). fold (afterRefresh lat svc s).
  induction Hnone as [|d ds Hd _ IH]; intros s1;
    cbn [V1.checkDeployments_range]; [reflexivity|].
  destruct (deploymentState d "COMPLETED"); [apply IH|].
  unfold deploymentState. apply String.eqb_neq in Hd.
  unfold rolloutState in Hd. rewrite Hd. apply IH.
Qed.

(** X11. With deployment ids that differ, the deployment whose rollout state
    the second variant polls is the first PRIMARY one itself:
    [getActiveDeploymentId] answers its id and the look-up by that id in
    [isComplete] finds it again. *)
Theorem tracked_deployment_is_first_primary ds p :
  find isPrimary ds = Some p ->
  NoDup (map deploymentId ds) ->
  V2.firstPrimary ds = deploymentId p
  /\ find (hasId (V2.firstPrimary ds)) ds = Some p.
Proof.
  induction ds as [|d ds IH]; [discriminate|].
  cbn [find V2.firstPrimary map]. unfold isPrimary at 1.
  intros Hfind Hnodup. inversion Hnodup as [|? ? Hnotin Hnodup']; subst.
  destruct (aws.StringValue (ecs.Status d) =? "PRIMARY")%string.
  - injection Hfind as ->. split; [reflexivity|].
    unfold hasId, deploymentId. now rewrite String.eqb_refl.
  - destruct (IH Hfind Hnodup') as [Hid Hlook]. split; [exact Hid|].
    unfold hasId at 1. rewrite Hid.
    destruct (String.eqb_spec (aws.StringValue (ecs.Id d)) (deploymentId p))
      as [Heq|_]; [|rewrite <- Hid; exact Hlook].
    exfalso. apply Hnotin. apply find_some in Hfind as [Hin _].
    unfold deploymentId at 1. rewrite Heq. apply in_map. exact Hin.
Qed.
End Tracking.

(** ** Diagnostics of the second variant *)

Section DiagnosticsV2.
Variable cp : ControlPlane.

Lemma clampCount_bounds l n :
  1 <= l -> 0 <= n ->
  0 <= clampCount l n <= l
  /\ clampCount l n <= Z.max n 1
  /\ (1 <= n -> 1 <= clampCount l n)
  /\ (n <= l -> clampCount l n = n).
Proof.
  intros Hl Hn. unfold clampCount.
  destruct (Z.ltb_spec l n); [destruct (Z.eqb_spec (l - 1) 0)|]; lia.
Qed.

Lemma V2_printLastNEvents_prints_bounded_prefix_aux n s lat svc rest :
  nextDescribeServices cp s = mkReply lat (inr (svc :: rest)) ->
  ecs.Events svc <> [] ->
  0 <= n ->
  exists k,
    V2.printLastNEvents cp n s
    = Ok None (printed (PrintEvents (firstn k (ecs.Events svc)))
                       (afterRefresh lat svc s)).
Proof.
  intros Hreply Hsome Hn.
  assert (Hlen : 1 <= len (ecs.Events svc)).
  { unfold len. destruct (ecs.Events svc); [contradiction|]. cbn. lia. }
  destruct (clampCount_bounds (len (ecs.Events svc)) n Hlen Hn)
    as (Hrange & _).
  exists (Z.to_nat (clampCount (len (ecs.Events svc)) n)).
  rewrite (V2_printLastNEvents_snapshot cp n s lat svc rest Hreply).
  destruct (Z.eqb_spec (len (ecs.Events svc)) 0); [lia|].
  unfold bind at 1. rewrite slice0_in_range by exact Hrange. reflexivity.
Qed.

(** X12. On a snapshot with events and for a count [n] that is not negative,
    [printLastNEvents] of the second variant never panics: it prints a
    prefix of the event list (the newest events), never more than [n]
    events when [n] is positive, at least one then, and exactly [n] when
    that many are there. *)
Theorem V2_printLastNEvents_prints_bounded_prefix n s lat svc rest :
  nextDescribeServices cp s = mkReply lat (inr (svc :: rest)) ->
  ecs.Events svc <> [] ->
  0 <= n ->
  exists k,
    V2.printLastNEvents cp n s
    = Ok None (printed (PrintEvents (firstn k (ecs.Events svc)))
                       (afterRefresh lat svc s))
    /\ (k <= List.length (ecs.Events svc))%nat
    /\ (1 <= n -> 1 <= Z.of_nat k <= n)
    /\ (n <= len (ecs.Events svc) -> Z.of_nat k = n).
Proof.
  intros Hreply Hsome Hn.
  assert (Hlen : 1 <= len (ecs.Events svc)).
  { unfold len. destruct (ecs.Events svc); [contradiction|]. cbn. lia. }
  destruct (clampCount_bounds (len (ecs.Events svc)) n Hlen Hn)
    as (Hrange & Hmax & Hone & Hexact).
  exists (Z.to_nat (clampCount (len (ecs.Events svc)) n)).
  rewrite (V2_printLastNEvents_snapshot cp n s lat svc rest Hreply).
  destruct (Z.eqb_spec (len (ecs.Events svc)) 0); [lia|].
  unfold bind at 1. rewrite slice0_in_range by exact Hrange.
  split; [reflexivity|]. unfold len in *. repeat split; lia.
Qed.

Lemma V2_printLastNEvents_returns n s :
  0 <= n ->
  exists r s',
    V2.printLastNEvents cp n s = Ok r s'
    /\ calls s' = describeCall s :: calls s.
Proof.
  intros Hn.
  destruct (nextDescribeServices cp s) as [lat [msg|[|svc rest]]] eqn:Hreply.
  - unfold V2.printLastNEvents. unfold bind at 1.
    rewrite (refresh_sdk_error cp s lat msg Hreply).
    do 2 eexists. split; reflexivity.
  - unfold V2.printLastNEvents. unfold bind at 1.
    rewrite (refresh_no_service cp s lat Hreply).
    do 2 eexists. split; reflexivity.
  - destruct (ecs.Events svc) as [|ev evs] eqn:Hev.
    + rewrite (V2_printLastNEvents_none cp n s lat svc rest Hreply Hev).
      do 2 eexists. split; reflexivity.
    + destruct (V2_printLastNEvents_prints_bounded_prefix_aux n s lat svc rest
                  Hreply ltac:(rewrite Hev; discriminate) Hn) as (k & Hrun).
      rewrite Hrun. do 2 eexists. split; reflexivity.
Qed.

Lemma V2_printLastNTasks_by_reply_aux n s lat r :
  0 <= n ->
  nextListTasks cp s = mkReply lat r ->
  V2.printLastNTasks cp n s
  = let s1 := afterCall (listTasksCall s) lat s in
    match r with
    | inl msg => Ok (Some (SdkError msg)) s1
    | inr [] =>
        Ok None (printed (Text "AWS API returned no STOPPED tasks to show.") s1)
    | inr (arn :: arns) =>
        let asked :=
          firstn (Z.to_nat (clampCount (len (arn :: arns)) n)) (arn :: arns) in
        let s2 :=
          afterCall (CallDescribeTasks (clusterName (sh s)) asked)
            (latency (nextDescribeTasks cp s asked)) s1 in
        match payload (nextDescribeTasks cp s asked) with
        | inl msg => Ok (Some (SdkError msg)) s2
        | inr described => Ok None (printed (PrintTasks described) s2)
        end
    end.
Proof.
  intros Hn Hreply. unfold V2.printLastNTasks. unfold bind at 1.
  unfold callListTasks, apiCall. unfold nextListTasks in Hreply.
  rewrite Hreply. cbn [payload latency]. cbv zeta.
  destruct r as [msg|[|arn arns]]; [reflexivity | reflexivity |].
  assert (Hlen : 1 <= len (arn :: arns)) by (unfold len; cbn; lia).
  destruct (clampCount_bounds _ n Hlen Hn) as (Hrange & _).
  destruct (Z.eqb_spec (len (arn :: arns)) 0); [lia|].
  unfold bind at 1. rewrite slice0_in_range by exact Hrange.
  unfold bind at 1. unfold callDescribeTasks, apiCall, nextDescribeTasks.
  cbn [sh now calls out selects countCalls filter isDescribeTasks].
  destruct (payload _); reflexivity.
Qed.

(** X13. What [printLastNTasks] of the second variant does for a count that is
    not negative, by what [ListTasks] and [DescribeTasks] answer: an error
    of either call is returned, and after a failed or empty list no
    [DescribeTasks] call is made; otherwise the tasks described are
    printed, and the ARNs asked about are a prefix of the list, the same
    that [printLastNEvents] would take.  It never panics. *)
Theorem V2_printLastNTasks_by_reply n s lat r :
  0 <= n ->
  nextListTasks cp s = mkReply lat r ->
  V2.printLastNTasks cp n s
  = let s1 := afterCall (listTasksCall s) lat s in
    match r with
    | inl msg => Ok (Some (SdkError msg)) s1
    | inr [] =>
        Ok None (printed (Text "AWS API returned no STOPPED tasks to show.") s1)
    | inr (arn :: arns) =>
        let asked :=
          firstn (Z.to_nat (clampCount (len (arn :: arns)) n)) (arn :: arns) in
        let s2 :=
          afterCall (CallDescribeTasks (clusterName (sh s)) asked)
            (latency (nextDescribeTasks cp s asked)) s1 in
        match payload (nextDescribeTasks cp s asked) with
        | inl msg => Ok (Some (SdkError msg)) s2
        | inr described => Ok None (printed (PrintTasks described) s2)
        end
    end.
Proof. exact (V2_printLastNTasks_by_reply_aux n s lat r). Qed.

Lemma V2_printLastNTasks_returns n s :
  0 <= n ->
  exists r s',
    V2.printLastNTasks cp n s = Ok r s'
    /\ countCalls isListTasks s' = S (countCalls isListTasks s)
    /\ countCalls isDescribeServices s' = countCalls isDescribeServices s.
Proof.
  intros Hn.
  destruct (nextListTasks cp s) as [lat r] eqn:Hreply.
  rewrite (V2_printLastNTasks_by_reply_aux n s lat r Hn Hreply). cbv zeta.
  destruct r as [msg|[|arn arns]];
    [| |destruct (payload _)]; do 2 eexists; (split; [reflexivity|]);
    split; reflexivity.
Qed.

(** X14. [exitOut] of the second variant always ends the process with the
    code it is given, whatever the control plane answers: it never
    returns and never panics, an error of the events step or of the tasks
    step is printed and changes nothing of that, and the stopped tasks are
    listed even when the events could not be fetched. *)
Theorem V2_exitOut_always_exits_with_code (A : Type) (code : Z) s :
  exists s',
    @V2.exitOut cp A code s = Exit code s'
    /\ countCalls isDescribeServices s'
       = S (countCalls isDescribeServices s)
    /\ countCalls isListTasks s' = S (countCalls isListTasks s).
Proof.
  unfold V2.exitOut. unfold bind at 1. cbn [getHandler].
  unfold bind at 1. unfold Printf at 1, emit at 1.
  unfold bind at 1. unfold Println at 1, emit at 1.
  unfold bind at 1.
  match goal with
  | |- context [V2.printLastNEvents cp 10 ?st] =>
      destruct (V2_printLastNEvents_returns 10 st ltac:(lia))
        as (r1 & s1 & Hev & Hcalls1);
      rewrite Hev
  end.
  assert (Hd1 : countCalls isDescribeServices s1
                = S (countCalls isDescribeServices s))
    by (unfold countCalls; rewrite Hcalls1; reflexivity).
  assert (Hl1 : countCalls isListTasks s1 = countCalls isListTasks s)
    by (unfold countCalls; rewrite Hcalls1; reflexivity).
  set (s2 := match r1 with
             | Some e =>
                 printed (Text ("There was an error listing the events. Error: "
                                ++ Error e)) s1
             | None => s1
             end).
  assert (Hstep1 :
    forall (k : unit -> M A),
      bind (match r1 with
            | Some e =>
                Printf ("There was an error listing the events. Error: "
                        ++ Error e)
            | None => ret tt
            end) k s1 = k tt s2).
  { intros k. subst s2. destruct r1; reflexivity. }
  rewrite Hstep1. unfold bind at 1. unfold Println at 1, emit at 1.
  unfold bind at 1.
  match goal with
  | |- context [V2.printLastNTasks cp 5 ?st] =>
      destruct (V2_printLastNTasks_returns 5 st ltac:(lia))
        as (r2 & s3 & Htk & Hl3 & Hd3);
      rewrite Htk
  end.
  assert (Hd2 : countCalls isDescribeServices s2
                = countCalls isDescribeServices s1)
    by (subst s2; destruct r1; reflexivity).
  assert (Hl2 : countCalls isListTasks s2 = countCalls isListTasks s1)
    by (subst s2; destruct r1; reflexivity).
  change (countCalls isListTasks (printed _ s2))
    with (countCalls isListTasks s2) in Hl3.
  change (countCalls isDescribeServices (printed _ s2))
    with (countCalls isDescribeServices s2) in Hd3.
  destruct r2 as [e|]; unfold bind, Printf, emit, ret, osExit;
    eexists; (split; [reflexivity|]);
    unfold countCalls in *; cbn [calls] in *; split; congruence.
Qed.
End DiagnosticsV2.

(** ** More edges of the diagnostics and of the target-group check *)

Section Edges.
Variable cp : ControlPlane.

(** X15. In the first variant, when [ListTasks] returns no stopped task and a
    positive count is asked for, [printLastNTasks] writes the two debug
    lines (0 and -1) to standard error and panics on slicing
    [TaskArns[0:-1]]; [DescribeTasks] is not called. *)
Theorem V1_no_stopped_tasks_panics n s lat :
  nextListTasks cp s = mkReply lat (inr []) ->
  0 < n ->
  V1.printLastNTasks cp n s
  = Panic "slice bounds out of range"
      (printed (StderrText ("-1" ++ nl)%string)
         (printed (StderrText ("0" ++ nl)%string)
            (afterCall (listTasksCall s) lat s))).
Proof.
  intros Hreply Hn. unfold V1.printLastNTasks. unfold bind at 1.
  unfold callListTasks, apiCall. unfold nextListTasks in Hreply.
  rewrite Hreply. cbn [payload latency]. cbv zeta.
  rewrite len_nil. rewrite clampCount_under_supply by lia.
  unfold bind at 1. unfold emit at 1.
  unfold bind at 1. unfold emit at 1.
  unfold bind at 1. rewrite slice0_negative by lia. reflexivity.
Qed.

(** X16. An error of the [DescribeTargetHealth] call is what
    [checkTargetGroup] returns, with the answer false. *)
Theorem target_health_error_is_returned s lat svc rest lb lbs lat' msg :
  nextDescribeServices cp s = mkReply lat (inr (svc :: rest)) ->
  ecs.LoadBalancers svc = lb :: lbs ->
  nextDescribeTargetHealth cp s (ecs.TargetGroupArn lb)
  = mkReply lat' (inl msg) ->
  V2.checkTargetGroup cp s
  = Ok (false, Some (SdkError msg))
       (afterCall (CallDescribeTargetHealth (ecs.TargetGroupArn lb)) lat'
          (afterRefresh lat svc s)).
Proof.
  intros Hreply Hlb Hhealth.
  unfold V2.checkTargetGroup. unfold bind at 1.
  rewrite (refresh_snapshot cp s lat svc rest Hreply).
  unfold bind at 1.
  cbn [getCurrentOutput afterRefresh sh withSnapshot currentOutput].
  rewrite Hlb. unfold bind at 1.
  unfold callDescribeTargetHealth, apiCall.
  change (DescribeTargetHealth cp
            (countCalls isDescribeTargetHealth (afterRefresh lat svc s))
            (ecs.TargetGroupArn lb))
    with (nextDescribeTargetHealth cp s (ecs.TargetGroupArn lb)).
  rewrite Hhealth. reflexivity.
Qed.

(** X17. A target group without registered targets counts as healthy: when
    [DescribeTargetHealth] returns no description, [checkTargetGroup]
    answers true. *)
Theorem empty_target_group_counts_as_healthy s lat svc rest lb lbs lat' :
  nextDescribeServices cp s = mkReply lat (inr (svc :: rest)) ->
  ecs.LoadBalancers svc = lb :: lbs ->
  nextDescribeTargetHealth cp s (ecs.TargetGroupArn lb)
  = mkReply lat' (inr []) ->
  V2.checkTargetGroup cp s
  = Ok (true, None)
       (afterCall (CallDescribeTargetHealth (ecs.TargetGroupArn lb)) lat'
          (afterRefresh lat svc s)).
Proof.
  intros Hreply Hlb Hhealth.
  rewrite (checkTargetGroup_bound cp s lat svc rest lb lbs lat' []
             Hreply Hlb Hhealth).
  reflexivity.
Qed.

Lemma checkTargetGroup_unbound s lat svc rest :
  nextDescribeServices cp s = mkReply lat (inr (svc :: rest)) ->
  ecs.LoadBalancers svc = [] ->
  V2.checkTargetGroup cp s
  = Ok (true, None)
       (printed (Text ("No load balancer to check." ++ nl)%string)
                (afterRefresh lat svc s)).
Proof.
  intros Hreply Hnone. unfold V2.checkTargetGroup. unfold bind at 1.
  rewrite (refresh_snapshot cp s lat svc rest Hreply).
  unfold bind at 1.
  cbn [getCurrentOutput afterRefresh sh withSnapshot currentOutput].
  rewrite Hnone. reflexivity.
Qed.
End Edges.

(** ** How a run ends *)

Section Endings.
Variable cp : ControlPlane.

Lemma bind_Ok_inv {A B} (c : M A) (k : A -> M B) s b s' :
  bind c k s = Ok b s' ->
  exists a s1, c s = Ok a s1 /\ k a s1 = Ok b s'.
Proof.
  unfold bind. destruct (c s) as [a s1| | |]; try discriminate.
  intros H. exists a, s1. split; [reflexivity | exact H].
Qed.

Lemma exitsOnly_bind {A B} P (c : M A) (k : A -> M B) :
  exitsOnly P c -> (forall a, exitsOnly P (k a)) -> exitsOnly P (bind c k).
Proof.
  intros Hc Hk s code s'. unfold bind.
  destruct (c s) as [a s1|msg s1|code1 s1|] eqn:Hcs; try discriminate.
  - apply Hk.
  - intros [= <- <-]. exact (Hc s code1 s1 Hcs).
Qed.

Lemma neverExits_exitsOnly {A} P (c : M A) : neverExits c -> exitsOnly P c.
Proof. intros Hc s code s' H. destruct (Hc s code s' H). Qed.

Lemma neverReturns_bind {A B} (c : M A) (k : A -> M B) :
  (forall a, neverReturns (k a)) -> neverReturns (bind c k).
Proof.
  intros Hk s b s' H. apply bind_Ok_inv in H as (a & s1 & _ & H).
  exact (Hk a s1 b s' H).
Qed.

Lemma neverReturns_front {A B} (c : M A) (k : A -> M B) :
  neverReturns c -> neverReturns (bind c k).
Proof.
  intros Hc s b s' H. apply bind_Ok_inv in H as (a & s1 & H & _).
  exact (Hc s a s1 H).
Qed.

Lemma neverReturns_osExit {A} code : neverReturns (@osExit A code).
Proof. intros s a s'. discriminate. Qed.

(** The elementary effects never end the process. *)
Ltac elementary :=
  intros ? ? ?; cbv beta zeta delta
    [ret emit Println Printf panic outOfFuel getHandler setCurrentOutput
     setVerbose setHandler getCurrentOutput deref advance Sleep NewTicker
     apiCall callDescribeServices callListTasks callDescribeTasks
     callDescribeTargetHealth select2 slice0 enableVerbosePrinting
     describeServiceRaw showVersion verbosePrint];
  repeat match goal with
         | |- context [match ?x with _ => _ end] => destruct x
         end;
  discriminate.

Lemma neverExits_ret {A} (a : A) : neverExits (ret a).
Proof. elementary. Qed.
Lemma neverExits_emit o : neverExits (emit o).
Proof. elementary. Qed.
Lemma neverExits_Println t : neverExits (Println t).
Proof. elementary. Qed.
Lemma neverExits_Printf t : neverExits (Printf t).
Proof. elementary. Qed.
Lemma neverExits_panic {A} msg : neverExits (@panic A msg).
Proof. elementary. Qed.
Lemma neverExits_outOfFuel {A} : neverExits (@outOfFuel A).
Proof. elementary. Qed.
Lemma neverExits_getHandler : neverExits getHandler.
Proof. elementary. Qed.
Lemma neverExits_setCurrentOutput svc : neverExits (setCurrentOutput svc).
Proof. elementary. Qed.
Lemma neverExits_setHandler h : neverExits (setHandler h).
Proof. elementary. Qed.
Lemma neverExits_enableVerbosePrinting b : neverExits (enableVerbosePrinting b).
Proof. elementary. Qed.
Lemma neverExits_getCurrentOutput : neverExits getCurrentOutput.
Proof. elementary. Qed.
Lemma neverExits_deref {A} (p : option A) : neverExits (deref p).
Proof. elementary. Qed.
Lemma neverExits_Sleep d : neverExits (Sleep d).
Proof. elementary. Qed.
Lemma neverExits_NewTicker d : neverExits (NewTicker d).
Proof. elementary. Qed.
Lemma neverExits_callDescribeServices : neverExits (callDescribeServices cp).
Proof. elementary. Qed.
Lemma neverExits_describeServiceRaw : neverExits (describeServiceRaw cp).
Proof. elementary. Qed.
Lemma neverExits_callListTasks : neverExits (callListTasks cp).
Proof. elementary. Qed.
Lemma neverExits_callDescribeTasks l : neverExits (callDescribeTasks cp l).
Proof. elementary. Qed.
Lemma neverExits_callDescribeTargetHealth arn :
  neverExits (callDescribeTargetHealth cp arn).
Proof. elementary. Qed.
Lemma neverExits_select2 a b : neverExits (select2 cp a b).
Proof. elementary. Qed.
Lemma neverExits_slice0 {A} (l : list A) n : neverExits (slice0 l n).
Proof. elementary. Qed.
Lemma neverExits_showVersion p : neverExits (showVersion p).
Proof. elementary. Qed.
Lemma neverExits_verbosePrint p t : neverExits (verbosePrint p t).
Proof. elementary. Qed.

Create HintDb endings.
#[local] Hint Resolve neverExits_ret neverExits_emit neverExits_Println
  neverExits_Printf neverExits_panic neverExits_outOfFuel
  neverExits_getHandler neverExits_setCurrentOutput neverExits_setHandler
  neverExits_enableVerbosePrinting neverExits_getCurrentOutput
  neverExits_deref neverExits_Sleep neverExits_NewTicker
  neverExits_callDescribeServices neverExits_describeServiceRaw
  neverExits_callListTasks neverExits_callDescribeTasks
  neverExits_callDescribeTargetHealth neverExits_select2 neverExits_slice0
  neverExits_showVersion neverExits_verbosePrint : endings.

(** Structural descent: through binds, branches and bound patterns. *)
Ltac descend :=
  repeat first
    [ solve [auto with endings]
    | solve [apply neverExits_exitsOnly; auto with endings]
    | apply exitsOnly_bind; [|intros ?]
    | match goal with
      | |- exitsOnly _ (match ?x with _ => _ end) => destruct x
      | |- neverExits (match ?x with _ => _ end) => destruct x
      | |- neverExits (bind _ _) => apply exitsOnly_bind; [|intros ?]
      end ].

Lemma neverExits_refresh : neverExits (refresh cp).
Proof. unfold refresh. descend. Qed.
#[local] Hint Resolve neverExits_refresh : endings.

Lemma neverExits_printDetails : neverExits printDetails.
Proof. unfold printDetails. descend. Qed.
#[local] Hint Resolve neverExits_printDetails : endings.

Lemma neverExits_countsMatch : neverExits countsMatch.
Proof. unfold countsMatch. descend. Qed.
#[local] Hint Resolve neverExits_countsMatch : endings.

Lemma neverExits_count_loop fuel : forall a b,
  neverExits (waitForRunningToMatchDesired_loop cp fuel a b).
Proof.
  induction fuel as [|fuel IH]; intros a b;
    cbn [waitForRunningToMatchDesired_loop]; cbv zeta; descend.
Qed.
#[local] Hint Resolve neverExits_count_loop : endings.

Lemma neverExits_waitForRunningToMatchDesired fuel :
  neverExits (waitForRunningToMatchDesired cp fuel).
Proof. unfold waitForRunningToMatchDesired. descend. Qed.
#[local] Hint Resolve neverExits_waitForRunningToMatchDesired : endings.

Lemma neverExits_checkPendingCount fuel :
  neverExits (checkPendingCount cp fuel).
Proof. unfold checkPendingCount. descend. Qed.
#[local] Hint Resolve neverExits_checkPendingCount : endings.

Lemma neverExits_V1_isCompleteIn ds id : neverExits (V1.isCompleteIn ds id).
Proof.
  induction ds as [|d ds IH]; cbn [V1.isCompleteIn]; descend.
Qed.
Lemma neverExits_V2_isCompleteIn ds id : neverExits (V2.isCompleteIn ds id).
Proof.
  induction ds as [|d ds IH]; cbn [V2.isCompleteIn]; descend.
Qed.
#[local] Hint Resolve neverExits_V1_isCompleteIn neverExits_V2_isCompleteIn
  : endings.

Lemma neverExits_V1_loop fuel : forall id a b,
  neverExits (V1.waitForDeployment_loop cp fuel id a b).
Proof.
  induction fuel as [|fuel IH]; intros id a b;
    cbn [V1.waitForDeployment_loop]; unfold V1.isComplete; descend.
Qed.
Lemma neverExits_V2_loop fuel : forall id a b,
  neverExits (V2.waitForDeployment_loop cp fuel id a b).
Proof.
  induction fuel as [|fuel IH]; intros id a b;
    cbn [V2.waitForDeployment_loop]; unfold V2.isComplete; descend.
Qed.
#[local] Hint Resolve neverExits_V1_loop neverExits_V2_loop : endings.

Lemma neverExits_V1_range fuel ds :
  neverExits (V1.checkDeployments_range cp fuel ds).
Proof.
  induction ds as [|d ds IH]; cbn [V1.checkDeployments_range];
    unfold V1.waitForDeployment; descend.
Qed.
#[local] Hint Resolve neverExits_V1_range : endings.

Lemma neverExits_V1_checkDeployments fuel :
  neverExits (V1.checkDeployments cp fuel).
Proof. unfold V1.checkDeployments. descend. Qed.

Lemma neverExits_V2_checkDeployments fuel :
  neverExits (V2.checkDeployments cp fuel).
Proof.
  unfold V2.checkDeployments, V2.getActiveDeploymentId, V2.waitForDeployment,
    V2.isComplete.
  descend.
Qed.
#[local] Hint Resolve neverExits_V1_checkDeployments
  neverExits_V2_checkDeployments : endings.

Lemma neverExits_range ts acc : neverExits (V2.checkTargetGroup_range ts acc).
Proof.
  revert acc. induction ts as [|t ts IH]; intros acc;
    cbn [V2.checkTargetGroup_range]; descend.
Qed.
#[local] Hint Resolve neverExits_range : endings.

Lemma neverExits_checkTargetGroup : neverExits (V2.checkTargetGroup cp).
Proof. unfold V2.checkTargetGroup. descend. Qed.
#[local] Hint Resolve neverExits_checkTargetGroup : endings.



Lemma neverReturns_exitOut {A} code :
  neverReturns (@V1.exitOut cp A code) /\ neverReturns (@V2.exitOut cp A code).
Proof.
  unfold V1.exitOut, V2.exitOut.
  split; repeat (apply neverReturns_bind; intros ?);
    apply neverReturns_osExit.
Qed.




Ltac binv H a s1 H1 :=
  apply bind_Ok_inv in H; destruct H as (a & s1 & H1 & H).

Lemma main_converge_returns rounds fuel p : forall s u s',
  V2.main_converge cp rounds fuel p s = Ok u s' ->
  exists sB sB' sC,
    checkPendingCount cp fuel sB = Ok None sB'
    /\ V2.checkTargetGroup cp sC = Ok (true, None) s'.
Proof.
  destruct (@neverReturns_exitOut unit 1) as [_ Hnever].
  induction rounds as [|rounds IH]; intros s u s' H; [discriminate|].
  cbn [V2.main_converge] in H.
  binv H u1 s1 H1. injection H1 as _ <-.
  binv H err s2 HB. binv H u3 s3 Hm.
  destruct err as [e|].
  { exfalso. binv Hm u4 s4 H4. exact (Hnever _ _ _ Hm). }
  injection Hm as _ <-.
  binv H u4 s4 H4. injection H4 as _ <-.
  binv H r s5 HC. destruct r as [ok err].
  binv H u6 s6 Hm.
  destruct err as [e|].
  { exfalso. binv Hm u7 s7 H7. exact (Hnever _ _ _ Hm). }
  injection Hm as _ <-.
  destruct ok.
  - injection H as _ <-. do 3 eexists. split; [exact HB | exact HC].
  - binv H u7 s7 H7. binv H u8 s8 H8. exact (IH _ _ _ H).
Qed.

(** X19. A run that returns from [main] (exit code 0) without -h or -v has
    converged: in the second variant, Phase A returned nil, and the last
    round of Phase B returned nil and was followed by a target-group check
    that answered true without error, right before the closing line; in
    the first variant, Phase A and then Phase B returned nil.  A failed
    phase never falls through to success. *)
Theorem main_returns_only_after_convergence rounds fuel p s s' :
  flagHelp (flags p) = false ->
  flagVersion (flags p) = false ->
  (V2.main cp rounds fuel p s = Ok tt s' ->
   exists sA sA' sB sB' sC sC',
     V2.checkDeployments cp fuel sA = Ok None sA'
     /\ checkPendingCount cp fuel sB = Ok None sB'
     /\ V2.checkTargetGroup cp sC = Ok (true, None) sC'
     /\ s' = printed (Text ("Service looks good." ++ nl)%string) sC')
  /\ (V1.main cp fuel p s = Ok tt s' ->
      exists sA sA' sB sB',
        V1.checkDeployments cp fuel sA = Ok None sA'
        /\ checkPendingCount cp fuel sB = Ok None sB'
        /\ s' = printed (Text ("Service looks good." ++ nl)%string) sB').
Proof.
  intros Hhelp Hver.
  destruct (@neverReturns_exitOut unit 1) as [Hnever1 Hnever2].
  split; intros H.
  - unfold V2.main in H. rewrite Hhelp, Hver in H.
    destruct (sessionError p) as [msg|].
    { binv H u1 s1 H1. discriminate H. }
    binv H u1 s1 H1. binv H u2 s2 H2. binv H r s3 H3.
    destruct r as [msg|[|svc rest]].
    { binv H u4 s4 H4. discriminate H. }
    { binv H u4 s4 H4. binv H u5 s5 H5. discriminate H. }
    binv H err s4 H4. binv H u5 s5 Hm.
    destruct err as [e|].
    { exfalso. binv Hm u6 s6 H6. discriminate Hm. }
    binv H u6 s6 H6. binv H u7 s7 H7.
    binv H err s8 HA. binv H u9 s9 Hm2.
    destruct err as [e|].
    { exfalso. binv Hm2 u10 s10 H10. exact (Hnever2 _ _ _ Hm2). }
    binv H u10 s10 H10. binv H u11 s11 Hconv.
    destruct (main_converge_returns _ _ _ _ _ _ Hconv)
      as (sB & sB' & sC & HB & HC).
    injection H as <-.
    exists s7, s8, sB, sB', sC, s11. repeat split; assumption.
  - unfold V1.main in H. rewrite Hhelp, Hver in H.
    destruct (sessionError p) as [msg|].
    { binv H u1 s1 H1. discriminate H. }
    binv H u1 s1 H1. binv H u2 s2 H2. binv H r s3 H3.
    destruct r as [msg|[|svc rest]].
    { binv H u4 s4 H4. discriminate H. }
    { binv H u4 s4 H4. binv H u5 s5 H5. discriminate H. }
    binv H err s4 H4. binv H u5 s5 Hm.
    destruct err as [e|].
    { exfalso. binv Hm u6 s6 H6. discriminate Hm. }
    binv H u6 s6 H6. binv H u7 s7 H7.
    binv H err s8 HA. binv H u9 s9 Hm2.
    destruct err as [e|].
    { exfalso. binv Hm2 u10 s10 H10. exact (Hnever1 _ _ _ Hm2). }
    injection Hm2 as _ <-.
    binv H u10 s10 H10. binv H u11 s11 H11.
    binv H err s12 HB. binv H u13 s13 Hm3.
    destruct err as [e|].
    { exfalso. binv Hm3 u14 s14 H14. exact (Hnever1 _ _ _ Hm3). }
    injection Hm3 as _ <-.
    injection H as <-.
    exists s7, s8, s11, s12. repeat split; assumption.
Qed.
End Endings.

(** ** [main] from start to finish *)

Section Main.
Variable cp : ControlPlane.

Lemma bind_Ok {A B} (c : M A) (k : A -> M B) s a s1 :
  c s = Ok a s1 -> bind c k s = k a s1.
Proof. unfold bind. intros ->. reflexivity. Qed.

Lemma main_started rounds fuel p s :
  flagHelp (flags p) = false ->
  flagVersion (flags p) = false ->
  sessionError p = None ->
  V2.main cp rounds fuel p s
  = (serviceDetails <- describeServiceRaw cp ;;
     match serviceDetails with
     | inl msg =>
         Printf ("Error describing service. Error: " ++ msg) ;;
         osExit 1
     | inr [] =>
         Println "Service not found" ;;
         verbosePrint p (emptyOutputText p ++ nl)%string ;;
         osExit 1
     | inr (_ :: _) =>
         err <- refresh cp ;;
         match err with
         | Some e =>
             Printf ("Failed to refresh service details. Error: "
                     ++ Error e ++ nl)%string ;;
             osExit 1
         | None => ret tt
         end ;;
         (if flagVerbose (flags p) then printDetails else ret tt) ;;
         Println "Looking at deployments status." ;;
         err <- V2.checkDeployments cp fuel ;;
         match err with
         | Some e =>
             Printf ("there was an error while checking the state of deployments. Error: "
                     ++ Error e ++ nl)%string ;;
             V2.exitOut cp 1
         | None => ret tt
         end ;;
         Println "Deployments checked." ;;
         V2.main_converge cp rounds fuel p ;;
         Println "Service looks good."
     end) (started p s).
Proof.
  intros Hhelp Hver Hsession. unfold V2.main.
  rewrite Hhelp, Hver, Hsession. reflexivity.
Qed.

Lemma V1_main_started fuel p s :
  flagHelp (flags p) = false ->
  flagVersion (flags p) = false ->
  sessionError p = None ->
  V1.main cp fuel p s
  = (serviceDetails <- describeServiceRaw cp ;;
     match serviceDetails with
     | inl msg =>
         Printf ("Error describing service. Error: " ++ msg) ;;
         osExit 1
     | inr [] =>
         Println "Service not found" ;;
         verbosePrint p (emptyOutputText p ++ nl)%string ;;
         osExit 1
     | inr (_ :: _) =>
         err <- refresh cp ;;
         match err with
         | Some e =>
             Printf ("Failed to refresh service details. Error: "
                     ++ Error e ++ nl)%string ;;
             osExit 1
         | None => ret tt
         end ;;
         (if flagVerbose (flags p) then printDetails else ret tt) ;;
         Println "Checking if there is a pending deployment." ;;
         err <- V1.checkDeployments cp fuel ;;
         match err with
         | Some e =>
             Printf ("there was an error while checking the state of deployments. Error: "
                     ++ Error e ++ nl)%string ;;
             V1.exitOut cp 1
         | None => ret tt
         end ;;
         Println "Deployments checked." ;;
         Println "Checking that running matches desired tasks." ;;
         err <- checkPendingCount cp fuel ;;
         match err with
         | Some e =>
             Printf ("There was an error checking the pending out. Error: "
                     ++ Error e ++ nl)%string ;;
             V1.exitOut cp 1
         | None => ret tt
         end ;;
         Println "Service looks good."
     end) (started p s).
Proof.
  intros Hhelp Hver Hsession. unfold V1.main.
  rewrite Hhelp, Hver, Hsession. reflexivity.
Qed.

(** X20. When the session cannot be made, or the look-up of the service at
    start fails or finds no service, both variants end the process with
    code 1 at once: at most the one look-up call is made, no phase is
    entered and [exitOut] with its diagnostics is not run. *)
Theorem failed_lookup_exits_without_diagnostics rounds fuel p s :
  flagHelp (flags p) = false ->
  flagVersion (flags p) = false ->
  sessionError p <> None
  \/ (forall svc rest,
        payload (nextDescribeServices cp s) <> inr (svc :: rest)) ->
  exists s',
    V1.main cp fuel p s = Exit 1 s'
    /\ V2.main cp rounds fuel p s = Exit 1 s'
    /\ (calls s' = calls s
        \/ calls s'
           = CallDescribeServices (flagClusterName (flags p))
               (flagServiceName (flags p)) :: calls s).
Proof.
  intros Hhelp Hver Hfail.
  destruct (sessionError p) as [msg|] eqn:Hsession.
  - unfold V1.main, V2.main. rewrite Hhelp, Hver, Hsession.
    eexists. split; [reflexivity|]. split; [reflexivity|].
    left. reflexivity.
  - destruct Hfail as [Hfail|Hfail]; [contradiction|].
    rewrite (main_started rounds fuel p s Hhelp Hver Hsession).
    rewrite (V1_main_started fuel p s Hhelp Hver Hsession).
    set (r := nextDescribeServices cp s) in *.
    assert (Hraw : describeServiceRaw cp (started p s)
                   = Ok (payload r)
                        (afterCall (describeCall (started p s)) (latency r)
                           (started p s))) by reflexivity.
    do 2 erewrite (bind_Ok _ _ _ _ _ Hraw).
    clearbody r. clear Hraw.
    destruct r as [lat [msg|[|svc rest]]]; cbn [payload latency] in *.
    + eexists. split; [reflexivity|]. split; [reflexivity|].
      right. reflexivity.
    + unfold verbosePrint. destruct (flagVerbose (flags p));
        (eexists; split; [reflexivity|]; split; [reflexivity|];
         right; reflexivity).
    + destruct (Hfail svc rest eq_refl).
Qed.
(** [printDetails] empties the events of the cached snapshot itself. *)
Lemma printDetails_cached s svc :
  currentOutput (sh s) = Some svc ->
  printDetails s
  = Ok tt (printed (PrintService (withoutEvents svc))
                   (cached (withoutEvents svc) s)).
Proof.
  intros Hcur. unfold printDetails, bind, getCurrentOutput.
  rewrite Hcur. reflexivity.
Qed.

Ltac step := erewrite bind_Ok by reflexivity; cbv beta iota.
Ltac step_with H := erewrite (bind_Ok _ _ _ _ _ H); cbv beta iota.
Ltac step_at c f :=
  match goal with
  | |- context [bind c ?k ?st] =>
      let pf := f st in
      rewrite (bind_Ok c k st _ _ pf); cbv beta iota
  end.

(** X21. A steady service costs five [DescribeServices] calls and no waiting:
    when the look-up and the first refresh find the service, the fetch of
    Phase A shows the tracked deployment COMPLETED, that of Phase B equal
    counts and that of Phase C no load balancer, [main] of the second
    variant returns (exit code 0) in its first round, having made these
    five calls and no other, without a [select] or a sleep: the clock
    moves by the latencies of the calls only. *)
Theorem steady_service_converges_in_five_calls rounds fuel p s
    l0 svc0 r0 l1 svc1 r1 l2 svc2 r2 d l3 svc3 r3 l4 svc4 r4 :
  flagHelp (flags p) = false ->
  flagVersion (flags p) = false ->
  sessionError p = None ->
  DescribeServices cp (countCalls isDescribeServices s)
  = mkReply l0 (inr (svc0 :: r0)) ->
  DescribeServices cp (1 + countCalls isDescribeServices s)
  = mkReply l1 (inr (svc1 :: r1)) ->
  DescribeServices cp (2 + countCalls isDescribeServices s)
  = mkReply l2 (inr (svc2 :: r2)) ->
  findDeployment (V2.firstPrimary (ecs.Deployments svc2)) svc2 = Some d ->
  rolloutState d = "COMPLETED" ->
  DescribeServices cp (3 + countCalls isDescribeServices s)
  = mkReply l3 (inr (svc3 :: r3)) ->
  aws.Int64Value (ecs.DesiredCount svc3)
  = aws.Int64Value (ecs.RunningCount svc3) ->
  DescribeServices cp (4 + countCalls isDescribeServices s)
  = mkReply l4 (inr (svc4 :: r4)) ->
  ecs.LoadBalancers svc4 = [] ->
  exists s',
    V2.main cp (S rounds) fuel p s = Ok tt s'
    /\ calls s'
       = repeat (CallDescribeServices (flagClusterName (flags p))
                   (flagServiceName (flags p))) 5 ++ calls s
    /\ selects s' = selects s
    /\ now s' = now s + Z.of_N l0 + Z.of_N l1 + Z.of_N l2 + Z.of_N l3
                + Z.of_N l4.
Proof.
  intros Hhelp Hver Hsession H0 H1 H2 Hfind Hdone H3 Hequal H4 Hnolb.
  rewrite (main_started (S rounds) fuel p s Hhelp Hver Hsession).
  assert (Hraw : describeServiceRaw cp (started p s)
                 = Ok (inr (svc0 :: r0))
                      (afterCall (describeCall (started p s)) l0
                         (started p s))).
  { unfold describeServiceRaw, callDescribeServices, apiCall.
    change (DescribeServices cp (countCalls isDescribeServices (started p s)))
      with (DescribeServices cp (countCalls isDescribeServices s)).
    rewrite H0. reflexivity. }
  step_with Hraw.
  step_at (refresh cp)
    ltac:(fun st => constr:(refresh_snapshot cp st l1 svc1 r1 H1)).
  step.
  destruct (flagVerbose (flags p)) eqn:Hverbose.
  - step_at printDetails
      ltac:(fun st => constr:(printDetails_cached st svc1 eq_refl)).
    step.
    step_at (V2.checkDeployments cp fuel)
      ltac:(fun st => constr:(V2_checkDeployments_completed cp fuel st l2
                                svc2 r2 d H2 Hfind Hdone)).
    step. step. cbn [V2.main_converge].
    erewrite (bind_Ok (bind _ _)); cycle 1.
    { step.
      step_at (checkPendingCount cp fuel)
        ltac:(fun st => constr:(checkPendingCount_equal_counts cp fuel st l3
                                  svc3 r3 H3 Hequal)).
      step. step.
      step_at (V2.checkTargetGroup cp)
        ltac:(fun st => constr:(checkTargetGroup_unbound cp st l4 svc4 r4
                                  H4 Hnolb)).
      step. reflexivity. }
    eexists. split; [reflexivity|]. repeat split.
  - step. step.
    step_at (V2.checkDeployments cp fuel)
      ltac:(fun st => constr:(V2_checkDeployments_completed cp fuel st l2
                                svc2 r2 d H2 Hfind Hdone)).
    step. step. cbn [V2.main_converge].
    erewrite (bind_Ok (bind _ _)); cycle 1.
    { step.
      step_at (checkPendingCount cp fuel)
        ltac:(fun st => constr:(checkPendingCount_equal_counts cp fuel st l3
                                  svc3 r3 H3 Hequal)).
      step. step.
      step_at (V2.checkTargetGroup cp)
        ltac:(fun st => constr:(checkTargetGroup_unbound cp st l4 svc4 r4
                                  H4 Hnolb)).
      step. reflexivity. }
    eexists. split; [reflexivity|]. repeat split.
Qed.
End Main.

(** ** The poll loops keep to their ticker *)

Section Rate.
Variable cp : ControlPlane.

Lemma quiet_bind {A B} (c : M A) (k : A -> M B) :
  quiet c -> (forall a, quiet (k a)) -> quiet (bind c k).
Proof.
  intros Hc Hk s s'. unfold bind.
  destruct (c s) as [a s1|msg s1|code s1|] eqn:Hcs; cbn [finalState];
    try (intros H; apply (Hc s s'); rewrite Hcs; exact H).
  intros H. destruct (Hc s s1) as [Hcalls Hnow]; [rewrite Hcs; reflexivity|].
  destruct (Hk a s1 s' H) as [Hcalls' Hnow']. split; [congruence | lia].
Qed.

Ltac still :=
  intros ? ?; cbv beta iota zeta delta
    [ret emit Println Printf panic outOfFuel getHandler setCurrentOutput
     getCurrentOutput deref advance Sleep NewTicker finalState];
  repeat match goal with
         | |- context [match ?x with _ => _ end] => destruct x
         end;
  intros Hfin;
  first [ discriminate Hfin
        | injection Hfin as <-; cbn [calls now]; split; [reflexivity | lia] ].

Lemma quiet_ret {A} (a : A) : quiet (ret a).
Proof. still. Qed.
Lemma quiet_emit o : quiet (emit o).
Proof. still. Qed.
Lemma quiet_Println t : quiet (Println t).
Proof. still. Qed.
Lemma quiet_Printf t : quiet (Printf t).
Proof. still. Qed.
Lemma quiet_panic {A} msg : quiet (@panic A msg).
Proof. still. Qed.
Lemma quiet_outOfFuel {A} : quiet (@outOfFuel A).
Proof. still. Qed.
Lemma quiet_getHandler : quiet getHandler.
Proof. still. Qed.
Lemma quiet_getCurrentOutput : quiet getCurrentOutput.
Proof.
  intros s s'. unfold getCurrentOutput.
  destruct (currentOutput (sh s)); cbn [finalState]; intros [= <-];
    (split; [reflexivity | lia]).
Qed.
Lemma quiet_deref {A} (p : option A) : quiet (deref p).
Proof. destruct p; still. Qed.
Lemma quiet_Sleep d : quiet (Sleep d).
Proof. still. Qed.
Lemma quiet_NewTicker d : quiet (NewTicker d).
Proof.
  intros s s'. unfold NewTicker.
  destruct (d <=? 0); cbn [finalState]; intros [= <-];
    (split; [reflexivity | lia]).
Qed.

Create HintDb rate.
#[local] Hint Resolve quiet_ret quiet_emit quiet_Println quiet_Printf
  quiet_panic quiet_outOfFuel quiet_getHandler quiet_getCurrentOutput
  quiet_deref quiet_Sleep quiet_NewTicker : rate.

Ltac hush :=
  repeat first
    [ solve [auto with rate]
    | apply quiet_bind; [|intros ?]
    | match goal with
      | |- quiet (match ?x with _ => _ end) => destruct x
      end ].

Lemma quiet_countsMatch : quiet countsMatch.
Proof. unfold countsMatch. hush. Qed.
Lemma quiet_V1_isCompleteIn ds id : quiet (V1.isCompleteIn ds id).
Proof. induction ds as [|d ds IH]; cbn [V1.isCompleteIn]; hush. Qed.
Lemma quiet_V2_isCompleteIn ds id : quiet (V2.isCompleteIn ds id).
Proof. induction ds as [|d ds IH]; cbn [V2.isCompleteIn]; hush. Qed.
#[local] Hint Resolve quiet_countsMatch quiet_V1_isCompleteIn
  quiet_V2_isCompleteIn : rate.
Lemma quiet_V1_isComplete id : quiet (V1.isComplete id).
Proof. unfold V1.isComplete. hush. Qed.
Lemma quiet_V2_isComplete id : quiet (V2.isComplete id).
Proof. unfold V2.isComplete. hush. Qed.
#[local] Hint Resolve quiet_V1_isComplete quiet_V2_isComplete : rate.

Lemma keepsSlack_quiet {A} p lb n T (c : M A) :
  0 <= p -> quiet c -> keepsSlack p lb n T c.
Proof.
  intros Hp Hc s s' Hlb Hn HT Hfin.
  destruct (Hc s s' Hfin) as [Hcalls Hnow].
  unfold slack, countCalls in *. rewrite Hcalls. lia.
Qed.

Lemma keepsSlack_bind {A B} p lb n T (c : M A) (k : A -> M B) :
  0 <= p ->
  quiet c -> (forall a, keepsSlack p lb n T (k a)) ->
  keepsSlack p lb n T (bind c k).
Proof.
  intros Hp Hc Hk s s' Hlb Hn HT. unfold bind.
  destruct (c s) as [a s1|msg s1|code s1|] eqn:Hcs; cbn [finalState];
    try (intros H; apply (keepsSlack_quiet p lb n T c Hp Hc s s' Hlb Hn HT);
         rewrite Hcs; exact H).
  intros H. destruct (Hc s s1) as [Hcalls Hnow]; [rewrite Hcs; reflexivity|].
  apply (Hk a s1 s'); try exact H.
  - unfold slack, countCalls in *. rewrite Hcalls. lia.
  - unfold countCalls in *. rewrite Hcalls. exact Hn.
  - lia.
Qed.

Ltac settle Hp :=
  repeat first
    [ assumption
    | solve [apply (keepsSlack_quiet _ _ _ _ _ Hp); auto with rate]
    | apply (keepsSlack_bind _ _ _ _ _ _ Hp); [solve [hush]|intros ?]
    | match goal with
      | |- keepsSlack _ _ _ _ (match ?x with _ => _ end) => destruct x
      end ].

(** A receive moves the next firing time on by a period at least. *)
Lemma nextFire_recv_later a t :
  0 < period a -> nextFire a <= t ->
  nextFire a + period a <= nextFire (recv a t).
Proof.
  intros Hp Ht. unfold nextFire in *. cbn [recv start period lastRecv].
  set (q := (lastRecv a - start a) / period a) in *.
  assert (Hq : q + 1 <= (t - start a) / period a).
  { apply Z.div_le_lower_bound; [exact Hp | lia]. }
  nia.
Qed.

Lemma firesFirst_after_fire a b s :
  firesFirst cp a b s = true -> nextFire a <= selectTime a b s.
Proof.
  unfold firesFirst, select2, selectTime.
  set (t := Z.max (now s) (Z.min (nextFire a) (nextFire b))).
  destruct (Z.leb_spec (nextFire a) t) as [Hle|Hgt]; [intros _; exact Hle|].
  cbn [andb]. discriminate.
Qed.

Lemma selectTime_after_now a b s : now s <= selectTime a b s.
Proof. unfold selectTime. lia. Qed.

Lemma refresh_effect s :
  exists r s1,
    refresh cp s = Ok r s1
    /\ countCalls isDescribeServices s1
       = S (countCalls isDescribeServices s)
    /\ now s <= now s1.
Proof.
  destruct (nextDescribeServices cp s) as [lat [msg|[|svc rest]]] eqn:Hreply;
    [rewrite (refresh_sdk_error cp s lat msg Hreply)
    |rewrite (refresh_no_service cp s lat Hreply)
    |rewrite (refresh_snapshot cp s lat svc rest Hreply)];
    do 2 eexists; (split; [reflexivity|]); split;
    try reflexivity; cbn [now afterCall afterRefresh]; lia.
Qed.

(** One iteration of a poll loop, whatever its tick does after the
    refresh, as long as that keeps the slack. *)
Lemma tick_keeps_slack {A} a b s s'
    (front : M unit) (body : option error -> Ticker -> Ticker -> M A)
    (timeout : M A) :
  0 < period a ->
  start a <= lastRecv a <= now s ->
  quiet front -> quiet timeout ->
  (nextFire a <= selectTime a b s ->
   forall r,
     keepsSlack (period a)
       (nextFire a - period a
        - period a * Z.of_nat (countCalls isDescribeServices s))
       (S (countCalls isDescribeServices s)) (selectTime a b s)
       (body r (recv a (selectTime a b s)) b)) ->
  finalState
    (bind (select2 cp a b)
       (fun x =>
          let '(fired, a', b') := x in
          match fired with
          | FiredFirst => front ;; r <- refresh cp ;; body r a' b'
          | FiredSecond => timeout
          end) s) = Some s' ->
  nextFire a - period a
  - period a * Z.of_nat (countCalls isDescribeServices s)
  <= slack (period a) s'.
Proof.
  intros Hp [Hstart Hrecv] Hfront Htimeout Hbody.
  pose proof (nextFire_bounds a Hp Hstart) as Hnext.
  pose proof (selectTime_after_now a b s) as Hafter.
  unfold bind at 1.
  destruct (firesFirst cp a b s) eqn:Hsel.
  - rewrite (select2_first cp a b s Hsel).
    pose proof (firesFirst_after_fire a b s Hsel) as Hfire.
    set (s0 := afterSelect (selectTime a b s) s).
    unfold bind at 1.
    destruct (front s0) as [u s1|msg s1|code s1|] eqn:Hf; cbn [finalState];
      try (intros Hfin;
           destruct (Hfront s0 s') as [Hc Hn]; [rewrite Hf; exact Hfin|];
           unfold slack, countCalls; rewrite Hc; subst s0;
           cbn [afterSelect calls now] in *;
           fold (countCalls isDescribeServices s); lia).
    destruct (Hfront s0 s1) as [Hc1 Hn1]; [rewrite Hf; reflexivity|].
    destruct (refresh_effect s1) as (r & s2 & Hr & Hc2 & Hn2).
    unfold bind at 1. rewrite Hr.
    assert (Hcount : countCalls isDescribeServices s1
                     = countCalls isDescribeServices s)
      by (unfold countCalls; rewrite Hc1; reflexivity).
    subst s0. cbn [afterSelect now] in Hn1.
    apply (Hbody Hfire r s2 s').
    + unfold slack. rewrite Hc2, Hcount, Nat2Z.inj_succ. lia.
    + rewrite Hc2, Hcount. reflexivity.
    + lia.
  - rewrite (select2_second cp a b s Hsel).
    intros Hfin.
    destruct (Htimeout (afterSelect (selectTime a b s) s) s' Hfin)
      as [Hc Hn].
    unfold slack, countCalls. rewrite Hc. cbn [afterSelect calls now] in *.
    fold (countCalls isDescribeServices s). lia.
Qed.
Lemma loop_leaf {A} (loop : Ticker -> Ticker -> M A) a b s :
  0 < period a ->
  start a <= lastRecv a <= now s ->
  nextFire a <= selectTime a b s ->
  (forall s4 s'',
     start a <= selectTime a b s <= now s4 ->
     finalState (loop (recv a (selectTime a b s)) b s4) = Some s'' ->
     nextFire (recv a (selectTime a b s)) - period a
     - period a * Z.of_nat (countCalls isDescribeServices s4)
     <= slack (period a) s'') ->
  keepsSlack (period a)
    (nextFire a - period a
     - period a * Z.of_nat (countCalls isDescribeServices s))
    (S (countCalls isDescribeServices s)) (selectTime a b s)
    (loop (recv a (selectTime a b s)) b).
Proof.
  intros Hp [Hstart Hrecv] Hfire IH s4 s'' Hlb Hn HT Hfin.
  pose proof (selectTime_after_now a b s) as Hafter.
  pose proof (nextFire_recv_later a (selectTime a b s) Hp Hfire) as Hlater.
  specialize (IH s4 s'' ltac:(lia) Hfin).
  rewrite Hn, Nat2Z.inj_succ in IH. lia.
Qed.

Lemma V2_loop_keeps_slack fuel : forall id a b s s',
  0 < period a ->
  start a <= lastRecv a <= now s ->
  finalState (V2.waitForDeployment_loop cp fuel id a b s) = Some s' ->
  nextFire a - period a
  - period a * Z.of_nat (countCalls isDescribeServices s)
  <= slack (period a) s'.
Proof.
  induction fuel as [|fuel IH]; intros id a b s s' Hp Hrecv Hfin;
    [discriminate|].
  assert (Hp0 : 0 <= period a) by lia.
  cbn [V2.waitForDeployment_loop] in Hfin.
  refine (tick_keeps_slack a b s s' _
            (fun err a' b' =>
               match err with
               | Some e => ret (Some e)
               | None => _
               end) _ Hp Hrecv _ _ _ Hfin); [hush | hush |].
  intros Hfire r.
  assert (Hleaf := loop_leaf (V2.waitForDeployment_loop cp fuel id) a b s
                     Hp Hrecv Hfire
                     (fun s4 s'' H4 =>
                        IH id (recv a (selectTime a b s)) b s4 s'' Hp H4)).
  settle Hp0.
Qed.

Lemma V1_loop_keeps_slack fuel : forall id a b s s',
  0 < period a ->
  start a <= lastRecv a <= now s ->
  finalState (V1.waitForDeployment_loop cp fuel id a b s) = Some s' ->
  nextFire a - period a
  - period a * Z.of_nat (countCalls isDescribeServices s)
  <= slack (period a) s'.
Proof.
  induction fuel as [|fuel IH]; intros id a b s s' Hp Hrecv Hfin;
    [discriminate|].
  assert (Hp0 : 0 <= period a) by lia.
  cbn [V1.waitForDeployment_loop] in Hfin.
  refine (tick_keeps_slack a b s s' _
            (fun err a' b' =>
               match err with
               | Some e => ret (Some e)
               | None => _
               end) _ Hp Hrecv _ _ _ Hfin); [hush | hush |].
  intros Hfire r.
  assert (Hleaf := loop_leaf (V1.waitForDeployment_loop cp fuel id) a b s
                     Hp Hrecv Hfire
                     (fun s4 s'' H4 =>
                        IH id (recv a (selectTime a b s)) b s4 s'' Hp H4)).
  settle Hp0.
Qed.

Lemma count_loop_keeps_slack fuel : forall a b s s',
  0 < period a ->
  start a <= lastRecv a <= now s ->
  finalState (waitForRunningToMatchDesired_loop cp fuel a b s) = Some s' ->
  nextFire a - period a
  - period a * Z.of_nat (countCalls isDescribeServices s)
  <= slack (period a) s'.
Proof.
  induction fuel as [|fuel IH]; intros a b s s' Hp Hrecv Hfin;
    [discriminate|].
  assert (Hp0 : 0 <= period a) by lia.
  cbn [waitForRunningToMatchDesired_loop] in Hfin. cbv zeta in Hfin.
  refine (tick_keeps_slack a b s s' _ (fun _ a' b' => _) _
            Hp Hrecv _ _ _ Hfin); [hush | hush |].
  intros Hfire r.
  assert (Hleaf := loop_leaf (waitForRunningToMatchDesired_loop cp fuel) a b s
                     Hp Hrecv Hfire
                     (fun s4 s'' H4 =>
                        IH (recv a (selectTime a b s)) b s4 s'' Hp H4)).
  settle Hp0.
Qed.
Lemma rate_from_entry (loop : Ticker -> Ticker -> M (option error)) s s' :
  (forall a b s s',
     0 < period a ->
     start a <= lastRecv a <= now s ->
     finalState (loop a b s) = Some s' ->
     nextFire a - period a
     - period a * Z.of_nat (countCalls isDescribeServices s)
     <= slack (period a) s') ->
  finalState
    ((checkTimer <- NewTicker (time.Second * 10) ;;
      timeout <- NewTicker (time.Minute * 10) ;;
      loop checkTimer timeout) s) = Some s' ->
  now s + time.Second * 10
          * (Z.of_nat (countCalls isDescribeServices s')
             - Z.of_nat (countCalls isDescribeServices s))
  <= now s'.
Proof.
  intros Hloop Hfin.
  unfold bind at 1 in Hfin. unfold NewTicker at 1 in Hfin.
  change (time.Second * 10 <=? 0) with false in Hfin. cbv beta iota in Hfin.
  unfold bind at 1 in Hfin. unfold NewTicker at 1 in Hfin.
  change (time.Minute * 10 <=? 0) with false in Hfin. cbv beta iota in Hfin.
  apply Hloop in Hfin; cbn [start period lastRecv] in *;
    [|reflexivity|lia].
  unfold nextFire, slack in Hfin. cbn [start period lastRecv] in Hfin.
  rewrite Z.sub_diag in Hfin. change (0 / (time.Second * 10)) with 0 in Hfin.
  lia.
Qed.

Lemma rate_after_quiet {A B} (c : M A) (k : A -> M B) s s' :
  quiet c ->
  (forall a s1,
     finalState (k a s1) = Some s' ->
     now s1 + time.Second * 10
              * (Z.of_nat (countCalls isDescribeServices s')
                 - Z.of_nat (countCalls isDescribeServices s1))
     <= now s') ->
  finalState (bind c k s) = Some s' ->
  now s + time.Second * 10
          * (Z.of_nat (countCalls isDescribeServices s')
             - Z.of_nat (countCalls isDescribeServices s))
  <= now s'.
Proof.
  intros Hc Hk. unfold bind.
  destruct (c s) as [a s1|msg s1|code s1|] eqn:Hcs; cbn [finalState];
    try (intros Hfin; destruct (Hc s s') as [Hcalls Hnow];
         [rewrite Hcs; exact Hfin|];
         unfold countCalls; rewrite Hcalls; lia).
  intros Hfin. destruct (Hc s s1) as [Hcalls Hnow]; [rewrite Hcs; reflexivity|].
  specialize (Hk a s1 Hfin). unfold countCalls in *. rewrite Hcalls in Hk.
  lia.
Qed.

(** X23. The poll loops keep to their ticker, whatever the control plane
    answers, however long its calls take and whichever case the runtime
    picks: a run of [waitForDeployment] (either variant) or of
    [waitForRunningToMatchDesired] that has made m [DescribeServices]
    calls has taken at least m times ten seconds of clock. *)
Theorem poll_loops_call_once_per_ten_seconds_at_most fuel id s s' :
  finalState (V1.waitForDeployment cp fuel id s) = Some s'
  \/ finalState (V2.waitForDeployment cp fuel id s) = Some s'
  \/ finalState (waitForRunningToMatchDesired cp fuel s) = Some s' ->
  now s + time.Second * 10
          * (Z.of_nat (countCalls isDescribeServices s')
             - Z.of_nat (countCalls isDescribeServices s))
  <= now s'.
Proof.
  intros [Hfin|[Hfin|Hfin]].
  - apply (rate_from_entry (V1.waitForDeployment_loop cp fuel id) s s');
      [|exact Hfin].
    intros a b s0 s0'. apply V1_loop_keeps_slack.
  - unfold V2.waitForDeployment in Hfin.
    apply (rate_after_quiet _ _ s s' (quiet_V2_isComplete id)) in Hfin;
      [exact Hfin|].
    intros [status ok] s1. destruct ok.
    + intros [= <-]. lia.
    + apply (rate_from_entry (V2.waitForDeployment_loop cp fuel id)).
      intros a b s0 s0'. apply V2_loop_keeps_slack.
  - unfold waitForRunningToMatchDesired in Hfin.
    apply (rate_after_quiet _ _ s s' quiet_countsMatch) in Hfin;
      [exact Hfin|].
    intros ok s1. destruct ok.
    + intros [= <-]. lia.
    + apply (rate_from_entry (waitForRunningToMatchDesired_loop cp fuel)).
      intros a b s0 s0'. apply count_loop_keeps_slack.
Qed.
End Rate.

(** ** The rounds of [main] *)

Section Rounds.
Variable cp : ControlPlane.

Lemma int64_small z : - 2 ^ 63 <= z < 2 ^ 63 -> int64 z = z.
Proof. intros Hz. unfold int64. rewrite Z.mod_small; lia. Qed.

(** X22. A round of [main] in which Phase B returns nil and the target-group
    check answers false without error is followed by another round after
    a sleep of the -check interval in seconds (no sleep when the interval
    is zero or negative); here the flag is read, unlike in the poll loops.
    No call is made between the two rounds. *)
Theorem unhealthy_targets_are_rechecked_after_check_interval
    rounds fuel p s s1 s2 :
  checkPendingCount cp fuel
    (printed (Text ("Checking that running matches desired tasks." ++ nl)%string) s)
  = Ok None s1 ->
  V2.checkTargetGroup cp
    (printed (Text ("Checking the target group is in a good state." ++ nl)%string) s1)
  = Ok (false, None) s2 ->
  - 9223372036 <= flagCheckInterval (flags p) <= 9223372036 ->
  V2.main_converge cp (S rounds) fuel p s
  = V2.main_converge cp rounds fuel p
      (slept (time.Second * flagCheckInterval (flags p))
         (printed (Text ("Waiting " ++ fmt_d (flagCheckInterval (flags p))
                         ++ " seconds before checking tasks again." ++ nl)%string)
            s2)).
Proof.
  intros HB HC Hrange. cbn [V2.main_converge].
  unfold bind at 1. unfold Println at 1, emit at 1.
  unfold printed in HB. unfold bind at 1. rewrite HB.
  unfold bind at 1. unfold ret at 1.
  unfold bind at 1. unfold Println at 1, emit at 1.
  unfold printed in HC. unfold bind at 1. rewrite HC.
  unfold bind at 1. unfold ret at 1.
  unfold bind at 1. unfold Printf at 1, emit at 1.
  unfold bind at 1. unfold Sleep, advance.
  rewrite int64_small by (unfold time.Second; lia).
  reflexivity.
Qed.
End Rounds.

(** ** Instances of the further properties *)

Section MoreInstances.
Import Examples MoreExamples.

Lemma phase_entry_refresh_error_is_returned_witness :
  refresh downPlane (initState webHandler)
  = Ok (Some (SdkError "AccessDeniedException"))
       (afterCall describeWeb 0 (initState webHandler))
  /\ V1.checkDeployments downPlane 3 (initState webHandler)
     = Ok (Some (SdkError "AccessDeniedException"))
          (afterCall describeWeb 0 (initState webHandler))
  /\ V2.checkDeployments downPlane 3 (initState webHandler)
     = Ok (Some (SdkError "AccessDeniedException"))
          (afterCall describeWeb 0 (initState webHandler))
  /\ checkPendingCount downPlane 3 (initState webHandler)
     = Ok (Some (SdkError "AccessDeniedException"))
          (afterCall describeWeb 0 (initState webHandler))
  /\ V2.checkTargetGroup downPlane (initState webHandler)
     = Ok (false, Some (SdkError "AccessDeniedException"))
          (afterCall describeWeb 0 (initState webHandler)).
Proof.
  split; [reflexivity|].
  apply (phase_entry_refresh_error_is_returned downPlane 3
           (initState webHandler)).
  reflexivity.
Defined.

Lemma equal_counts_on_first_fetch_need_no_poll_witness :
  nextDescribeServices completedPlane (initState webHandler)
  = mkReply 0 (inr [completedService])
  /\ aws.Int64Value (ecs.DesiredCount completedService)
     = aws.Int64Value (ecs.RunningCount completedService)
  /\ checkPendingCount completedPlane 0 (initState webHandler)
     = Ok None (afterRefresh 0 completedService (initState webHandler)).
Proof.
  split; [reflexivity|]. split; [reflexivity|].
  apply (equal_counts_on_first_fetch_need_no_poll completedPlane 0
           (initState webHandler) 0%N completedService []);
    reflexivity.
Defined.

Lemma unequal_counts_keep_count_loop_waiting_witness :
  firesFirst shortPlane (checkTimerAfter 0) timeoutTicker
    (pollingState 0 shortService) = true
  /\ nextDescribeServices shortPlane (pollingState 0 shortService)
     = mkReply 0 (inr [shortService])
  /\ waitForRunningToMatchDesired_loop shortPlane 1
       (checkTimerAfter 0) timeoutTicker (pollingState 0 shortService)
     = waitForRunningToMatchDesired_loop shortPlane 0
         (recv (checkTimerAfter 0)
            (selectTime (checkTimerAfter 0) timeoutTicker
               (pollingState 0 shortService)))
         timeoutTicker
         (printed (waitingCounts webHandler 2 1)
            (afterRefresh 0 shortService
               (printed checkingCounts
                  (afterSelect
                     (selectTime (checkTimerAfter 0) timeoutTicker
                        (pollingState 0 shortService))
                     (pollingState 0 shortService))))).
Proof.
  split; [reflexivity|]. split; [reflexivity|].
  apply (unequal_counts_keep_count_loop_waiting shortPlane 0
           (checkTimerAfter 0) timeoutTicker (pollingState 0 shortService)
           0%N shortService [] 2 1);
    try reflexivity.
  discriminate.
Defined.

Lemma missing_count_panics_count_loop_witness :
  firesFirst countlessPlane (checkTimerAfter 0) timeoutTicker
    (pollingState 0 countlessService) = true
  /\ ecs.DesiredCount countlessService = None
  /\ waitForRunningToMatchDesired_loop countlessPlane 1
       (checkTimerAfter 0) timeoutTicker (pollingState 0 countlessService)
     = Panic "nil pointer dereference"
         (afterRefresh 0 countlessService
            (printed checkingCounts
               (afterSelect
                  (selectTime (checkTimerAfter 0) timeoutTicker
                     (pollingState 0 countlessService))
                  (pollingState 0 countlessService)))).
Proof.
  split; [reflexivity|]. split; [reflexivity|].
  apply (missing_count_panics_count_loop countlessPlane 0
           (checkTimerAfter 0) timeoutTicker
           (pollingState 0 countlessService) 0%N countlessService []);
    try reflexivity.
  - discriminate.
  - left. reflexivity.
Defined.

Lemma never_matching_counts_time_out_after_ten_minutes_witness :
  currentOutput (sh (pollingState 0 shortService)) = Some shortService
  /\ exists s',
       waitForRunningToMatchDesired shortPlane 61
         (pollingState 0 shortService)
       = Ok (Some (Errorf "timeouted out waiting for desired to match running"))
            s'
       /\ now s' = now (pollingState 0 shortService) + time.Minute * 10.
Proof.
  split; [reflexivity|].
  apply (never_matching_counts_time_out_after_ten_minutes shortPlane 0
           (pollingState 0 shortService) shortService).
  - reflexivity.
  - discriminate.
  - intros k. split; [|reflexivity].
    exists shortService, [], 2, 1. repeat split. discriminate.
Defined.

Lemma V2_tick_refresh_error_witness :
  firesFirst flakyPlane (checkTimerAfter 0) timeoutTicker
    (pollingState 0 stuckService) = true
  /\ nextDescribeServices flakyPlane (pollingState 0 stuckService)
     = mkReply 0 (inl "RequestError: send request failed")
  /\ V2.waitForDeployment_loop flakyPlane 1 "ecs-svc/1"
       (checkTimerAfter 0) timeoutTicker (pollingState 0 stuckService)
     = Ok (Some (SdkError "RequestError: send request failed"))
          (afterCall describeWeb 0
             (printed (V2_checking "ecs-svc/1")
                (afterSelect
                   (selectTime (checkTimerAfter 0) timeoutTicker
                      (pollingState 0 stuckService))
                   (pollingState 0 stuckService)))).
Proof.
  split; [reflexivity|]. split; [reflexivity|].
  apply (V2_tick_refresh_error flakyPlane 0 "ecs-svc/1"
           (checkTimerAfter 0) timeoutTicker (pollingState 0 stuckService)
           0%N);
    reflexivity.
Defined.

Lemma V1_waits_for_in_progress_deployments_only_witness :
  nextDescribeServices failedPlane (initState webHandler)
  = mkReply 0 (inr [failedService])
  /\ rolloutState failedDeployment = "FAILED"
  /\ V1.checkDeployments failedPlane 3 (initState webHandler)
     = Ok None (afterRefresh 0 failedService (initState webHandler)).
Proof.
  split; [reflexivity|]. split; [reflexivity|].
  apply (V1_waits_for_in_progress_deployments_only failedPlane 3
           (initState webHandler) 0%N failedService []);
    [reflexivity|].
  repeat constructor. discriminate.
Defined.

Lemma tracked_deployment_is_first_primary_witness :
  find isPrimary [draining; rolling] = Some rolling
  /\ V2.firstPrimary [draining; rolling] = "ecs-svc/2"
  /\ find (hasId (V2.firstPrimary [draining; rolling])) [draining; rolling]
     = Some rolling.
Proof.
  split; [reflexivity|].
  apply (tracked_deployment_is_first_primary [draining; rolling] rolling);
    [reflexivity|].
  repeat constructor; cbn; intuition discriminate.
Defined.

Lemma V2_printLastNEvents_prints_bounded_prefix_witness :
  nextDescribeServices twoEventsPlane (initState webHandler)
  = mkReply 0 (inr [twoEventsService])
  /\ exists k,
       V2.printLastNEvents twoEventsPlane 10 (initState webHandler)
       = Ok None
           (printed (PrintEvents (firstn k (ecs.Events twoEventsService)))
              (afterRefresh 0 twoEventsService (initState webHandler)))
       /\ (k <= List.length (ecs.Events twoEventsService))%nat
       /\ (1 <= 10 -> 1 <= Z.of_nat k <= 10)
       /\ (10 <= len (ecs.Events twoEventsService) -> Z.of_nat k = 10).
Proof.
  split; [reflexivity|].
  apply (V2_printLastNEvents_prints_bounded_prefix twoEventsPlane 10
           (initState webHandler) 0%N twoEventsService []);
    [reflexivity | discriminate | lia].
Defined.

Lemma V2_printLastNTasks_by_reply_witness :
  nextListTasks twoEventsPlane (initState webHandler)
  = mkReply 0 (inr twoStopped)
  /\ V2.printLastNTasks twoEventsPlane 5 (initState webHandler)
     = Ok None
         (printed (PrintTasks [task "arn:task/1"])
            (afterCall (CallDescribeTasks "prod" ["arn:task/1"]) 0
               (afterCall (CallListTasks "prod" "web" "STOPPED") 0
                  (initState webHandler)))).
Proof.
  split; [reflexivity|].
  exact (V2_printLastNTasks_by_reply twoEventsPlane 5 (initState webHandler)
           0%N (inr twoStopped) ltac:(lia) eq_refl).
Defined.

Lemma V1_no_stopped_tasks_panics_witness :
  nextListTasks completedPlane (initState webHandler) = mkReply 0 (inr [])
  /\ V1.printLastNTasks completedPlane 5 (initState webHandler)
     = Panic "slice bounds out of range"
         (printed (StderrText ("-1" ++ nl)%string)
            (printed (StderrText ("0" ++ nl)%string)
               (afterCall (CallListTasks "prod" "web" "STOPPED") 0
                  (initState webHandler)))).
Proof.
  split; [reflexivity|].
  apply (V1_no_stopped_tasks_panics completedPlane 5 (initState webHandler)
           0%N);
    reflexivity.
Defined.

Lemma target_health_error_is_returned_witness :
  nextDescribeServices blindPlane (initState webHandler)
  = mkReply 0 (inr [balancedService])
  /\ nextDescribeTargetHealth blindPlane (initState webHandler)
       (ecs.TargetGroupArn firstBinding)
     = mkReply 0 (inl "TargetGroupNotFound")
  /\ V2.checkTargetGroup blindPlane (initState webHandler)
     = Ok (false, Some (SdkError "TargetGroupNotFound"))
          (afterCall (CallDescribeTargetHealth (Some "arn:targetgroup/a")) 0
             (afterRefresh 0 balancedService (initState webHandler))).
Proof.
  split; [reflexivity|]. split; [reflexivity|].
  apply (target_health_error_is_returned blindPlane (initState webHandler)
           0%N balancedService [] firstBinding [secondBinding] 0%N);
    reflexivity.
Defined.

Lemma empty_target_group_counts_as_healthy_witness :
  nextDescribeServices emptyGroupPlane (initState webHandler)
  = mkReply 0 (inr [balancedService])
  /\ nextDescribeTargetHealth emptyGroupPlane (initState webHandler)
       (ecs.TargetGroupArn firstBinding)
     = mkReply 0 (inr [])
  /\ V2.checkTargetGroup emptyGroupPlane (initState webHandler)
     = Ok (true, None)
          (afterCall (CallDescribeTargetHealth (Some "arn:targetgroup/a")) 0
             (afterRefresh 0 balancedService (initState webHandler))).
Proof.
  split; [reflexivity|]. split; [reflexivity|].
  apply (empty_target_group_counts_as_healthy emptyGroupPlane
           (initState webHandler) 0%N balancedService [] firstBinding
           [secondBinding] 0%N);
    reflexivity.
Defined.


Lemma main_returns_only_after_convergence_witness :
  exists s',
    V2.main completedPlane 1 0 webProcess (initState webHandler) = Ok tt s'
    /\ exists sA sA' sB sB' sC sC',
         V2.checkDeployments completedPlane 0 sA = Ok None sA'
         /\ checkPendingCount completedPlane 0 sB = Ok None sB'
         /\ V2.checkTargetGroup completedPlane sC = Ok (true, None) sC'
         /\ s' = printed (Text ("Service looks good." ++ nl)%string) sC'.
Proof.
  assert (Hrun : exists s',
             V2.main completedPlane 1 0 webProcess (initState webHandler)
             = Ok tt s')
    by (eexists; vm_compute; reflexivity).
  destruct Hrun as (s' & Hrun). exists s'. split; [exact Hrun|].
  destruct (main_returns_only_after_convergence completedPlane 1 0
              webProcess (initState webHandler) s' eq_refl eq_refl)
    as [Hsecond _].
  exact (Hsecond Hrun).
Defined.

Lemma failed_lookup_exits_without_diagnostics_witness :
  payload (nextDescribeServices downPlane (initState webHandler))
  = inl "AccessDeniedException"
  /\ exists s',
       V1.main downPlane 3 webProcess (initState webHandler) = Exit 1 s'
       /\ V2.main downPlane 1 3 webProcess (initState webHandler) = Exit 1 s'
       /\ (calls s' = calls (initState webHandler)
           \/ calls s'
              = CallDescribeServices "prod" "web"
                  :: calls (initState webHandler)).
Proof.
  split; [reflexivity|].
  apply (failed_lookup_exits_without_diagnostics downPlane 1 3 webProcess
           (initState webHandler));
    try reflexivity.
  right. intros svc rest. discriminate.
Defined.

Lemma steady_service_converges_in_five_calls_witness :
  exists s',
    V2.main completedPlane 1 0 webProcess (initState webHandler) = Ok tt s'
    /\ calls s' = repeat (CallDescribeServices "prod" "web") 5
    /\ selects s' = O
    /\ now s' = 0.
Proof.
  apply (steady_service_converges_in_five_calls completedPlane 0 0 webProcess
           (initState webHandler)
           0%N completedService [] 0%N completedService []
           0%N completedService [] completedDeployment
           0%N completedService [] 0%N completedService []);
    reflexivity.
Defined.

Lemma unhealthy_targets_are_rechecked_after_check_interval_witness :
  forallb targetHealthy (healthOf (ecs.TargetGroupArn secondBinding)) = false
  /\ V2.main_converge unsettledPlane 2 0 webProcess (initState webHandler)
     = V2.main_converge unsettledPlane 1 0 webProcess
         (slept (time.Second * 10)
            (printed (Text ("Waiting 10 seconds before checking tasks again."
                            ++ nl)%string) unsettledAfterHealth)).
Proof.
  split; [reflexivity|].
  apply (unhealthy_targets_are_rechecked_after_check_interval
           unsettledPlane 1 0 webProcess (initState webHandler)
           unsettledAfterCounts unsettledAfterHealth);
    [reflexivity | reflexivity | cbn; lia].
Defined.

Lemma poll_loops_call_once_per_ten_seconds_at_most_witness :
  exists s',
    finalState (V2.waitForDeployment vanishingPlane 5 "ecs-svc/1"
                  (pollingState 0 stuckService)) = Some s'
    /\ countCalls isDescribeServices s' = 3%nat
    /\ now (pollingState 0 stuckService)
       + time.Second * 10
         * (Z.of_nat (countCalls isDescribeServices s')
            - Z.of_nat
                (countCalls isDescribeServices (pollingState 0 stuckService)))
       <= now s'.
Proof.
  assert (Hrun : exists s',
             finalState (V2.waitForDeployment vanishingPlane 5 "ecs-svc/1"
                           (pollingState 0 stuckService)) = Some s'
             /\ countCalls isDescribeServices s' = 3%nat)
    by (eexists; split; vm_compute; reflexivity).
  destruct Hrun as (s' & Hrun & Hcalls).
  exists s'. split; [exact Hrun|]. split; [exact Hcalls|].
  apply (poll_loops_call_once_per_ten_seconds_at_most vanishingPlane 5
           "ecs-svc/1").
  right. left. exact Hrun.
Defined.
End MoreInstances.
